(** * board_script.py: KiCad output pipeline

    A shallow embedding of [src/board_script.py] and the properties its
    specification states about it.

    The script is glue around three libraries (pathlib, subprocess,
    zipfile) and the filesystem.  The embedding keeps the script's own
    functions one to one ([which_kicad_cli], [run], [ensure_dir],
    [timestamp_tag], [project_paths], [zip_dir], the four [export_*]
    stages, [run_kikit_fab], [main] and the top-level handler) and gives
    the library calls they make an executable model over an explicit
    world: a filesystem, and the ordered trace of everything observable
    the process does (lines printed, directories requested, processes
    spawned, archive members written).  What the outside decides (the
    search path, the clock, the external tools) is an [Env] the theorems
    quantify over. *)

From Stdlib Require Import ZArith String Ascii List Lia DecimalString.
From stdpp Require Import gmap strings list fin_maps.

Local Open Scope string_scope.
Local Open Scope list_scope.

(* ===================================================================== *)
(** * Strings, as Python's [str] restricted to ASCII                      *)
(* ===================================================================== *)

Module Str.

Definition nl : string := String (ascii_of_nat 10) EmptyString.

(** [c.lower()] on one ASCII character. *)
Definition lower_ascii (c : ascii) : ascii :=
  let n := nat_of_ascii c in
  if (65 <=? n)%nat && (n <=? 90)%nat then ascii_of_nat (n + 32) else c.

(** [s.lower()] *)
Fixpoint lower (s : string) : string :=
  match s with
  | EmptyString => EmptyString
  | String c s' => String (lower_ascii c) (lower s')
  end.

(** [s.rfind(".")], with [None] for Python's [-1]. *)
Fixpoint rfind_dot (s : string) : option nat :=
  match s with
  | EmptyString => None
  | String c s' =>
      match rfind_dot s' with
      | Some i => Some (S i)
      | None => if Ascii.eqb c "." then Some 0%nat else None
      end
  end.

(** [ch in s] *)
Fixpoint contains (ch : ascii) (s : string) : bool :=
  match s with
  | EmptyString => false
  | String c s' => Ascii.eqb c ch || contains ch s'
  end.

(** [s.startswith(".")] *)
Definition starts_with_dot (s : string) : bool :=
  match s with
  | String c _ => Ascii.eqb c "."
  | EmptyString => false
  end.

(** [s[:n]] and [s[n:]] for [0 <= n]. *)
Fixpoint take (n : nat) (s : string) : string :=
  match n, s with
  | S n', String c s' => String c (take n' s')
  | _, _ => EmptyString
  end.

Fixpoint drop (n : nat) (s : string) : string :=
  match n, s with
  | S n', String _ s' => drop n' s'
  | _, _ => s
  end.

(** The characters [str.strip()] removes, among ASCII: tab, LF, VT, FF,
    CR, the four separators FS GS RS US, and the space. *)
Definition is_space (c : ascii) : bool :=
  let n := nat_of_ascii c in
  ((9 <=? n)%nat && (n <=? 13)%nat) || ((28 <=? n)%nat && (n <=? 32)%nat).

Fixpoint lstrip (s : string) : string :=
  match s with
  | String c s' => if is_space c then lstrip s' else s
  | EmptyString => EmptyString
  end.

Fixpoint rstrip (s : string) : string :=
  match s with
  | EmptyString => EmptyString
  | String c s' =>
      match rstrip s' with
      | EmptyString => if is_space c then EmptyString else String c EmptyString
      | r => String c r
      end
  end.

(** [s.strip()] *)
Definition strip (s : string) : string := rstrip (lstrip s).

(** [sep.join(l)] *)
Definition join (sep : string) (l : list string) : string := String.concat sep l.

(** [s.split("/")] *)
Fixpoint split_slash (s : string) : list string :=
  match s with
  | EmptyString => [EmptyString]
  | String c s' =>
      if Ascii.eqb c "/" then EmptyString :: split_slash s'
      else match split_slash s' with
           | [] => [String c EmptyString]
           | h :: t => String c h :: t
           end
  end.

(** The number of leading ["/"]. *)
Fixpoint leading_slashes (s : string) : nat :=
  match s with
  | String c s' => if Ascii.eqb c "/" then S (leading_slashes s') else 0%nat
  | EmptyString => 0%nat
  end.

(** [str(z)] for an [int]. *)
Definition of_Z (z : Z) : string := NilZero.string_of_int (Z.to_int z).

(** One decimal digit, and the zero-padded fields of [strftime]. *)
Definition digit (n : nat) : ascii := ascii_of_nat (48 + n mod 10).

Definition two_digits (n : nat) : string :=
  String (digit (n / 10)) (String (digit n) EmptyString).

Definition four_digits (n : nat) : string :=
  String (digit (n / 1000)) (String (digit (n / 100))
    (String (digit (n / 10)) (String (digit n) EmptyString))).

(** [sub in s] for strings, used to say what a message mentions. *)
Fixpoint mentions (sub s : string) : bool :=
  String.prefix sub s ||
  match s with
  | EmptyString => false
  | String _ s' => mentions sub s'
  end.

End Str.

(* ===================================================================== *)
(** * Exceptions                                                          *)
(* ===================================================================== *)

(** The exception classes that can reach the top-level handler.  The
    script never discriminates on the class (it catches [Exception]); the
    class is kept so that the three failure families of the specification
    can be told apart. *)
Inductive exn_kind : Type :=
| FileNotFoundError
| RuntimeError
| ValueError
| FileExistsError
| NotADirectoryError
| IsADirectoryError
| OSError.

(** An exception object: its class and [str(e)]. *)
Record exn : Type := mkExn { ekind : exn_kind; emsg : string }.

Inductive result (A : Type) : Type :=
| Ok (a : A)
| Raise (e : exn).
Arguments Ok {A} a.
Arguments Raise {A} e.

(* ===================================================================== *)
(** * pathlib, POSIX flavour                                              *)
(* ===================================================================== *)

Module Pathlib.

(** A pure path: the anchor (the root, [""] for a relative path) and
    the components after it. *)
Record Path : Type := mkPath { anchor : string; parts : list string }.

(** A component that survives parsing: not empty and not ["."]. *)
Definition keep_part (s : string) : bool :=
  negb (String.eqb s "") && negb (String.eqb s ".").

(** [Path(s)]: a leading slash gives the root (exactly two leading
    slashes are kept as ["//"]); empty components and ["."] go away;
    [".."] stays. *)
Definition parse (s : string) : Path :=
  let root :=
    match Str.leading_slashes s with
    | O => ""
    | 2%nat => "//"
    | _ => "/"
    end in
  mkPath root (List.filter keep_part (Str.split_slash s)).

(** [str(p)] *)
Definition str (p : Path) : string :=
  match anchor p, parts p with
  | EmptyString, [] => "."
  | a, ps => a +:+ Str.join "/" ps
  end.

(** [p.name] *)
Definition name (p : Path) : string := List.last (parts p) "".

(** Where [name] splits into stem and suffix: the last dot, when it is
    neither the first nor the last character. *)
Definition suffix_index (n : string) : option nat :=
  match Str.rfind_dot n with
  | Some i =>
      if (0 <? i)%nat && (i <? String.length n - 1)%nat then Some i else None
  | None => None
  end.

(** [p.suffix] *)
Definition suffix (p : Path) : string :=
  match suffix_index (name p) with
  | Some i => Str.drop i (name p)
  | None => ""
  end.

(** [p.stem] *)
Definition stem (p : Path) : string :=
  match suffix_index (name p) with
  | Some i => Str.take i (name p)
  | None => name p
  end.

(** [p.with_suffix(suf)] *)
Definition with_suffix (p : Path) (suf : string) : result Path :=
  if Str.contains "/" suf then
    Raise (mkExn ValueError ("Invalid suffix " +:+ suf))
  else if (negb (String.eqb suf "") && negb (Str.starts_with_dot suf))
          || String.eqb suf "." then
    Raise (mkExn ValueError ("Invalid suffix " +:+ suf))
  else if String.eqb (name p) "" then
    Raise (mkExn ValueError (str p +:+ " has an empty name"))
  else
    let old := suffix p in
    let n :=
      if String.eqb old "" then name p +:+ suf
      else Str.take (String.length (name p) - String.length old) (name p) +:+ suf in
    Ok (mkPath (anchor p) (List.removelast (parts p) ++ [n])).

(** [p / s] *)
Definition joinpath (p : Path) (s : string) : Path :=
  let q := parse s in
  if String.eqb (anchor q) "" then mkPath (anchor p) (parts p ++ parts q)
  else q.

(** [l] starts with [pre]: the rest of [l]. *)
Fixpoint strip_prefix (pre l : list string) : option (list string) :=
  match pre, l with
  | [], _ => Some l
  | a :: pre', b :: l' => if String.eqb a b then strip_prefix pre' l' else None
  | _ :: _, [] => None
  end.

(** [p.relative_to(other)] *)
Definition relative_to (p other : Path) : result Path :=
  if String.eqb (anchor p) (anchor other) then
    match strip_prefix (parts other) (parts p) with
    | Some rest => Ok (mkPath "" rest)
    | None =>
        Raise (mkExn ValueError (str p +:+ " is not in the subpath of " +:+ str other))
    end
  else Raise (mkExn ValueError (str p +:+ " is not in the subpath of " +:+ str other)).

End Pathlib.
Import Pathlib.

Notation "p // s" := (joinpath p s) (at level 40, left associativity).

(* ===================================================================== *)
(** * The world the script runs in                                        *)
(* ===================================================================== *)

(** A filesystem entry is a regular file or a directory. *)
Inductive node : Type := NFile | NDir.

(** The filesystem: absolute, normalised locations (the anchor followed by
    the components) to entries.  Symbolic links are not modelled. *)
Abbreviation FS := (gmap (list string) node).

(** What [subprocess.run(..., capture_output=True, text=True)] returns. *)
Record CompletedProcess : Type := mkCompleted {
  returncode : Z;
  stdout : string;
  stderr : string
}.

(** Everything observable the process does, in order.  A printed line is
    recorded without the newline [print] appends. *)
Inductive event : Type :=
| EvStdout (line : string)
| EvStderr (line : string)
| EvMkdir (p : Path)
| EvSpawn (argv : list string) (res : string + CompletedProcess)
| EvZipOpen (zip : Path)
| EvZipWrite (zip : Path) (file : Path) (arcname : Path).

Record World : Type := mkWorld { fs : FS; trace : list event }.

(** [datetime.now()] *)
Record datetime : Type := mkDatetime {
  year : nat; month : nat; day : nat; hour : nat; minute : nat; second : nat
}.

(** What one spawned process did: [subprocess.run] either raised an
    [OSError] (the executable could not be started; its message) or
    returned, and the filesystem is as the process left it. *)
Record Spawned : Type := mkSpawned {
  sp_res : string + CompletedProcess;
  sp_fs : FS
}.

(** The outside, which may answer differently as the run proceeds. *)
Record Env : Type := mkEnv {
  cwd : list string;                          (* [Path.cwd()], as a location *)
  which : World -> string -> option string;   (* [shutil.which] *)
  now : World -> datetime;                    (* [datetime.now()] *)
  spawn : World -> list string -> Spawned     (* the external tools *)
}.

(** ** The monad of the script: a world, and a result or an exception *)

Definition M (A : Type) : Type := World -> result A * World.

Definition ret {A} (a : A) : M A := fun w => (Ok a, w).
Definition raise {A} (e : exn) : M A := fun w => (Raise e, w).
Definition bind {A B} (m : M A) (k : A -> M B) : M B :=
  fun w => match m w with
           | (Ok a, w') => k a w'
           | (Raise e, w') => (Raise e, w')
           end.
Definition lift {A} (r : result A) : M A := fun w => (r, w).

Declare Scope script_scope.
Delimit Scope script_scope with script.
Notation "x <- m ;; k" := (bind m (fun x => k))
  (at level 100, m at next level, right associativity) : script_scope.
Notation "m ;; k" := (bind m (fun _ => k))
  (at level 100, right associativity) : script_scope.
Local Open Scope script_scope.

Definition emit (ev : event) : M unit :=
  fun w => (Ok tt, mkWorld (fs w) (trace w ++ [ev])).

(** [print(s)] and [print(s, file=sys.stderr)] *)
Definition print (s : string) : M unit := emit (EvStdout s).
Definition eprint (s : string) : M unit := emit (EvStderr s).

(** ** Locations *)

(** One step of lexical normalisation: [".."] climbs, never above the
    anchor. *)
Definition norm_step (acc : list string) (c : string) : list string :=
  if String.eqb c ".." then
    match acc with
    | _ :: _ :: _ => List.removelast acc
    | _ => acc
    end
  else acc ++ [c].

(** The location a path denotes for a process whose working directory is
    [cwd E]. *)
Definition location (E : Env) (p : Path) : list string :=
  List.fold_left norm_step (parts p)
    (if String.eqb (anchor p) "" then cwd E else [anchor p]).

(** [p.resolve()] *)
Definition resolve (E : Env) (p : Path) : Path :=
  match location E p with
  | a :: ps => mkPath a ps
  | [] => mkPath "" []
  end.

(** [p.exists()] and [p.is_dir()] *)
Definition path_exists (E : Env) (p : Path) : M bool :=
  fun w => (Ok (bool_decide (is_Some (fs w !! location E p))), w).

Definition is_dir (f : FS) (k : list string) : bool :=
  match f !! k with Some NDir => true | _ => false end.

(** [os.mkdir(k)]: the location must be free and its parent a
    directory. *)
Definition os_mkdir (f : FS) (k : list string) : result FS :=
  match f !! k with
  | Some _ => Raise (mkExn FileExistsError ("[Errno 17] File exists: " +:+ Str.join "/" k))
  | None =>
      match f !! List.removelast k with
      | None =>
          Raise (mkExn FileNotFoundError
                   ("[Errno 2] No such file or directory: " +:+ Str.join "/" k))
      | Some NFile =>
          Raise (mkExn NotADirectoryError ("[Errno 20] Not a directory: " +:+ Str.join "/" k))
      | Some NDir => Ok (<[k := NDir]> f)
      end
  end.

(** The [except OSError] arm of [Path.mkdir] with [exist_ok=True]: the
    error is swallowed exactly when the location is a directory. *)
Definition swallow (f : FS) (k : list string) (e : exn) : result FS :=
  if is_dir f k then Ok f else Raise e.

(** [Path.mkdir(parents=True, exist_ok=True)] on the location whose
    components, last first, are [rk]: try [os.mkdir]; on
    [FileNotFoundError] (and unless the location is its own parent) make
    the parent the same way, then [mkdir(parents=False, exist_ok=True)];
    on any other error, [swallow]. *)
Fixpoint mkdir_parents (f : FS) (rk : list string) : result FS :=
  match os_mkdir f (List.rev rk) with
  | Ok f' => Ok f'
  | Raise e =>
      match ekind e with
      | FileNotFoundError =>
          match rk with
          | [] => Raise e
          | _ :: rparent =>
              match mkdir_parents f rparent with
              | Raise e1 => Raise e1
              | Ok f1 =>
                  match os_mkdir f1 (List.rev rk) with
                  | Ok f2 => Ok f2
                  | Raise e2 =>
                      match ekind e2 with
                      | FileNotFoundError => Raise e2
                      | _ => swallow f1 (List.rev rk) e2
                      end
                  end
              end
          end
      | _ => swallow f (List.rev rk) e
      end
  end.

Definition mkdir_p (E : Env) (p : Path) : M unit :=
  fun w =>
    let w1 := mkWorld (fs w) (trace w ++ [EvMkdir p]) in
    match mkdir_parents (fs w) (List.rev (location E p)) with
    | Ok f' => (Ok tt, mkWorld f' (trace w1))
    | Raise e => (Raise e, w1)
    end.

(** [shutil.which(name)] *)
Definition shutil_which (E : Env) (name : string) : M (option string) :=
  fun w => (Ok (which E w name), w).

(** Python's truth value of [None] or a string. *)
Definition truthy (o : option string) : option string :=
  match o with
  | Some EmptyString => None
  | _ => o
  end.

(** [subprocess.run(cmd, capture_output=True, text=True)] *)
Definition subprocess_run (E : Env) (cmd : list string) : M CompletedProcess :=
  fun w =>
    let s := spawn E w cmd in
    let w' := mkWorld (sp_fs s) (trace w ++ [EvSpawn cmd (sp_res s)]) in
    match sp_res s with
    | inl msg => (Raise (mkExn OSError msg), w')
    | inr cp => (Ok cp, w')
    end.

(** [datetime.now().strftime("%Y%m%d_%H%M")] *)
Definition strftime_minute (d : datetime) : string :=
  Str.four_digits (year d) +:+ Str.two_digits (month d) +:+ Str.two_digits (day d)
  +:+ "_" +:+ Str.two_digits (hour d) +:+ Str.two_digits (minute d).

(** [zipfile.ZipFile(zip, "w")]: creates or truncates the archive file. *)
Definition zip_open (E : Env) (zip : Path) : M unit :=
  fun w =>
    let k := location E zip in
    let w1 := mkWorld (fs w) (trace w ++ [EvZipOpen zip]) in
    match fs w !! k with
    | Some NDir =>
        (Raise (mkExn IsADirectoryError ("[Errno 21] Is a directory: " +:+ str zip)), w1)
    | _ =>
        match fs w !! List.removelast k with
        | Some NDir => (Ok tt, mkWorld (<[k := NFile]> (fs w)) (trace w1))
        | Some NFile =>
            (Raise (mkExn NotADirectoryError ("[Errno 20] Not a directory: " +:+ str zip)), w1)
        | None =>
            (Raise (mkExn FileNotFoundError
                      ("[Errno 2] No such file or directory: " +:+ str zip)), w1)
        end
    end.

(** [src.rglob("*")]: every entry strictly below the directory [src], as
    [src] extended by the components that lead to it; nothing when [src]
    is not a directory. *)
Definition below (k : list string) (entry : list string * node) : option (list string) :=
  match strip_prefix k (fst entry) with
  | Some (c :: rest) => Some (c :: rest)
  | _ => None
  end.

Definition entries_below (f : FS) (k : list string) : list (list string) :=
  if is_dir f k then omap (below k) (map_to_list f) else [].

Definition rglob (E : Env) (src : Path) : M (list Path) :=
  fun w =>
    (Ok (List.map (fun rel => mkPath (anchor src) (parts src ++ rel))
           (entries_below (fs w) (location E src))), w).

(** [for x in l: body(x)] *)
Fixpoint for_each {A} (l : list A) (body : A -> M unit) : M unit :=
  match l with
  | [] => ret tt
  | x :: l' => body x ;; for_each l' body
  end.

(* ===================================================================== *)
(** * The script                                                          *)
(* ===================================================================== *)

(** The parsed command line ([argparse]'s namespace). *)
Record Args : Type := mkArgs {
  project : string;          (* --project, required *)
  root : string;             (* --root, default "." *)
  prod_dir : string;         (* --prod-dir, default "PRODUCTION" *)
  iso : bool;                (* --iso *)
  glb : bool;                (* --glb *)
  zip : bool;                (* --zip *)
  kikit : option string;     (* --kikit, default None *)
  skip_drc : bool            (* --skip-drc *)
}.

Section Script.

Context (E : Env).

(** ** Helpers *)

Definition win_default : Path :=
  parse "C:\Program Files\KiCad\9.0\bin\kicad-cli.exe".

Definition kicad_not_found : string :=
  "kicad-cli not found on PATH and not at default KiCad 9 location." +:+ Str.nl +:+
  "Add KiCad to PATH or set KICAD_CLI env var / adjust this script.".

(** The unused [env = Path(str(Path.cwd()))] of the source reads the
    working directory and has no effect. *)
Definition which_kicad_cli : M string :=
  exe <- shutil_which E "kicad-cli" ;;
  match truthy exe with
  | Some exe => ret exe
  | None =>
      found <- path_exists E win_default ;;
      if found then ret (str win_default)
      else raise (mkExn FileNotFoundError kicad_not_found)
  end.

(** No caller passes [cwd]; the parameter is left at its default. *)
Definition run (cmd : list string) : M string :=
  print (">> " +:+ Str.join " " cmd) ;;
  res <- subprocess_run E cmd ;;
  if negb (returncode res =? 0)%Z then
    print (stdout res) ;;
    eprint (stderr res) ;;
    raise (mkExn RuntimeError ("Command failed with code " +:+ Str.of_Z (returncode res)))
  else ret (Str.strip (stdout res)).

Definition ensure_dir (p : Path) : M Path :=
  mkdir_p E p ;;
  ret p.

Definition timestamp_tag : M string :=
  fun w => (Ok (strftime_minute (now E w)), w).

(** The first half of [project_paths]: the base path and the two
    companion paths derived from it. *)
Definition companions (project_file : Path) : result (Path * Path * Path) :=
  if String.eqb (Str.lower (suffix project_file)) ".kicad_pro" then
    match with_suffix project_file "" with
    | Raise e => Raise e
    | Ok stem =>
        match with_suffix stem ".kicad_sch", with_suffix stem ".kicad_pcb" with
        | Ok sch, Ok pcb => Ok (stem, sch, pcb)
        | Raise e, _ => Raise e
        | Ok _, Raise e => Raise e
        end
    end
  else
    let stem := project_file in
    match with_suffix stem ".kicad_sch", with_suffix stem ".kicad_pcb" with
    | Ok sch, Ok pcb => Ok (stem, sch, pcb)
    | Raise e, _ => Raise e
    | Ok _, Raise e => Raise e
    end.

Definition project_paths (project_file : Path) : M (string * Path * Path) :=
  derived <- lift (companions project_file) ;;
  let '(stem, sch, pcb) := derived in
  sch_exists <- path_exists E sch ;;
  if negb sch_exists then
    raise (mkExn FileNotFoundError ("Schematic not found: " +:+ str sch))
  else
    pcb_exists <- path_exists E pcb ;;
    if negb pcb_exists then
      raise (mkExn FileNotFoundError ("Board not found: " +:+ str pcb))
    else ret (name stem, sch, pcb).

Definition zip_dir (src_dir zip_path : Path) : M unit :=
  zip_open E zip_path ;;
  entries <- rglob E src_dir ;;
  for_each entries (fun p =>
    arcname <- lift (relative_to p src_dir) ;;
    emit (EvZipWrite zip_path p arcname)).

(** ** Export steps *)

Definition export_3d (kicad : string) (pcb_path out_dir : Path) (make_glb : bool)
  : M Path :=
  ensure_dir out_dir ;;
  let step_out := out_dir // (stem pcb_path +:+ ".step") in
  run [kicad; "pcb"; "export"; "step"; "-o"; str step_out; str pcb_path] ;;
  (if make_glb then
     let glb_out := out_dir // (stem pcb_path +:+ ".glb") in
     run [kicad; "pcb"; "export"; "glb"; "-o"; str glb_out; str pcb_path] ;;
     ret tt
   else ret tt) ;;
  ret step_out.

Definition export_pictures (kicad : string) (pcb_path out_dir : Path) (iso : bool)
  : M (list Path) :=
  ensure_dir out_dir ;;
  let top := out_dir // (stem pcb_path +:+ "_top.png") in
  let bot := out_dir // (stem pcb_path +:+ "_bottom.png") in
  let side := out_dir // (stem pcb_path +:+ "_side.png") in
  run [kicad; "pcb"; "render"; "-o"; str top; "--side"; "top";
       "--background"; "transparent"; str pcb_path] ;;
  run [kicad; "pcb"; "render"; "-o"; str bot; "--side"; "bottom";
       "--background"; "transparent"; str pcb_path] ;;
  run [kicad; "pcb"; "render"; "-o"; str side; "--side"; "left";
       "--background"; "transparent"; str pcb_path] ;;
  iso_out <-
    (if iso then
       let iso_out := out_dir // (stem pcb_path +:+ "_iso.png") in
       run [kicad; "pcb"; "render"; "-o"; str iso_out;
            "--background"; "transparent"; "--perspective";
            "--rotate"; "-45,0,45"; "--zoom"; "1"; str pcb_path] ;;
       ret (Some iso_out)
     else ret None) ;;
  ret ([top; bot; side] ++ match iso_out with Some p => [p] | None => [] end).

Definition layers : string :=
  Str.join "," ["F.Cu"; "B.Cu"; "F.SilkS"; "B.SilkS";
                "F.Mask"; "B.Mask"; "Edge.Cuts"; "F.Fab"; "B.Fab"; "User.Drawings"].

Definition export_docs (kicad : string) (sch_path pcb_path out_dir : Path)
           (include_drc : bool) : M (Path * Path * Path * option Path) :=
  ensure_dir out_dir ;;
  let sch_pdf := out_dir // (stem sch_path +:+ "_schematic.pdf") in
  run [kicad; "sch"; "export"; "pdf"; "-o"; str sch_pdf; str sch_path] ;;
  let erc_rpt := out_dir // (stem sch_path +:+ "_erc.rpt") in
  run [kicad; "sch"; "erc"; "-o"; str erc_rpt; str sch_path] ;;
  let board_pdf := out_dir // (stem pcb_path +:+ "_board_prints.pdf") in
  run [kicad; "pcb"; "export"; "pdf"; "-o"; str board_pdf;
       "--layers"; layers; "--mode-multipage"; str pcb_path] ;;
  drc_rpt <-
    (if include_drc then
       let drc_rpt := out_dir // (stem pcb_path +:+ "_drc.rpt") in
       run [kicad; "pcb"; "drc"; "-o"; str drc_rpt; "--format"; "report"; str pcb_path] ;;
       ret (Some drc_rpt)
     else ret None) ;;
  ret (sch_pdf, erc_rpt, board_pdf, drc_rpt).

Definition bom_fields : string :=
  "Reference,Value,Footprint,${QUANTITY},Manufacturer,MPN,Datasheet,${DNP}".
Definition bom_labels : string :=
  "Refs,Value,Footprint,Qty,Manufacturer,MPN,Datasheet,DNP".

Definition export_fab (kicad : string) (sch_path pcb_path out_dir : Path)
           (zip_outputs : bool) : M (Path * Path * Path * Path * option Path) :=
  root <- ensure_dir out_dir ;;
  gerb_dir <- ensure_dir (root // "gerbers") ;;
  drill_dir <- ensure_dir (root // "drill") ;;
  run [kicad; "pcb"; "export"; "gerbers"; "-o"; str gerb_dir;
       "--board-plot-params"; str pcb_path] ;;
  run [kicad; "pcb"; "export"; "drill"; "-o"; str drill_dir;
       "--format"; "excellon"; "--generate-map"; str pcb_path] ;;
  let pos_csv := root // (stem pcb_path +:+ "_pos.csv") in
  run [kicad; "pcb"; "export"; "pos"; "-o"; str pos_csv;
       "--format"; "csv"; "--units"; "mm"; "--side"; "both"; str pcb_path] ;;
  let bom_csv := root // (stem sch_path +:+ "_bom.csv") in
  run [kicad; "sch"; "export"; "bom"; "-o"; str bom_csv;
       "--fields"; bom_fields; "--labels"; bom_labels;
       "--group-by"; "Value,Footprint,MPN"; str sch_path] ;;
  zip_path <-
    (if zip_outputs then
       tag <- timestamp_tag ;;
       let zip_path := root // (stem pcb_path +:+ "_gerbers_" +:+ tag +:+ ".zip") in
       zip_dir gerb_dir zip_path ;;
       ret (Some zip_path)
     else ret None) ;;
  ret (gerb_dir, drill_dir, pos_csv, bom_csv, zip_path).

Definition run_kikit_fab (vendor : string) (pcb_path out_dir : Path) : M Path :=
  kikit <- shutil_which E "kikit" ;;
  match truthy kikit with
  | None => raise (mkExn FileNotFoundError "KiKit executable not found on PATH.")
  | Some kikit =>
      ensure_dir out_dir ;;
      run [kikit; "fab"; vendor; str pcb_path; str out_dir] ;;
      ret (out_dir // "gerbers.zip")
  end.

(** ** Main *)

Definition main (args : Args) : M unit :=
  kicad <- which_kicad_cli ;;
  resolved <- project_paths (parse (project args)) ;;
  let '(proj_stem, sch_path, pcb_path) := resolved in
  let root := resolve E (parse (root args)) in
  three_d_dir <- ensure_dir (root // "3D_MODEL") ;;
  pics_dir <- ensure_dir (root // "PICTURES") ;;
  docs_dir <- ensure_dir (root // "DOCUMENTATION") ;;
  tag <- timestamp_tag ;;
  prod_root <- ensure_dir (root // prod_dir args // (tag +:+ "_" +:+ proj_stem)) ;;
  print ("Project: " +:+ proj_stem) ;;
  print ("SCH:     " +:+ str sch_path) ;;
  print ("PCB:     " +:+ str pcb_path) ;;
  print ("Root:    " +:+ str root) ;;
  export_3d kicad pcb_path three_d_dir (glb args) ;;
  export_pictures kicad pcb_path pics_dir (iso args) ;;
  export_docs kicad sch_path pcb_path docs_dir (negb (skip_drc args)) ;;
  export_fab kicad sch_path pcb_path prod_root (zip args) ;;
  match truthy (kikit args) with
  | Some vendor =>
      print ("Running KiKit fab for vendor: " +:+ vendor) ;;
      vendor_zip <- run_kikit_fab vendor pcb_path prod_root ;;
      print ("KiKit vendor ZIP: " +:+ str vendor_zip)
  | None => ret tt
  end ;;
  print (Str.nl +:+ "All done ✅") ;;
  print ("- 3D models:       " +:+ str three_d_dir) ;;
  print ("- Pictures:        " +:+ str pics_dir) ;;
  print ("- Documentation:   " +:+ str docs_dir) ;;
  print ("- Production run:  " +:+ str prod_root).

(** The [if __name__ == "__main__"] block: the exit status of the
    process and the world it leaves. *)
Definition script (args : Args) (w : World) : Z * World :=
  match main args w with
  | (Ok _, w') => (0%Z, w')
  | (Raise e, w') =>
      (1%Z, mkWorld (fs w') (trace w' ++ [EvStderr (Str.nl +:+ "ERROR: " +:+ emsg e)]))
  end.

End Script.

(* ===================================================================== *)
(** * Vocabulary of the statements                                        *)
(* ===================================================================== *)

Definition is_ok {A} (r : result A) : bool :=
  match r with Ok _ => true | Raise _ => false end.

(** [evs] is what a step added to the trace between [w] and [w']. *)
Definition emitted (w w' : World) (evs : list event) : Prop :=
  trace w' = trace w ++ evs.

(** The requests a run makes of the outside, without their outcome: the
    directories it asks for and the commands it spawns. *)
Inductive action : Type :=
| DoMkdir (p : Path)
| DoSpawn (argv : list string).

Definition action_of (ev : event) : option action :=
  match ev with
  | EvMkdir p => Some (DoMkdir p)
  | EvSpawn argv _ => Some (DoSpawn argv)
  | _ => None
  end.

Definition actions (evs : list event) : list action := omap action_of evs.

(** [performs m w plan Q]: started in [w], [m] makes the requests of
    [plan] in order and stops at the first one that fails; when it
    returns, it has made all of them and its value satisfies [Q]. *)
Definition performs {A} (m : M A) (w : World) (plan : list action) (Q : A -> Prop) : Prop :=
  exists evs,
    emitted w (snd (m w)) evs /\
    actions evs `prefix_of` plan /\
    (forall a, fst (m w) = Ok a -> actions evs = plan /\ Q a).

(** The file a command is asked to write: the argument after ["-o"],
    among the arguments that follow the program. *)
Fixpoint output_arg (argv : list string) : option string :=
  match argv with
  | a :: rest =>
      if String.eqb a "-o" then List.head rest else output_arg rest
  | [] => None
  end.

Definition output_of (a : action) : option string :=
  match a with
  | DoSpawn (_ :: arguments) => output_arg arguments
  | _ => None
  end.

Definition outputs (plan : list action) : list string := omap output_of plan.

Definition spawns (plan : list action) : list (list string) :=
  omap (fun a => match a with DoSpawn argv => Some argv | DoMkdir _ => None end) plan.

Definition mkdirs (plan : list action) : list Path :=
  omap (fun a => match a with DoMkdir p => Some p | DoSpawn _ => None end) plan.

(** A design-rule-check invocation: [<cli> pcb drc ...]. *)
Definition is_drc (argv : list string) : bool :=
  match argv with
  | _ :: sub1 :: sub2 :: _ => String.eqb sub1 "pcb" && String.eqb sub2 "drc"
  | _ => false
  end.

(** A vendor packaging invocation: [<tool> fab ...]. *)
Definition is_fab (argv : list string) : bool :=
  match argv with
  | _ :: sub1 :: _ => String.eqb sub1 "fab"
  | _ => false
  end.

(** A spawned command that ran and exited with a non-zero status. *)
Definition failed (ev : event) : bool :=
  match ev with
  | EvSpawn _ (inr cp) => negb (returncode cp =? 0)%Z
  | _ => false
  end.

(** A component as [Path(s)] keeps it: not empty, not ["."], no slash. *)
Definition plain (c : string) : bool :=
  negb (Str.contains "/" c) && keep_part c.

Definition wf_path (p : Path) : Prop :=
  Forall (fun c => plain c = true) (parts p).

(** [d] is a calendar reading: every field of the stamp fits its width. *)
Definition valid_datetime (d : datetime) : Prop :=
  (year d < 100 * 100 /\ month d < 100 /\ day d < 100 /\ hour d < 100 /\ minute d < 100)%nat.

(** Two readings of the clock agree to the minute. *)
Definition same_minute (d1 d2 : datetime) : Prop :=
  year d1 = year d2 /\ month d1 = month d2 /\ day d1 = day d2 /\
  hour d1 = hour d2 /\ minute d1 = minute d2.

(** [k] is [base] itself or lies below it. *)
Definition under (base k : list string) : Prop := base `prefix_of` k.

(** ** The requests of each stage, in order *)

Section Plans.

Context (kicad : string) (sch_path pcb_path : Path).

Definition plan_3d (out_dir : Path) (make_glb : bool) : list action :=
  [DoMkdir out_dir;
   DoSpawn [kicad; "pcb"; "export"; "step"; "-o";
            str (out_dir // (stem pcb_path +:+ ".step")); str pcb_path]] ++
  (if make_glb then
     [DoSpawn [kicad; "pcb"; "export"; "glb"; "-o";
               str (out_dir // (stem pcb_path +:+ ".glb")); str pcb_path]]
   else []).

Definition plan_pictures (out_dir : Path) (iso : bool) : list action :=
  [DoMkdir out_dir;
   DoSpawn [kicad; "pcb"; "render"; "-o"; str (out_dir // (stem pcb_path +:+ "_top.png"));
            "--side"; "top"; "--background"; "transparent"; str pcb_path];
   DoSpawn [kicad; "pcb"; "render"; "-o"; str (out_dir // (stem pcb_path +:+ "_bottom.png"));
            "--side"; "bottom"; "--background"; "transparent"; str pcb_path];
   DoSpawn [kicad; "pcb"; "render"; "-o"; str (out_dir // (stem pcb_path +:+ "_side.png"));
            "--side"; "left"; "--background"; "transparent"; str pcb_path]] ++
  (if iso then
     [DoSpawn [kicad; "pcb"; "render"; "-o"; str (out_dir // (stem pcb_path +:+ "_iso.png"));
               "--background"; "transparent"; "--perspective";
               "--rotate"; "-45,0,45"; "--zoom"; "1"; str pcb_path]]
   else []).

Definition plan_docs (out_dir : Path) (include_drc : bool) : list action :=
  [DoMkdir out_dir;
   DoSpawn [kicad; "sch"; "export"; "pdf"; "-o";
            str (out_dir // (stem sch_path +:+ "_schematic.pdf")); str sch_path];
   DoSpawn [kicad; "sch"; "erc"; "-o";
            str (out_dir // (stem sch_path +:+ "_erc.rpt")); str sch_path];
   DoSpawn [kicad; "pcb"; "export"; "pdf"; "-o";
            str (out_dir // (stem pcb_path +:+ "_board_prints.pdf"));
            "--layers"; layers; "--mode-multipage"; str pcb_path]] ++
  (if include_drc then
     [DoSpawn [kicad; "pcb"; "drc"; "-o";
               str (out_dir // (stem pcb_path +:+ "_drc.rpt"));
               "--format"; "report"; str pcb_path]]
   else []).

Definition plan_fab (out_dir : Path) : list action :=
  [DoMkdir out_dir;
   DoMkdir (out_dir // "gerbers");
   DoMkdir (out_dir // "drill");
   DoSpawn [kicad; "pcb"; "export"; "gerbers"; "-o"; str (out_dir // "gerbers");
            "--board-plot-params"; str pcb_path];
   DoSpawn [kicad; "pcb"; "export"; "drill"; "-o"; str (out_dir // "drill");
            "--format"; "excellon"; "--generate-map"; str pcb_path];
   DoSpawn [kicad; "pcb"; "export"; "pos"; "-o";
            str (out_dir // (stem pcb_path +:+ "_pos.csv"));
            "--format"; "csv"; "--units"; "mm"; "--side"; "both"; str pcb_path];
   DoSpawn [kicad; "sch"; "export"; "bom"; "-o";
            str (out_dir // (stem sch_path +:+ "_bom.csv"));
            "--fields"; bom_fields; "--labels"; bom_labels;
            "--group-by"; "Value,Footprint,MPN"; str sch_path]].

Definition plan_kikit (kikit vendor : string) (out_dir : Path) : list action :=
  [DoMkdir out_dir;
   DoSpawn [kikit; "fab"; vendor; str pcb_path; str out_dir]].

(** The production run folder of [main]. *)
Definition prod_root_of (E : Env) (args : Args) (tag proj_stem : string) : Path :=
  resolve E (parse (root args)) // prod_dir args // (tag +:+ "_" +:+ proj_stem).

(** The whole run, once the tool and the project are resolved: [tag]
    is the stamp [main] reads and [kikit] the vendor tool it finds. *)
Definition plan_main (E : Env) (args : Args) (proj_stem tag kikit_exe : string)
  : list action :=
  let root := resolve E (parse (root args)) in
  let prod_root := prod_root_of E args tag proj_stem in
  [DoMkdir (root // "3D_MODEL");
   DoMkdir (root // "PICTURES");
   DoMkdir (root // "DOCUMENTATION");
   DoMkdir prod_root] ++
  plan_3d (root // "3D_MODEL") (glb args) ++
  plan_pictures (root // "PICTURES") (iso args) ++
  plan_docs (root // "DOCUMENTATION") (negb (skip_drc args)) ++
  plan_fab prod_root ++
  match truthy (kikit args) with
  | Some vendor => plan_kikit kikit_exe vendor prod_root
  | None => []
  end.

End Plans.


(** The archive member [zip_dir] writes for the entry [rel] components
    below [src]: the file at [src/rel], stored under the name [rel]. *)
Definition zip_write (zip src : Path) (rel : list string) : event :=
  EvZipWrite zip (mkPath (anchor src) (parts src ++ rel)) (mkPath "" rel).

(** No command in [evs] exited with a non-zero status. *)
Definition all_succeeded (evs : list event) : Prop :=
  Forall (fun ev => failed ev = false) evs.

(** A run from [w] to [w'] that added [evs] stopped at the command [argv],
    which completed as [cp]: the command is the last request in [evs],
    followed only by the two lines the runner prints, no command before it
    failed, and the filesystem of [w'] is the one that command left. *)
Definition stopped_at (E : Env) (w w' : World) (evs : list event)
           (argv : list string) (cp : CompletedProcess) : Prop :=
  exists pre w1,
    evs = pre ++ [EvSpawn argv (inr cp); EvStdout (stdout cp); EvStderr (stderr cp)] /\
    all_succeeded pre /\
    trace w1 = trace w ++ pre /\
    spawn E w1 argv = mkSpawned (inr cp) (fs w').

Definition command_failed (cp : CompletedProcess) : exn :=
  mkExn RuntimeError ("Command failed with code " +:+ Str.of_Z (returncode cp)).

(** [m] halts at the first command that fails: when it returns, every
    command it spawned succeeded; when it raises, either no command
    failed (the exception has another cause), or it stopped at the one
    that did, with the runner's exception. *)
Definition halting {A} (E : Env) (m : M A) : Prop :=
  forall w, exists evs,
    emitted w (snd (m w)) evs /\
    match fst (m w) with
    | Ok _ => all_succeeded evs
    | Raise e =>
        (all_succeeded evs /\ (ekind e = RuntimeError -> False)) \/
        exists argv cp,
          (returncode cp <> 0)%Z /\ e = command_failed cp /\
          stopped_at E w (snd (m w)) evs argv cp
    end.

(** [f'] holds everything [f] holds, unchanged, and whatever it holds in
    addition is a directory. *)
Definition grows (f f' : FS) : Prop :=
  forall k, f' !! k = f !! k \/ (f !! k = None /\ f' !! k = Some NDir).

(** Nothing stands in the way of creating the location [k]: its anchor is
    a directory and no location on the way down to it is a regular
    file. *)
Definition creatable (f : FS) (k : list string) : Prop :=
  k <> [] /\ is_dir f (List.firstn 1 k) = true /\
  forall j, j <> [] -> j `prefix_of` k -> f !! j <> Some NFile.

(** ** Further vocabulary: what a whole run does *)

(** The command [argv] is given the project's files: a [pcb] subcommand
    of the CAD tool ends with the board file, a [sch] subcommand with the
    schematic, and the vendor tool's [fab] takes the board file as its
    second argument. *)
Definition reads_project (kicad : string) (sch pcb : Path) (argv : list string) : Prop :=
  match argv with
  | exe :: sub :: rest =>
      (exe = kicad /\ sub = "pcb" /\ List.last rest "" = str pcb) \/
      (exe = kicad /\ sub = "sch" /\ List.last rest "" = str sch) \/
      (sub = "fab" /\ exists vendor out, rest = [vendor; str pcb; out])
  | _ => False
  end.

(** The command [argv] names, after [-o], an entry directly inside one
    of the directories [dirs]: its location is the location of that
    directory followed by one component. *)
Definition writes_into (E : Env) (dirs : list Path) (argv : list string) : Prop :=
  exists dir name,
    output_arg (List.tl argv) = Some (str (dir // name)) /\
    In dir dirs /\
    location E (dir // name) = location E dir ++ [name].

(** The archive an event belongs to. *)
Definition archive_of (ev : event) : option Path :=
  match ev with
  | EvZipOpen z => Some z
  | EvZipWrite z _ _ => Some z
  | _ => None
  end.

(** Every command of [evs] comes right after the line that echoes it. *)
Definition echoed (evs : list event) : Prop :=
  forall pre argv res post,
    evs = pre ++ EvSpawn argv res :: post ->
    exists pre', pre = pre' ++ [EvStdout (">> " +:+ Str.join " " argv)].

(** [f'] still holds every entry of [f], as it was. *)
Definition keeps (f f' : FS) : Prop :=
  forall k n, f !! k = Some n -> f' !! k = Some n.

(** The external tools never delete or replace an entry. *)
Definition tools_keep (E : Env) : Prop :=
  forall w argv, keeps (fs w) (sp_fs (spawn E w argv)).

(** The number of commands of a run that completes. *)
Definition commands_of_run (args : Args) : nat :=
  11 + (if glb args then 1 else 0) + (if iso args then 1 else 0)
  + (if skip_drc args then 0 else 1)
  + (match truthy (kikit args) with Some _ => 1 | None => 0 end).

(** ** Properties that every step of a run preserves *)

(** [m] adds events that together satisfy [P] and leaves a filesystem
    related by [R] to the one it found. *)
Definition invariant (P : list event -> Prop) (R : FS -> FS -> Prop) {A} (m : M A) : Prop :=
  forall w, exists evs,
    emitted w (snd (m w)) evs /\ P evs /\ R (fs w) (fs (snd (m w))).

(** What [P] and [R] must satisfy to be preserved by the script: [P]
    holds of what each primitive writes to the trace (a command together
    with the line that echoes it, an archive event when the archive is
    one that [Zok] allows) and of concatenations; [R] is a preorder that
    holds of what each primitive does to the filesystem. *)
Record Invariant (E : Env) (P : list event -> Prop) (R : FS -> FS -> Prop)
       (Zok : Path -> Prop) : Prop := mkInvariant {
  inv_nil : P [];
  inv_app : forall a b, P a -> P b -> P (a ++ b);
  inv_stdout : forall s, P [EvStdout s];
  inv_stderr : forall s, P [EvStderr s];
  inv_mkdir : forall p, P [EvMkdir p];
  inv_spawn : forall cmd res, P [EvStdout (">> " +:+ Str.join " " cmd); EvSpawn cmd res];
  inv_zip_open : forall z, Zok z -> P [EvZipOpen z];
  inv_zip_write : forall z p arc, Zok z -> P [EvZipWrite z p arc];
  inv_refl : forall f, R f f;
  inv_trans : forall f g h, R f g -> R g h -> R f h;
  inv_grows : forall f f', grows f f' -> R f f';
  inv_tool : forall w cmd, R (fs w) (sp_fs (spawn E w cmd));
  inv_archive : forall f k, f !! k <> Some NDir -> R f (<[k := NFile]> f)
}.

(** The archive the fabrication stage writes with [--zip], for the two
    readings of the clock [d1] (by [main]) and [d2] (by the stage). *)
Definition gerber_archive (E : Env) (args : Args) (proj_stem : string) (pcb_path : Path)
           (d1 d2 : datetime) : Path :=
  prod_root_of E args (strftime_minute d1) proj_stem
  // (stem pcb_path +:+ "_gerbers_" +:+ strftime_minute d2 +:+ ".zip").

(** ** What a run that succeeds leaves in the trace *)

(** Whenever [m] returns, what it added to the trace satisfies [P]. *)
Definition succeeds_with {A} (P : list event -> Prop) (m : M A) : Prop :=
  forall w a w', m w = (Ok a, w') -> exists evs, emitted w w' evs /\ P evs.

Definition is_stderr (ev : event) : bool :=
  match ev with EvStderr _ => true | _ => false end.

(** Nothing in [evs] went to the standard error stream. *)
Definition stderr_silent (evs : list event) : Prop :=
  Forall (fun ev => is_stderr ev = false) evs.

(** The five lines [main] prints last. *)
Definition summary (E : Env) (args : Args) (prod_root : Path) : list event :=
  let root := resolve E (parse (root args)) in
  [EvStdout (Str.nl +:+ "All done ✅");
   EvStdout ("- 3D models:       " +:+ str (root // "3D_MODEL"));
   EvStdout ("- Pictures:        " +:+ str (root // "PICTURES"));
   EvStdout ("- Documentation:   " +:+ str (root // "DOCUMENTATION"));
   EvStdout ("- Production run:  " +:+ str prod_root)].

(** ** The order of the stamps *)

(** Which of two readings of the clock is earlier, to the minute. *)
Definition minute_order (d1 d2 : datetime) : comparison :=
  match (year d1 ?= year d2)%nat with
  | Eq =>
      match (month d1 ?= month d2)%nat with
      | Eq =>
          match (day d1 ?= day d2)%nat with
          | Eq =>
              match (hour d1 ?= hour d2)%nat with
              | Eq => (minute d1 ?= minute d2)%nat
              | c => c
              end
          | c => c
          end
      | c => c
      end
  | c => c
  end.

(** ** The files a run asks the CAD tool to write *)



(** ** Where the commands are told to write *)

(** [p.is_absolute()] *)
Definition is_absolute (p : Path) : bool := String.prefix "/" (anchor p).

(** The path a command is told to write to: what follows [-o] for the
    CAD tool, the last argument for the vendor tool's [fab]. *)
Definition destination (argv : list string) : option string :=
  if is_fab argv then Some (List.last argv "") else output_arg (List.tl argv).

(* ===================================================================== *)
(** * A concrete world, to run the script in                              *)
(* ===================================================================== *)

Module Fixture.

(** A working directory [/work] that holds the schematic and the board
    of a project named [board]. *)
Definition cwd0 : list string := ["/"; "work"].

Definition fs0 : FS :=
  list_to_map
    [ (["/"], NDir);
      (["/"; "work"], NDir);
      (["/"; "work"; "board.kicad_sch"], NFile);
      (["/"; "work"; "board.kicad_pcb"], NFile) ].

Definition w0 : World := mkWorld fs0 [].

Definition noon : datetime := mkDatetime 2024 3 5 14 7 33.

(** A tool that writes the file it is asked for with [-o]; asked for a
    directory that exists, it writes one file into it. *)
Definition tool_fs (f : FS) (argv : list string) : FS :=
  match output_arg argv with
  | Some o =>
      let k := List.fold_left norm_step (parts (parse o))
                 (if String.eqb (anchor (parse o)) "" then cwd0 else [anchor (parse o)]) in
      match f !! k with
      | Some NDir => <[k ++ ["layer.gbr"] := NFile]> f
      | Some NFile => f
      | None => <[k := NFile]> f
      end
  | None => f
  end.

(** The environment: [kicad-cli] is on the search path, [kikit] is
    where [kik] says, the clock stands still, and the commands that
    [failing] selects exit with status 2. *)
Definition env (kik : option string) (failing : list string -> bool) : Env :=
  mkEnv cwd0
    (fun _ n =>
       if String.eqb n "kicad-cli" then Some "/usr/bin/kicad-cli"
       else if String.eqb n "kikit" then kik else None)
    (fun _ => noon)
    (fun w argv =>
       if failing argv then mkSpawned (inr (mkCompleted 2 "out" "err")) (fs w)
       else mkSpawned (inr (mkCompleted 0 (" done" +:+ Str.nl) "")) (tool_fs (fs w) argv)).

Definition never : list string -> bool := fun _ => false.

(** An environment without any tool. *)
Definition bare : Env :=
  mkEnv cwd0 (fun _ _ => None) (fun _ => noon)
    (fun w _ => mkSpawned (inl "[Errno 2] No such file or directory") (fs w)).

(** A world after a fabrication export: the run folder [/work/run] holds
    a [gerbers] directory with two layer files and a sub-directory. *)
Definition fs_fab : FS :=
  list_to_map
    [ (["/"], NDir);
      (["/"; "work"], NDir);
      (["/"; "work"; "run"], NDir);
      (["/"; "work"; "run"; "gerbers"], NDir);
      (["/"; "work"; "run"; "gerbers"; "F_Cu.gbr"], NFile);
      (["/"; "work"; "run"; "gerbers"; "B_Cu.gbr"], NFile);
      (["/"; "work"; "run"; "gerbers"; "job"], NDir);
      (["/"; "work"; "run"; "gerbers"; "job"; "board.gbrjob"], NFile);
      (["/"; "work"; "run"; "drill"], NDir) ].

Definition w_fab : World := mkWorld fs_fab [].

(** An environment whose tools succeed and leave the filesystem alone. *)
Definition idle : Env :=
  mkEnv cwd0
    (fun _ n => if String.eqb n "kicad-cli" then Some "/usr/bin/kicad-cli" else None)
    (fun _ => noon)
    (fun w _ => mkSpawned (inr (mkCompleted 0 "" "")) (fs w)).

Definition args0 : Args :=
  mkArgs "board.kicad_pro" "." "PRODUCTION" false false false None false.

End Fixture.
(* ===================================================================== *)
(** * The monad: sequencing and the requests of a computation             *)
(* ===================================================================== *)

Lemma bind_Ok_inv {A B} (m : M A) (k : A -> M B) w b w' :
  bind m k w = (Ok b, w') ->
  exists a w1, m w = (Ok a, w1) /\ k a w1 = (Ok b, w').
Proof.
  unfold bind. destruct (m w) as [[a|e] w1]; intros H.
  - exists a, w1. split; [reflexivity | exact H].
  - discriminate H.
Qed.

Lemma emitted_nil w : emitted w w [].
Proof. unfold emitted. by rewrite app_nil_r. Qed.

Lemma emitted_trans w1 w2 w3 evs1 evs2 :
  emitted w1 w2 evs1 -> emitted w2 w3 evs2 -> emitted w1 w3 (evs1 ++ evs2).
Proof. unfold emitted. intros H1 H2. by rewrite H2, H1, app_assoc. Qed.

Lemma actions_app evs1 evs2 : actions (evs1 ++ evs2) = actions evs1 ++ actions evs2.
Proof. unfold actions. apply omap_app. Qed.

Section Performs.

Context {A B : Type}.

Lemma performs_ret (a : A) w (Q : A -> Prop) : Q a -> performs (ret a) w [] Q.
Proof.
  intros HQ. exists []. split; [apply emitted_nil|]. split; [done|].
  intros b Hb. simpl in Hb. by inversion Hb; subst.
Qed.

Lemma performs_raise (e : exn) w p (Q : A -> Prop) : performs (raise e) w p Q.
Proof.
  exists []. split; [apply emitted_nil|]. split; [apply prefix_nil|].
  intros b Hb. discriminate Hb.
Qed.

Lemma performs_lift (r : result A) w : performs (lift r) w [] (fun a => r = Ok a).
Proof.
  exists []. split; [apply emitted_nil|]. split; [done|].
  intros b Hb. simpl in Hb. done.
Qed.

Lemma performs_bind (m : M A) (k : A -> M B) w p1 p2 (Q1 : A -> Prop) (Q2 : B -> Prop) :
  performs m w p1 Q1 ->
  (forall a w1, m w = (Ok a, w1) -> Q1 a -> performs (k a) w1 p2 Q2) ->
  performs (bind m k) w (p1 ++ p2) Q2.
Proof.
  intros (evs1 & Hem1 & Hpre1 & Hok1) Hk. unfold performs, bind.
  destruct (m w) as [[a|e] w1] eqn:Hm; simpl in *.
  - destruct (Hok1 a eq_refl) as [Hact HQ1].
    destruct (Hk a w1 eq_refl HQ1) as (evs2 & Hem2 & Hpre2 & Hok2).
    exists (evs1 ++ evs2). split; [by eapply emitted_trans|].
    rewrite actions_app, Hact. split.
    + by apply prefix_app.
    + intros b Hb. destruct (Hok2 b Hb) as [-> HQ2]. done.
  - exists evs1. split; [done|]. split.
    + by apply prefix_app_r.
    + intros b Hb. discriminate Hb.
Qed.

Lemma performs_weaken (m : M A) w p p' (Q Q' : A -> Prop) :
  performs m w p Q -> p = p' -> (forall a, Q a -> Q' a) -> performs m w p' Q'.
Proof.
  intros (evs & Hem & Hpre & Hok) <- HQ. exists evs. split; [done|]. split; [done|].
  intros a Ha. destruct (Hok a Ha). auto.
Qed.

Lemma performs_bind_cons (m : M A) (k : A -> M B) w x p (Q1 : A -> Prop) (Q2 : B -> Prop) :
  performs m w [x] Q1 ->
  (forall a w1, m w = (Ok a, w1) -> Q1 a -> performs (k a) w1 p Q2) ->
  performs (bind m k) w (x :: p) Q2.
Proof. intros H1 H2. by apply (performs_bind m k w [x] p Q1 Q2). Qed.

Lemma performs_bind_nil (m : M A) (k : A -> M B) w p (Q1 : A -> Prop) (Q2 : B -> Prop) :
  performs m w [] Q1 ->
  (forall a w1, m w = (Ok a, w1) -> Q1 a -> performs (k a) w1 p Q2) ->
  performs (bind m k) w p Q2.
Proof. intros H1 H2. by apply (performs_bind m k w [] p Q1 Q2). Qed.

(** The same, when the rest of the plan depends on something [x] found
    only as the run proceeds (a reading of the clock, the result of a
    search): [x0] stands in for it in the runs that stop before. *)
Lemma performs_bind_ex {X} (m : M A) (k : A -> M B) w p1 (p2 : X -> list action)
      (Phi : X -> Prop) (Q1 : A -> Prop) (Q2 : X -> B -> Prop) (x0 : X) :
  performs m w p1 Q1 ->
  Phi x0 ->
  (forall a w1, m w = (Ok a, w1) -> Q1 a ->
     exists x, Phi x /\ performs (k a) w1 (p2 x) (Q2 x)) ->
  exists x, Phi x /\ performs (bind m k) w (p1 ++ p2 x) (Q2 x).
Proof.
  intros H1 H0 Hk. destruct (m w) as [[a|e] w1] eqn:Hm.
  - destruct H1 as (evs1 & Hem1 & Hpre1 & Hok1).
    rewrite Hm in Hem1, Hok1. simpl in *.
    destruct (Hok1 a eq_refl) as [Hact HQ1].
    destruct (Hk a w1 eq_refl HQ1) as (x & Hx & Hp). exists x. split; [done|].
    apply (performs_bind m k w p1 (p2 x) Q1 (Q2 x)).
    + exists evs1. rewrite Hm. done.
    + intros a' w1' Heq _. rewrite Hm in Heq. by inversion Heq; subst.
  - exists x0. split; [done|].
    destruct H1 as (evs1 & Hem1 & Hpre1 & Hok1). rewrite Hm in Hem1. simpl in *.
    exists evs1. unfold bind. rewrite Hm. simpl. split; [done|]. split.
    + by apply prefix_app_r.
    + intros b Hb. discriminate Hb.
Qed.

Lemma performs_bind_ex0 {X} (m : M A) (k : A -> M B) w p1 (p2 : X -> list action)
      (Q1 : A -> Prop) (Q2 : X -> B -> Prop) (x0 : X) :
  performs m w p1 Q1 ->
  (forall a w1, m w = (Ok a, w1) -> Q1 a -> exists x, performs (k a) w1 (p2 x) (Q2 x)) ->
  exists x, performs (bind m k) w (p1 ++ p2 x) (Q2 x).
Proof.
  intros H1 Hk.
  destruct (performs_bind_ex m k w p1 p2 (fun _ => True) Q1 Q2 x0 H1 I) as (x & _ & H).
  - intros a w1 Hm HQ. destruct (Hk a w1 Hm HQ) as [x Hx]. by exists x.
  - by exists x.
Qed.

Lemma performs_ext (m m' : M A) w p (Q : A -> Prop) :
  m w = m' w -> performs m' w p Q -> performs m w p Q.
Proof. unfold performs. by intros ->. Qed.

End Performs.

Lemma bind_assoc_at {A B C} (m : M A) (f : A -> M B) (g : B -> M C) w :
  bind (bind m f) g w = bind m (fun x => bind (f x) g) w.
Proof. unfold bind. by destruct (m w) as [[a|e] w1]. Qed.

Lemma bind_ret_at {A B} (a : A) (k : A -> M B) w : bind (ret a) k w = k a w.
Proof. reflexivity. Qed.

Section PerformsPrimitives.

Context (E : Env).

Lemma performs_emit_silent ev w :
  action_of ev = None -> performs (emit ev) w [] (fun _ => True).
Proof.
  intros Hev. exists [ev].
  assert (actions [ev] = []) as -> by (unfold actions; simpl; by rewrite Hev).
  split; [done|]. split; [done|]. intros [] _. done.
Qed.

Lemma performs_print s w : performs (print s) w [] (fun _ => True).
Proof. by apply performs_emit_silent. Qed.

Lemma performs_eprint s w : performs (eprint s) w [] (fun _ => True).
Proof. by apply performs_emit_silent. Qed.

Lemma performs_path_exists p w :
  performs (path_exists E p) w []
    (fun b => b = bool_decide (is_Some (fs w !! location E p))).
Proof.
  exists []. split; [apply emitted_nil|]. split; [done|].
  intros a Ha. simpl in Ha. split; [done | congruence].
Qed.

Lemma performs_shutil_which n w :
  performs (shutil_which E n) w [] (fun o => o = which E w n).
Proof.
  exists []. split; [apply emitted_nil|]. split; [done|].
  intros a Ha. simpl in Ha. split; [done | congruence].
Qed.

Lemma performs_timestamp_tag w :
  performs (timestamp_tag E) w [] (fun t => t = strftime_minute (now E w)).
Proof.
  exists []. split; [apply emitted_nil|]. split; [done|].
  intros a Ha. simpl in Ha. split; [done | congruence].
Qed.

Lemma performs_mkdir_p p w : performs (mkdir_p E p) w [DoMkdir p] (fun _ => True).
Proof.
  exists [EvMkdir p]. unfold mkdir_p, emitted.
  destruct (mkdir_parents _ _); simpl; (split; [done|]); (split; [done|]); done.
Qed.

Lemma performs_ensure_dir p w : performs (ensure_dir E p) w [DoMkdir p] (fun q => q = p).
Proof.
  unfold ensure_dir.
  eapply performs_bind_cons; [apply performs_mkdir_p|].
  intros _ w1 _ _. by apply performs_ret.
Qed.

Lemma performs_subprocess_run cmd w :
  performs (subprocess_run E cmd) w [DoSpawn cmd] (fun _ => True).
Proof.
  exists [EvSpawn cmd (sp_res (spawn E w cmd))]. unfold subprocess_run, emitted.
  destruct (sp_res (spawn E w cmd)); simpl; (split; [done|]); (split; [done|]); done.
Qed.

Lemma performs_run cmd w : performs (run E cmd) w [DoSpawn cmd] (fun _ => True).
Proof.
  unfold run.
  eapply performs_bind_nil; [apply performs_print|]. intros _ w1 _ _.
  eapply performs_bind_cons; [apply performs_subprocess_run|]. intros res w2 _ _.
  destruct (negb _).
  - eapply performs_bind_nil; [apply performs_print|]. intros _ w3 _ _.
    eapply performs_bind_nil; [apply performs_eprint|]. intros _ w4 _ _.
    apply performs_raise.
  - by apply performs_ret.
Qed.

End PerformsPrimitives.

(* ===================================================================== *)
(** * The path model on examples                                          *)
(* ===================================================================== *)

Example parse_relative : parse "hw/board.kicad_pro" = mkPath "" ["hw"; "board.kicad_pro"].
Proof. reflexivity. Qed.

Example parse_absolute : parse "/srv//out/./x" = mkPath "/" ["srv"; "out"; "x"].
Proof. reflexivity. Qed.

Example parse_empty : str (parse "") = ".".
Proof. reflexivity. Qed.

Example suffix_mixed_case : suffix (parse "a/board.v2.KiCad_Pro") = ".KiCad_Pro".
Proof. reflexivity. Qed.

Example suffix_edge_dots : suffix (parse ".hidden") = "" /\ suffix (parse "x.") = "".
Proof. split; reflexivity. Qed.

Example with_suffix_replaces :
  with_suffix (parse "a/board.v2") ".kicad_sch" = Ok (parse "a/board.kicad_sch").
Proof. reflexivity. Qed.

Example with_suffix_appends :
  with_suffix (parse "a/board") ".kicad_sch" = Ok (parse "a/board.kicad_sch").
Proof. reflexivity. Qed.

Example with_suffix_empty_name :
  with_suffix (parse ".") ".kicad_sch" = Raise (mkExn ValueError ". has an empty name").
Proof. reflexivity. Qed.

Example joinpath_absolute : parse "/work" // "/tmp/x" = parse "/tmp/x".
Proof. reflexivity. Qed.

Example strip_example : Str.strip ("  ok " +:+ Str.nl) = "ok".
Proof. reflexivity. Qed.

Example of_Z_examples : Str.of_Z (-9) = "-9" /\ Str.of_Z 0 = "0" /\ Str.of_Z 127 = "127".
Proof. repeat split; reflexivity. Qed.

Example stamp_example : strftime_minute Fixture.noon = "20240305_1407".
Proof. reflexivity. Qed.

Example location_example :
  location (Fixture.env None Fixture.never) (parse "../lib/./x") = ["/"; "lib"; "x"].
Proof. reflexivity. Qed.

(* ===================================================================== *)
(** * The archive helper                                                  *)
(* ===================================================================== *)

Lemma strip_prefix_app l r : strip_prefix l (l ++ r) = Some r.
Proof. induction l as [|a l IH]; simpl; [done|]. by rewrite String.eqb_refl. Qed.

Lemma strip_prefix_Some pre l r : strip_prefix pre l = Some r -> l = pre ++ r.
Proof.
  revert l. induction pre as [|a pre IH]; intros l; simpl.
  - by intros [= ->].
  - destruct l as [|b l]; [done|].
    destruct (String.eqb a b) eqn:Hab; [|done].
    apply String.eqb_eq in Hab as ->. intros H. by rewrite (IH _ H).
Qed.

Lemma relative_to_child src rel :
  relative_to (mkPath (anchor src) (parts src ++ rel)) src = Ok (mkPath "" rel).
Proof.
  unfold relative_to. simpl. by rewrite String.eqb_refl, strip_prefix_app.
Qed.

Lemma for_each_zip_writes zip src rels w :
  for_each (List.map (fun rel => mkPath (anchor src) (parts src ++ rel)) rels)
    (fun p => bind (lift (relative_to p src)) (fun arcname => emit (EvZipWrite zip p arcname))) w
  = (Ok tt, mkWorld (fs w) (trace w ++ List.map (zip_write zip src) rels)).
Proof.
  revert w. induction rels as [|rel rels IH]; intros w; simpl.
  - unfold ret. rewrite app_nil_r. by destruct w.
  - unfold bind at 1. unfold bind at 1. unfold lift at 1.
    rewrite relative_to_child. unfold emit at 1. rewrite IH. simpl.
    by rewrite <- app_assoc.
Qed.

(** What [zip_dir] does, in full: it opens the archive and, when that
    succeeds, writes one member per entry found below the source
    directory at that moment. *)
Lemma zip_dir_unfold E src zip w :
  zip_dir E src zip w =
  match zip_open E zip w with
  | (Ok _, w1) =>
      (Ok tt, mkWorld (fs w1)
                (trace w1 ++ List.map (zip_write zip src)
                               (entries_below (fs w1) (location E src))))
  | (Raise e, w1) => (Raise e, w1)
  end.
Proof.
  unfold zip_dir. unfold bind at 1.
  destruct (zip_open E zip w) as [[[]|e] w1]; [|done].
  unfold bind at 1, rglob at 1. apply for_each_zip_writes.
Qed.

Lemma zip_open_emitted E zip w : emitted w (snd (zip_open E zip w)) [EvZipOpen zip].
Proof.
  unfold zip_open, emitted.
  destruct (fs w !! location E zip) as [[]|]; simpl;
    destruct (fs w !! removelast (location E zip)) as [[]|]; done.
Qed.

Lemma actions_zip_writes zip src rels : actions (List.map (zip_write zip src) rels) = [].
Proof. induction rels as [|r rels IH]; [done|]. unfold actions in *. simpl. exact IH. Qed.

Lemma performs_zip_dir E src zip w : performs (zip_dir E src zip) w [] (fun _ => True).
Proof.
  unfold performs. rewrite zip_dir_unfold.
  pose proof (zip_open_emitted E zip w) as Hopen.
  destruct (zip_open E zip w) as [[[]|e] w1]; simpl in *.
  - eexists (_ :: _). split.
    + unfold emitted in *. simpl. rewrite Hopen. rewrite <- app_assoc. reflexivity.
    + change (EvZipOpen zip :: ?l) with ([EvZipOpen zip] ++ l).
      rewrite actions_app, actions_zip_writes. done.
  - exists [EvZipOpen zip]. split; [done|]. done.
Qed.

(* ===================================================================== *)
(** * The stages make the requests of their plans                         *)
(* ===================================================================== *)

(** One step of a stage: peel the first statement of a sequence and
    account for the request it makes, if any. *)
Ltac stage_step E :=
  lazymatch goal with
  | |- performs (bind (bind _ _) _) _ _ _ =>
      eapply performs_ext; [apply bind_assoc_at|]
  | |- performs (bind (ret _) _) _ _ _ =>
      eapply performs_ext; [apply bind_ret_at|]
  | |- performs (bind (ensure_dir _ _) _) _ _ _ =>
      eapply performs_bind_cons; [apply performs_ensure_dir | intros ? ? _ ->]
  | |- performs (bind (run _ _) _) _ _ _ =>
      eapply performs_bind_cons; [apply performs_run | intros ? ? _ _]
  | |- performs (bind (print _) _) _ _ _ =>
      eapply performs_bind_nil; [apply performs_print | intros ? ? _ _]
  | |- performs (bind (timestamp_tag _) _) _ _ _ =>
      eapply performs_bind_nil; [apply performs_timestamp_tag | intros ? ? _ ->]
  | |- performs (bind (zip_dir _ _ _) _) _ _ _ =>
      eapply performs_bind_nil; [apply performs_zip_dir | intros ? ? _ _]
  | |- performs (ret _) _ _ _ => apply performs_ret
  end.

Section Stages.

Context (E : Env) (kicad : string) (sch_path pcb_path : Path).

Lemma performs_export_3d out_dir make_glb w :
  performs (export_3d E kicad pcb_path out_dir make_glb) w
    (plan_3d kicad pcb_path out_dir make_glb)
    (fun r => r = out_dir // (stem pcb_path +:+ ".step")).
Proof.
  unfold export_3d, plan_3d. destruct make_glb; simpl; repeat stage_step E; done.
Qed.

Lemma performs_export_pictures out_dir iso w :
  performs (export_pictures E kicad pcb_path out_dir iso) w
    (plan_pictures kicad pcb_path out_dir iso)
    (fun files =>
       files = [out_dir // (stem pcb_path +:+ "_top.png");
                out_dir // (stem pcb_path +:+ "_bottom.png");
                out_dir // (stem pcb_path +:+ "_side.png")] ++
               (if iso then [out_dir // (stem pcb_path +:+ "_iso.png")] else [])).
Proof.
  unfold export_pictures, plan_pictures. destruct iso; simpl; repeat stage_step E; done.
Qed.

Lemma performs_export_docs out_dir include_drc w :
  performs (export_docs E kicad sch_path pcb_path out_dir include_drc) w
    (plan_docs kicad sch_path pcb_path out_dir include_drc)
    (fun r =>
       r = (out_dir // (stem sch_path +:+ "_schematic.pdf"),
            out_dir // (stem sch_path +:+ "_erc.rpt"),
            out_dir // (stem pcb_path +:+ "_board_prints.pdf"),
            if include_drc then Some (out_dir // (stem pcb_path +:+ "_drc.rpt")) else None)).
Proof.
  unfold export_docs, plan_docs. destruct include_drc; simpl; repeat stage_step E; done.
Qed.

Lemma performs_export_fab out_dir zip_outputs w :
  performs (export_fab E kicad sch_path pcb_path out_dir zip_outputs) w
    (plan_fab kicad sch_path pcb_path out_dir)
    (fun r =>
       exists zip_path,
         r = (out_dir // "gerbers", out_dir // "drill",
              out_dir // (stem pcb_path +:+ "_pos.csv"),
              out_dir // (stem sch_path +:+ "_bom.csv"), zip_path) /\
         (zip_outputs = false <-> zip_path = None)).
Proof.
  unfold export_fab, plan_fab. destruct zip_outputs; simpl; repeat stage_step E.
  - eexists. split; [reflexivity|]. split; done.
  - eexists. split; [reflexivity|]. split; done.
Qed.

Lemma performs_run_kikit_fab vendor out_dir w :
  performs (run_kikit_fab E vendor pcb_path out_dir) w
    (match truthy (which E w "kikit") with
     | Some kikit => plan_kikit pcb_path kikit vendor out_dir
     | None => []
     end)
    (fun r => r = out_dir // "gerbers.zip").
Proof.
  unfold plan_kikit.
  destruct (truthy (which E w "kikit")) as [k|] eqn:Hk.
  - apply (performs_ext _
             (bind (ensure_dir E out_dir) (fun _ =>
              bind (run E [k; "fab"; vendor; str pcb_path; str out_dir]) (fun _ =>
              ret (out_dir // "gerbers.zip"))))).
    { unfold run_kikit_fab. unfold bind at 1, shutil_which at 1. by rewrite Hk. }
    repeat stage_step E. done.
  - apply (performs_ext _ (raise (mkExn FileNotFoundError "KiKit executable not found on PATH."))).
    { unfold run_kikit_fab. unfold bind at 1, shutil_which at 1. by rewrite Hk. }
    apply performs_raise.
Qed.

(** The same with the tool named: [kikit] is what the search path
    gave when the stage returns. *)
Lemma performs_run_kikit_fab_ex vendor out_dir w :
  exists kikit,
    performs (run_kikit_fab E vendor pcb_path out_dir) w
      (plan_kikit pcb_path kikit vendor out_dir)
      (fun r => r = out_dir // "gerbers.zip" /\ truthy (which E w "kikit") = Some kikit).
Proof.
  pose proof (performs_run_kikit_fab vendor out_dir w) as H.
  destruct (truthy (which E w "kikit")) as [k|] eqn:Hk.
  - exists k. eapply performs_weaken; [exact H | done | done].
  - exists "". destruct H as (evs & Hem & Hpre & Hok).
    exists evs. split; [done|]. split.
    + apply prefix_nil_inv in Hpre. rewrite Hpre. apply prefix_nil.
    + intros r Hr. exfalso. revert Hr. unfold run_kikit_fab.
      unfold bind at 1, shutil_which at 1. by rewrite Hk.
Qed.

End Stages.

(* ===================================================================== *)
(** * The whole run                                                       *)
(* ===================================================================== *)

Lemma which_kicad_cli_world E w : snd (which_kicad_cli E w) = w.
Proof.
  unfold which_kicad_cli, bind, shutil_which, path_exists.
  destruct (truthy (which E w "kicad-cli")); [done|]. simpl.
  by destruct (bool_decide _).
Qed.

Lemma project_paths_world E p w : snd (project_paths E p w) = w.
Proof.
  unfold project_paths, bind, lift, path_exists.
  destruct (companions p) as [[[s sch] pcb]|e]; [|done]. simpl.
  destruct (negb (bool_decide _)); [done|]. simpl.
  by destruct (negb (bool_decide _)).
Qed.

(** [main], once the tool and the project are resolved. *)
Lemma main_resolved E args w kicad proj_stem sch_path pcb_path :
  fst (which_kicad_cli E w) = Ok kicad ->
  fst (project_paths E (parse (project args)) w) = Ok (proj_stem, sch_path, pcb_path) ->
  main E args w =
  (let root := resolve E (parse (root args)) in
   three_d_dir <- ensure_dir E (root // "3D_MODEL") ;;
   pics_dir <- ensure_dir E (root // "PICTURES") ;;
   docs_dir <- ensure_dir E (root // "DOCUMENTATION") ;;
   tag <- timestamp_tag E ;;
   prod_root <- ensure_dir E (root // prod_dir args // (tag +:+ "_" +:+ proj_stem)) ;;
   print ("Project: " +:+ proj_stem) ;;
   print ("SCH:     " +:+ str sch_path) ;;
   print ("PCB:     " +:+ str pcb_path) ;;
   print ("Root:    " +:+ str root) ;;
   export_3d E kicad pcb_path three_d_dir (glb args) ;;
   export_pictures E kicad pcb_path pics_dir (iso args) ;;
   export_docs E kicad sch_path pcb_path docs_dir (negb (skip_drc args)) ;;
   export_fab E kicad sch_path pcb_path prod_root (zip args) ;;
   match truthy (kikit args) with
   | Some vendor =>
       print ("Running KiKit fab for vendor: " +:+ vendor) ;;
       vendor_zip <- run_kikit_fab E vendor pcb_path prod_root ;;
       print ("KiKit vendor ZIP: " +:+ str vendor_zip)
   | None => ret tt
   end ;;
   print (Str.nl +:+ "All done ✅") ;;
   print ("- 3D models:       " +:+ str three_d_dir) ;;
   print ("- Pictures:        " +:+ str pics_dir) ;;
   print ("- Documentation:   " +:+ str docs_dir) ;;
   print ("- Production run:  " +:+ str prod_root))%script w.
Proof.
  intros Hk Hp. pose proof (which_kicad_cli_world E w) as Hw1.
  pose proof (project_paths_world E (parse (project args)) w) as Hw2.
  unfold main. unfold bind at 1.
  destruct (which_kicad_cli E w) as [r1 w1]. cbn [fst snd] in Hk, Hw1. subst r1 w1.
  unfold bind at 1.
  destruct (project_paths E (parse (project args)) w) as [r2 w2].
  cbn [fst snd] in Hp, Hw2. subst r2 w2. reflexivity.
Qed.

Section MainPlan.

Context (E : Env) (args : Args) (kicad proj_stem : string) (sch_path pcb_path : Path).

(** The optional vendor stage: the tool in the plan is the one the
    search path gave. *)
Lemma performs_vendor_stage prod_root w :
  exists kik,
    performs
      (match truthy (kikit args) with
       | Some vendor =>
           print ("Running KiKit fab for vendor: " +:+ vendor) ;;
           vendor_zip <- run_kikit_fab E vendor pcb_path prod_root ;;
           print ("KiKit vendor ZIP: " +:+ str vendor_zip)
       | None => ret tt
       end)%script w
      (match truthy (kikit args) with
       | Some vendor => plan_kikit pcb_path kik vendor prod_root
       | None => []
       end)
      (fun _ => forall vendor, truthy (kikit args) = Some vendor ->
                exists wk, truthy (which E wk "kikit") = Some kik).
Proof.
  destruct (truthy (kikit args)) as [vendor|].
  - apply (performs_bind_ex0 (X := string)
             (print ("Running KiKit fab for vendor: " +:+ vendor))
             (fun _ => (vendor_zip <- run_kikit_fab E vendor pcb_path prod_root ;;
                        print ("KiKit vendor ZIP: " +:+ str vendor_zip))%script)
             w [] (fun kik => plan_kikit pcb_path kik vendor prod_root)
             (fun _ => True)
             (fun kik _ => forall vendor0, Some vendor = Some vendor0 ->
                exists wk, truthy (which E wk "kikit") = Some kik) "");
      [apply performs_print|].
    intros _ w1 _ _.
    destruct (performs_run_kikit_fab_ex E pcb_path vendor prod_root w1) as [kik Hk].
    exists kik.
    eapply (performs_weaken _ _ _ _
              (fun _ => exists wk, truthy (which E wk "kikit") = Some kik)).
    + eapply performs_bind; [exact Hk|].
      intros r w2 _ [_ Hfound]. eapply performs_weaken.
      * apply performs_print.
      * reflexivity.
      * intros _ _. exists w1. exact Hfound.
    + apply app_nil_r.
    + intros _ H v _. exact H.
  - exists "". apply performs_ret. intros v Hv. discriminate Hv.
Qed.

(** From the creation of the production run folder to the end. *)
Lemma performs_main_stages tag w :
  let root := resolve E (parse (root args)) in
  let three_d_dir := root // "3D_MODEL" in
  let pics_dir := root // "PICTURES" in
  let docs_dir := root // "DOCUMENTATION" in
  exists kik,
    performs
      (prod_root <- ensure_dir E (root // prod_dir args // (tag +:+ "_" +:+ proj_stem)) ;;
       print ("Project: " +:+ proj_stem) ;;
       print ("SCH:     " +:+ str sch_path) ;;
       print ("PCB:     " +:+ str pcb_path) ;;
       print ("Root:    " +:+ str root) ;;
       export_3d E kicad pcb_path three_d_dir (glb args) ;;
       export_pictures E kicad pcb_path pics_dir (iso args) ;;
       export_docs E kicad sch_path pcb_path docs_dir (negb (skip_drc args)) ;;
       export_fab E kicad sch_path pcb_path prod_root (zip args) ;;
       match truthy (kikit args) with
       | Some vendor =>
           print ("Running KiKit fab for vendor: " +:+ vendor) ;;
           vendor_zip <- run_kikit_fab E vendor pcb_path prod_root ;;
           print ("KiKit vendor ZIP: " +:+ str vendor_zip)
       | None => ret tt
       end ;;
       print (Str.nl +:+ "All done ✅") ;;
       print ("- 3D models:       " +:+ str three_d_dir) ;;
       print ("- Pictures:        " +:+ str pics_dir) ;;
       print ("- Documentation:   " +:+ str docs_dir) ;;
       print ("- Production run:  " +:+ str prod_root))%script w
      ([DoMkdir (prod_root_of E args tag proj_stem)] ++
       plan_3d kicad pcb_path three_d_dir (glb args) ++
       plan_pictures kicad pcb_path pics_dir (iso args) ++
       plan_docs kicad sch_path pcb_path docs_dir (negb (skip_drc args)) ++
       plan_fab kicad sch_path pcb_path (prod_root_of E args tag proj_stem) ++
       match truthy (kikit args) with
       | Some vendor => plan_kikit pcb_path kik vendor (prod_root_of E args tag proj_stem)
       | None => []
       end)
      (fun _ => forall vendor, truthy (kikit args) = Some vendor ->
                exists wk, truthy (which E wk "kikit") = Some kik).
Proof.
  intros root three_d_dir pics_dir docs_dir.
  fold (prod_root_of E args tag proj_stem).
  set (prod_root := prod_root_of E args tag proj_stem).
  set (Q := fun (kik : string) (_ : unit) =>
              forall vendor, truthy (kikit args) = Some vendor ->
              exists wk, truthy (which E wk "kikit") = Some kik).
  apply (performs_bind_ex0 (X := string) _ _ w [DoMkdir prod_root] _
           (fun q => q = prod_root) Q ""); [apply performs_ensure_dir|].
  intros ? w1 _ ->.
  assert (forall (m : M unit) s w' (p : string -> list action),
            (forall w'', exists x, performs m w'' (p x) (Q x)) ->
            exists x, performs (bind (print s) (fun _ => m)) w' (p x) (Q x))
    as Hprint.
  { intros m s w' p Hm.
    apply (performs_bind_ex0 (X := string) _ _ w' [] p (fun _ => True) Q "");
      [apply performs_print|].
    intros _ w'' _ _. apply Hm. }
  apply Hprint; intros w2. apply Hprint; intros w3.
  apply Hprint; intros w4. apply Hprint; intros w5.
  eapply (performs_bind_ex0 (X := string) _ _ w5 _ _ _ Q "");
    [apply performs_export_3d|]. intros ? w6 _ _.
  eapply (performs_bind_ex0 (X := string) _ _ w6 _ _ _ Q "");
    [apply performs_export_pictures|]. intros ? w7 _ _.
  eapply (performs_bind_ex0 (X := string) _ _ w7 _ _ _ Q "");
    [apply performs_export_docs|]. intros ? w8 _ _.
  eapply (performs_bind_ex0 (X := string) _ _ w8 _ _ _ Q "");
    [apply performs_export_fab|]. intros ? w9 _ _.
  destruct (performs_vendor_stage prod_root w9) as [kik Hv].
  exists kik.
  eapply (performs_weaken _ _ _ _ (Q kik)).
  - eapply performs_bind; [exact Hv|]. intros u w10 _ HQ.
    repeat (eapply performs_bind_nil; [apply performs_print|]; intros _ ? _ _).
    eapply performs_weaken; [apply performs_print | reflexivity |].
    intros [] _. by destruct u.
  - apply app_nil_r.
  - done.
Qed.

End MainPlan.

(** The three fixed directories and the reading of the clock, before
    any continuation [k]. *)
Lemma performs_three_dirs E (d1 d2 d3 : Path) (k : Path -> Path -> Path -> string -> M unit)
      (rest : string -> string -> list action) (Q : string -> unit -> Prop) w :
  (forall tag w', exists kik, performs (k d1 d2 d3 tag) w' (rest tag kik) (Q kik)) ->
  exists tag kik,
    (exists w1, tag = strftime_minute (now E w1)) /\
    performs (a <- ensure_dir E d1 ;; b <- ensure_dir E d2 ;; c <- ensure_dir E d3 ;;
              tag <- timestamp_tag E ;; k a b c tag)%script w
      ([DoMkdir d1] ++ [DoMkdir d2] ++ [DoMkdir d3] ++ rest tag kik) (Q kik).
Proof.
  intros Hk.
  set (Phi := fun x : string * string => exists w1, fst x = strftime_minute (now E w1)).
  assert (Phi (strftime_minute (now E w), "")) as H0 by (by exists w).
  enough (exists x : string * string,
             Phi x /\
             performs (a <- ensure_dir E d1 ;; b <- ensure_dir E d2 ;; c <- ensure_dir E d3 ;;
                       tag <- timestamp_tag E ;; k a b c tag)%script w
               ([DoMkdir d1] ++ (fun x => [DoMkdir d2] ++ [DoMkdir d3] ++ rest (fst x) (snd x)) x)
               ((fun x => Q (snd x)) x)) as ([tag kik] & HPhi & H).
  { exists tag, kik. split; [exact HPhi | exact H]. }
  apply (performs_bind_ex (X := string * string) _ _ w [DoMkdir d1] _ Phi (fun q => q = d1)
           (fun x => Q (snd x)) _ (performs_ensure_dir E d1 w) H0).
  intros ? w1 _ ->.
  apply (performs_bind_ex (X := string * string) _ _ w1 [DoMkdir d2]
           (fun x => [DoMkdir d3] ++ rest (fst x) (snd x)) Phi (fun q => q = d2)
           (fun x => Q (snd x)) _ (performs_ensure_dir E d2 w1) H0).
  intros ? w2 _ ->.
  apply (performs_bind_ex (X := string * string) _ _ w2 [DoMkdir d3]
           (fun x => rest (fst x) (snd x)) Phi (fun q => q = d3)
           (fun x => Q (snd x)) _ (performs_ensure_dir E d3 w2) H0).
  intros ? w3 _ ->.
  destruct (Hk (strftime_minute (now E w3)) w3) as [kik Hrest].
  exists (strftime_minute (now E w3), kik). split; [by exists w3|].
  exact Hrest.
Qed.

(** The run follows [plan_main]: it makes the requests of the plan in
    order, stops at the first failure, and makes them all when it
    returns.  The stamp is a reading of the clock, and the vendor tool
    is the one the search path gave. *)
Lemma performs_main E args w kicad proj_stem sch_path pcb_path :
  fst (which_kicad_cli E w) = Ok kicad ->
  fst (project_paths E (parse (project args)) w) = Ok (proj_stem, sch_path, pcb_path) ->
  exists tag kik,
    (exists w1, tag = strftime_minute (now E w1)) /\
    performs (main E args) w
      (plan_main kicad sch_path pcb_path E args proj_stem tag kik)
      (fun _ => forall vendor, truthy (kikit args) = Some vendor ->
                exists wk, truthy (which E wk "kikit") = Some kik).
Proof.
  intros Hk Hp.
  pose proof (main_resolved E args w kicad proj_stem sch_path pcb_path Hk Hp) as Hmain.
  cbv zeta in Hmain.
  lazymatch type of Hmain with
  | _ = bind (ensure_dir _ ?d1) (fun a =>
          bind (ensure_dir _ ?d2) (fun b =>
          bind (ensure_dir _ ?d3) (fun c =>
          bind (timestamp_tag _) (fun t => @?k a b c t)))) w =>
      destruct (performs_three_dirs E d1 d2 d3 k
                  (fun tag kik =>
                     [DoMkdir (prod_root_of E args tag proj_stem)] ++
                     plan_3d kicad pcb_path d1 (glb args) ++
                     plan_pictures kicad pcb_path d2 (iso args) ++
                     plan_docs kicad sch_path pcb_path d3 (negb (skip_drc args)) ++
                     plan_fab kicad sch_path pcb_path (prod_root_of E args tag proj_stem) ++
                     match truthy (kikit args) with
                     | Some vendor =>
                         plan_kikit pcb_path kik vendor (prod_root_of E args tag proj_stem)
                     | None => []
                     end)
                  (fun kik _ => forall vendor, truthy (kikit args) = Some vendor ->
                                exists wk, truthy (which E wk "kikit") = Some kik) w)
        as (tag & kik & Htag & H)
  end.
  - intros tag w'.
    exact (performs_main_stages E args kicad proj_stem sch_path pcb_path tag w').
  - exists tag, kik. split; [exact Htag|].
    eapply performs_ext; [exact Hmain|]. exact H.
Qed.

(* ===================================================================== *)
(** * Halting at the first failed command                                 *)
(* ===================================================================== *)

Section Halting.

Context (E : Env).

Lemma all_succeeded_app evs1 evs2 :
  all_succeeded evs1 -> all_succeeded evs2 -> all_succeeded (evs1 ++ evs2).
Proof. unfold all_succeeded. intros. by apply Forall_app. Qed.

Lemma halting_bind {A B} (m : M A) (k : A -> M B) :
  halting E m -> (forall a, halting E (k a)) -> halting E (bind m k).
Proof.
  intros Hm Hk w. destruct (Hm w) as (evs1 & Hem1 & H1).
  unfold bind. destruct (m w) as [[a|e] w1]; simpl in *.
  - destruct (Hk a w1) as (evs2 & Hem2 & H2).
    exists (evs1 ++ evs2). split; [by eapply emitted_trans|].
    destruct (k a w1) as [[b|e] w2]; simpl in *.
    + by apply all_succeeded_app.
    + destruct H2 as [[H2 Hne]|(argv & cp & Hrc & He & pre & w1' & Hevs & Hpre & Htr & Hsp)].
      * left. split; [by apply all_succeeded_app | done].
      * right. exists argv, cp. split; [done|]. split; [done|].
        exists (evs1 ++ pre), w1'. split; [by rewrite Hevs, app_assoc|].
        split; [by apply all_succeeded_app|]. split; [|done].
        rewrite Htr, Hem1. by rewrite app_assoc.
  - exists evs1. split; [done|]. exact H1.
Qed.

Lemma halting_quiet {A} (m : M A) :
  (forall w, exists evs, emitted w (snd (m w)) evs /\ all_succeeded evs /\
             forall e, fst (m w) = Raise e -> ekind e = RuntimeError -> False) ->
  halting E m.
Proof.
  intros H w. destruct (H w) as (evs & Hem & Hok & Hne). exists evs. split; [done|].
  destruct (fst (m w)) as [a|e]; [done|]. left. split; [done|]. by apply Hne.
Qed.

Lemma halting_ret {A} (a : A) : halting E (ret a).
Proof.
  apply halting_quiet. intros w. exists []. split; [apply emitted_nil|].
  split; [constructor | discriminate].
Qed.

Lemma halting_raise {A} (e : exn) : (ekind e = RuntimeError -> False) -> halting E (@raise A e).
Proof.
  intros He. apply halting_quiet. intros w. exists []. split; [apply emitted_nil|].
  split; [constructor|]. simpl. by intros e' [= <-].
Qed.

Lemma halting_emit ev : failed ev = false -> halting E (emit ev).
Proof.
  intros Hev. apply halting_quiet. intros w. exists [ev]. split; [done|].
  split; [by repeat constructor | discriminate].
Qed.

Lemma halting_print s : halting E (print s).
Proof. by apply halting_emit. Qed.

Lemma halting_path_exists p : halting E (path_exists E p).
Proof.
  apply halting_quiet. intros w. exists []. split; [apply emitted_nil|].
  split; [constructor | discriminate].
Qed.

Lemma halting_shutil_which n : halting E (shutil_which E n).
Proof.
  apply halting_quiet. intros w. exists []. split; [apply emitted_nil|].
  split; [constructor | discriminate].
Qed.

Lemma halting_timestamp_tag : halting E (timestamp_tag E).
Proof.
  apply halting_quiet. intros w. exists []. split; [apply emitted_nil|].
  split; [constructor | discriminate].
Qed.

Lemma os_mkdir_kind f k e : os_mkdir f k = Raise e -> ekind e = RuntimeError -> False.
Proof.
  unfold os_mkdir. destruct (f !! k); [by intros [= <-]|].
  destruct (f !! removelast k) as [[]|]; by intros [= <-].
Qed.

Lemma swallow_kind f k e e' :
  (ekind e = RuntimeError -> False) -> swallow f k e = Raise e' ->
  ekind e' = RuntimeError -> False.
Proof. unfold swallow. destruct (is_dir f k); [done|]. by intros He [= <-]. Qed.

Lemma mkdir_parents_kind rk : forall f e,
  mkdir_parents f rk = Raise e -> ekind e = RuntimeError -> False.
Proof.
  induction rk as [|c rk IH]; intros f e; simpl.
  - destruct (os_mkdir f []) as [f'|e0] eqn:H0; [done|].
    pose proof (os_mkdir_kind _ _ _ H0) as Hk0.
    destruct (ekind e0) eqn:Hk; try (apply swallow_kind; congruence).
    intros [= <-]. congruence.
  - destruct (os_mkdir f (rev rk ++ [c])) as [f'|e0] eqn:H0; [done|].
    pose proof (os_mkdir_kind _ _ _ H0) as Hk0.
    destruct (ekind e0) eqn:Hk; try (apply swallow_kind; congruence).
    destruct (mkdir_parents f rk) as [f1|e1] eqn:H1.
    + destruct (os_mkdir f1 (rev rk ++ [c])) as [f2|e2] eqn:H2; [done|].
      pose proof (os_mkdir_kind _ _ _ H2) as Hk2.
      destruct (ekind e2) eqn:Hk2'; try (apply swallow_kind; congruence).
      intros [= <-]. congruence.
    + intros [= <-]. by eapply IH.
Qed.

Lemma halting_mkdir_p p : halting E (mkdir_p E p).
Proof.
  apply halting_quiet. intros w. exists [EvMkdir p]. unfold mkdir_p.
  destruct (mkdir_parents (fs w) (rev (location E p))) as [f|e] eqn:Hm; simpl.
  - split; [done|]. split; [by repeat constructor | discriminate].
  - split; [done|]. split; [by repeat constructor|].
    intros e' [= <-]. by eapply mkdir_parents_kind.
Qed.

Lemma halting_ensure_dir p : halting E (ensure_dir E p).
Proof.
  unfold ensure_dir. apply halting_bind; [apply halting_mkdir_p|].
  intros _. apply halting_ret.
Qed.

(** The runner: the one place where a command is spawned. *)
Lemma halting_run cmd : halting E (run E cmd).
Proof.
  intros w. unfold run, bind, print, eprint, emit, subprocess_run, ret, raise. simpl.
  set (w0 := mkWorld (fs w) (trace w ++ [EvStdout (">> " +:+ Str.join " " cmd)])).
  destruct (spawn E w0 cmd) as [[msg|cp] f'] eqn:Hsp; simpl.
  - eexists [_; _]. split; [unfold emitted; simpl; by rewrite <- app_assoc|].
    left. split; [by repeat constructor | discriminate].
  - destruct (returncode cp =? 0)%Z eqn:Hrc; simpl.
    + eexists [_; _]. split; [unfold emitted; simpl; by rewrite <- app_assoc|].
      repeat constructor. simpl. by rewrite Hrc.
    + eexists [_; _; _; _].
      split; [unfold emitted; simpl; by rewrite <- !app_assoc|].
      right. exists cmd, cp. split; [by apply Z.eqb_neq|]. split; [done|].
      exists [EvStdout (">> " +:+ Str.join " " cmd)], w0.
      split; [done|]. split; [by repeat constructor|]. split; [done|]. exact Hsp.
Qed.

Lemma halting_lift {A} (r : result A) :
  (forall e, r = Raise e -> ekind e = RuntimeError -> False) -> halting E (lift r).
Proof.
  intros Hr. apply halting_quiet. intros w. exists []. split; [apply emitted_nil|].
  split; [constructor|]. simpl. exact Hr.
Qed.

Lemma with_suffix_kind p suf e :
  with_suffix p suf = Raise e -> ekind e = RuntimeError -> False.
Proof.
  unfold with_suffix.
  repeat (match goal with |- context [if ?b then _ else _] => destruct b end;
          try (by intros [= <-])).
Qed.

Lemma companions_kind p e : companions p = Raise e -> ekind e = RuntimeError -> False.
Proof.
  unfold companions.
  destruct (String.eqb _ _).
  - destruct (with_suffix p "") as [s|e0] eqn:H0;
      [|intros [= <-]; by eapply with_suffix_kind].
    destruct (with_suffix s ".kicad_sch") as [sch|e1] eqn:H1;
      [|intros [= <-]; by eapply with_suffix_kind].
    destruct (with_suffix s ".kicad_pcb") as [pcb|e2] eqn:H2;
      [done | intros [= <-]; by eapply with_suffix_kind].
  - destruct (with_suffix p ".kicad_sch") as [sch|e1] eqn:H1;
      [|intros [= <-]; by eapply with_suffix_kind].
    destruct (with_suffix p ".kicad_pcb") as [pcb|e2] eqn:H2;
      [done | intros [= <-]; by eapply with_suffix_kind].
Qed.

Lemma halting_zip_dir src zip : halting E (zip_dir E src zip).
Proof.
  apply halting_quiet. intros w. rewrite zip_dir_unfold.
  pose proof (zip_open_emitted E zip w) as Hopen.
  destruct (zip_open E zip w) as [[[]|e] w1] eqn:Hz; simpl in *.
  - eexists (_ :: _). split.
    + unfold emitted in *. simpl. rewrite Hopen, <- app_assoc. reflexivity.
    + split; [|discriminate]. constructor; [done|].
      apply Forall_forall. intros ev Hev. apply list_elem_of_In, in_map_iff in Hev.
      by destruct Hev as (rel & <- & _).
  - exists [EvZipOpen zip]. split; [done|]. split; [by repeat constructor|].
    intros e' [= <-]. revert Hz. unfold zip_open.
    destruct (fs w !! location E zip) as [[]|];
      destruct (fs w !! removelast (location E zip)) as [[]|];
      intros [= <- _]; discriminate.
Qed.

End Halting.

(** Every step of a stage halts at the first failed command. *)
Ltac halting_steps :=
  repeat first
    [ apply halting_ret
    | apply halting_print
    | apply halting_ensure_dir
    | apply halting_run
    | apply halting_timestamp_tag
    | apply halting_path_exists
    | apply halting_shutil_which
    | apply halting_zip_dir
    | apply halting_raise; discriminate
    | apply halting_bind; [|intros ?]
    | match goal with
      | |- halting _ (if ?b then _ else _) => destruct b
      | |- halting _ (match ?x with _ => _ end) => destruct x
      end ].

Section HaltingStages.

Context (E : Env).

Lemma halting_which_kicad_cli : halting E (which_kicad_cli E).
Proof. unfold which_kicad_cli. halting_steps. Qed.

Lemma halting_project_paths p : halting E (project_paths E p).
Proof.
  unfold project_paths. apply halting_bind.
  - apply halting_lift. apply companions_kind.
  - intros [[s sch] pcb]. halting_steps.
Qed.

Lemma halting_export_3d kicad pcb out glb : halting E (export_3d E kicad pcb out glb).
Proof. unfold export_3d. halting_steps. Qed.

Lemma halting_export_pictures kicad pcb out iso :
  halting E (export_pictures E kicad pcb out iso).
Proof. unfold export_pictures. halting_steps. Qed.

Lemma halting_export_docs kicad sch pcb out drc :
  halting E (export_docs E kicad sch pcb out drc).
Proof. unfold export_docs. halting_steps. Qed.

Lemma halting_export_fab kicad sch pcb out z :
  halting E (export_fab E kicad sch pcb out z).
Proof. unfold export_fab. halting_steps. Qed.

Lemma halting_run_kikit_fab vendor pcb out : halting E (run_kikit_fab E vendor pcb out).
Proof. unfold run_kikit_fab. halting_steps. Qed.

Lemma halting_main args : halting E (main E args).
Proof.
  unfold main.
  apply halting_bind; [apply halting_which_kicad_cli | intros kicad].
  apply halting_bind; [apply halting_project_paths | intros [[s sch] pcb]].
  repeat first
    [ apply halting_export_3d | apply halting_export_pictures
    | apply halting_export_docs | apply halting_export_fab
    | apply halting_run_kikit_fab
    | apply halting_ret | apply halting_print | apply halting_ensure_dir
    | apply halting_timestamp_tag
    | apply halting_bind; [|intros ?]
    | match goal with
      | |- halting _ (match ?x with _ => _ end) => destruct x
      end ].
Qed.

End HaltingStages.

(* ===================================================================== *)
(** * What the first two steps of [main] do                               *)
(* ===================================================================== *)

Lemma which_kicad_cli_unfold E w :
  which_kicad_cli E w =
  (match truthy (which E w "kicad-cli") with
   | Some exe => Ok exe
   | None =>
       if bool_decide (is_Some (fs w !! location E win_default))
       then Ok (str win_default)
       else Raise (mkExn FileNotFoundError kicad_not_found)
   end, w).
Proof.
  unfold which_kicad_cli, bind, shutil_which, path_exists.
  destruct (truthy (which E w "kicad-cli")); [done|]. simpl.
  by destruct (bool_decide _).
Qed.

Lemma project_paths_unfold E p w :
  project_paths E p w =
  (match companions p with
   | Raise e => Raise e
   | Ok (s, sch, pcb) =>
       if negb (bool_decide (is_Some (fs w !! location E sch))) then
         Raise (mkExn FileNotFoundError ("Schematic not found: " +:+ str sch))
       else if negb (bool_decide (is_Some (fs w !! location E pcb))) then
         Raise (mkExn FileNotFoundError ("Board not found: " +:+ str pcb))
       else Ok (name s, sch, pcb)
   end, w).
Proof.
  unfold project_paths, bind, lift, path_exists.
  destruct (companions p) as [[[s sch] pcb]|e]; [|done]. simpl.
  destruct (negb (bool_decide _)); [done|]. simpl.
  by destruct (negb (bool_decide _)).
Qed.

Lemma main_tool_missing E args w e :
  fst (which_kicad_cli E w) = Raise e -> main E args w = (Raise e, w).
Proof.
  intros H. pose proof (which_kicad_cli_world E w) as Hw.
  unfold main. unfold bind at 1.
  destruct (which_kicad_cli E w) as [r w1]. cbn [fst snd] in H, Hw. subst r w1.
  reflexivity.
Qed.

Lemma main_project_missing E args w kicad e :
  fst (which_kicad_cli E w) = Ok kicad ->
  fst (project_paths E (parse (project args)) w) = Raise e ->
  main E args w = (Raise e, w).
Proof.
  intros Hk H. pose proof (which_kicad_cli_world E w) as Hw.
  pose proof (project_paths_world E (parse (project args)) w) as Hw'.
  unfold main. unfold bind at 1.
  destruct (which_kicad_cli E w) as [r w1]. cbn [fst snd] in Hk, Hw. subst r w1.
  unfold bind at 1.
  destruct (project_paths E (parse (project args)) w) as [r w1].
  cbn [fst snd] in H, Hw'. subst r w1. reflexivity.
Qed.

(** A run that raises [e] from the world [w'] exits with status 1 after
    one line on the error stream. *)
Lemma script_raise E args w e w' :
  main E args w = (Raise e, w') ->
  script E args w =
  (1%Z, mkWorld (fs w') (trace w' ++ [EvStderr (Str.nl +:+ "ERROR: " +:+ emsg e)])).
Proof. unfold script. by intros ->. Qed.

Lemma script_ok E args w w' :
  main E args w = (Ok tt, w') -> script E args w = (0%Z, w').
Proof. unfold script. by intros ->. Qed.

(* ===================================================================== *)
(** * C8: the process runner                                              *)
(* ===================================================================== *)

(** C8, as stated, fails on the code.  The claim makes the caller, not the
    runner, print the captured output of a failed command, and has the
    runner return the captured standard output.  Here a command exits
    with status 2 after writing [out] and [err]: it is [run] itself that
    prints both before it raises.  And a command that succeeds with
    [" done\n"] on its standard output makes [run] return ["done"]. *)
Lemma run_prints_captured_output :
  fst (run (Fixture.env None (fun _ => true)) ["tool"; "arg"] Fixture.w0) =
    Raise (mkExn RuntimeError "Command failed with code 2") /\
  trace (snd (run (Fixture.env None (fun _ => true)) ["tool"; "arg"] Fixture.w0)) =
    [EvStdout ">> tool arg";
     EvSpawn ["tool"; "arg"] (inr (mkCompleted 2 "out" "err"));
     EvStdout "out";
     EvStderr "err"] /\
  fst (run (Fixture.env None Fixture.never) ["tool"; "arg"] Fixture.w0) = Ok "done" /\
  "done" <> " done" +:+ Str.nl.
Proof. repeat split; try (vm_compute; reflexivity). discriminate. Qed.

(** C8 (amended): [run] first echoes the command line, then spawns the
    command with its output captured.  It raises the "command failed"
    error, which carries the exit status, exactly when the command
    completed with a non-zero status, and in that case the runner itself
    has printed the captured standard output and standard error, in this
    order, before raising; no caller prints them.  When the status is
    zero it returns the captured standard output with the surrounding
    whitespace stripped. *)
Theorem run_spec E cmd w :
  let w1 := mkWorld (fs w) (trace w ++ [EvStdout (">> " +:+ Str.join " " cmd)]) in
  let s := spawn E w1 cmd in
  let echoed := trace w ++ [EvStdout (">> " +:+ Str.join " " cmd); EvSpawn cmd (sp_res s)] in
  (forall cp, sp_res s = inr cp ->
     (returncode cp = 0%Z ->
        run E cmd w = (Ok (Str.strip (stdout cp)), mkWorld (sp_fs s) echoed)) /\
     (returncode cp <> 0%Z ->
        run E cmd w =
        (Raise (mkExn RuntimeError ("Command failed with code " +:+ Str.of_Z (returncode cp))),
         mkWorld (sp_fs s) (echoed ++ [EvStdout (stdout cp); EvStderr (stderr cp)])))) /\
  (forall msg, sp_res s = inl msg ->
     run E cmd w = (Raise (mkExn OSError msg), mkWorld (sp_fs s) echoed)) /\
  (forall e w', run E cmd w = (Raise e, w') ->
     ekind e = RuntimeError <->
     exists cp, sp_res s = inr cp /\ returncode cp <> 0%Z).
Proof.
  intros w1 s echoed.
  assert (forall cp, sp_res s = inr cp -> returncode cp = 0%Z ->
            run E cmd w = (Ok (Str.strip (stdout cp)), mkWorld (sp_fs s) echoed)) as Hzero.
  { intros cp Hcp Hrc. unfold run, bind, print, emit, subprocess_run. simpl.
    fold w1. fold s. unfold echoed. rewrite Hcp. simpl. rewrite Hrc. simpl. unfold ret.
    by rewrite <- app_assoc. }
  assert (forall cp, sp_res s = inr cp -> returncode cp <> 0%Z ->
            run E cmd w =
            (Raise (mkExn RuntimeError
                      ("Command failed with code " +:+ Str.of_Z (returncode cp))),
             mkWorld (sp_fs s) (echoed ++ [EvStdout (stdout cp); EvStderr (stderr cp)])))
    as Hfail.
  { intros cp Hcp Hrc. unfold run, bind, print, eprint, emit, subprocess_run. simpl.
    fold w1. fold s. unfold echoed. rewrite Hcp. simpl.
    apply Z.eqb_neq in Hrc. rewrite Hrc. simpl. unfold raise.
    by rewrite <- !app_assoc. }
  assert (forall msg, sp_res s = inl msg ->
            run E cmd w = (Raise (mkExn OSError msg), mkWorld (sp_fs s) echoed)) as Hos.
  { intros msg Hmsg. unfold run, bind, print, emit, subprocess_run. simpl.
    fold w1. fold s. unfold echoed. rewrite Hmsg. simpl. by rewrite <- app_assoc. }
  split; [|split].
  - intros cp Hcp. split; auto.
  - exact Hos.
  - intros e w' Hrun. destruct (sp_res s) as [msg|cp] eqn:Hres.
    + rewrite (Hos msg eq_refl) in Hrun. inversion Hrun; subst. simpl.
      split; [discriminate | by intros (cp & Hcp & _)].
    + destruct (Z.eq_dec (returncode cp) 0%Z) as [Hrc|Hrc].
      * rewrite (Hzero cp eq_refl Hrc) in Hrun. discriminate Hrun.
      * rewrite (Hfail cp eq_refl Hrc) in Hrun. inversion Hrun; subst. simpl.
        split; [|done]. intros _. by exists cp.
Qed.

Lemma run_spec_witness :
  run (Fixture.env None (fun _ => true)) ["tool"] Fixture.w0 =
    (Raise (mkExn RuntimeError ("Command failed with code " +:+ Str.of_Z 2)),
     mkWorld Fixture.fs0
       (([] ++ [EvStdout (">> " +:+ Str.join " " ["tool"]);
                EvSpawn ["tool"] (inr (mkCompleted 2 "out" "err"))]) ++
        [EvStdout "out"; EvStderr "err"])) /\
  run (Fixture.env None Fixture.never) ["tool"] Fixture.w0 =
    (Ok (Str.strip (" done" +:+ Str.nl)),
     mkWorld Fixture.fs0
       ([] ++ [EvStdout (">> " +:+ Str.join " " ["tool"]);
               EvSpawn ["tool"] (inr (mkCompleted 0 (" done" +:+ Str.nl) ""))])) /\
  run Fixture.bare ["tool"] Fixture.w0 =
    (Raise (mkExn OSError "[Errno 2] No such file or directory"),
     mkWorld Fixture.fs0
       ([] ++ [EvStdout (">> " +:+ Str.join " " ["tool"]);
               EvSpawn ["tool"] (inl "[Errno 2] No such file or directory")])).
Proof.
  pose proof (run_spec (Fixture.env None (fun _ => true)) ["tool"] Fixture.w0) as Hfail.
  pose proof (run_spec (Fixture.env None Fixture.never) ["tool"] Fixture.w0) as Hzero.
  pose proof (run_spec Fixture.bare ["tool"] Fixture.w0) as Hos.
  cbv zeta in Hfail, Hzero, Hos.
  destruct Hfail as [Hfail _]. destruct Hzero as [Hzero _]. destruct Hos as [_ [Hos _]].
  specialize (Hfail (mkCompleted 2 "out" "err") eq_refl). destruct Hfail as [_ Hfail].
  specialize (Hzero (mkCompleted 0 (" done" +:+ Str.nl) "") eq_refl).
  destruct Hzero as [Hzero _].
  specialize (Hos "[Errno 2] No such file or directory" eq_refl).
  split; [|split].
  - apply Hfail. discriminate.
  - apply Hzero. reflexivity.
  - exact Hos.
Defined.

(* ===================================================================== *)
(** * C6: the tool locator                                                *)
(* ===================================================================== *)

(** C6: [which_kicad_cli] first takes what the executable search path
    gives for ["kicad-cli"], whatever the filesystem holds; otherwise it
    takes the one hard-coded fallback path when that path exists; when
    both fail it raises [FileNotFoundError] with a message that names the
    two places it looked (the PATH and the default KiCad 9 location,
    the latter by description: the path itself is not spelled out) and
    says how to remedy.  In that last case the program exits with
    status 1 after printing the message: the filesystem is untouched,
    and no directory has been asked for. *)
Theorem tool_locator E args w :
  (forall exe, truthy (which E w "kicad-cli") = Some exe ->
     which_kicad_cli E w = (Ok exe, w)) /\
  (truthy (which E w "kicad-cli") = None ->
   is_Some (fs w !! location E win_default) ->
     which_kicad_cli E w = (Ok (str win_default), w)) /\
  (truthy (which E w "kicad-cli") = None ->
   fs w !! location E win_default = None ->
     which_kicad_cli E w = (Raise (mkExn FileNotFoundError kicad_not_found), w) /\
     script E args w =
       (1%Z, mkWorld (fs w)
               (trace w ++ [EvStderr (Str.nl +:+ "ERROR: " +:+ kicad_not_found)]))) /\
  Str.mentions "not found on PATH" kicad_not_found = true /\
  Str.mentions "not at default KiCad 9 location" kicad_not_found = true /\
  Str.mentions "Add KiCad to PATH" kicad_not_found = true /\
  Str.mentions (str win_default) kicad_not_found = false.
Proof.
  split; [|split; [|split]].
  - intros exe Hexe. rewrite which_kicad_cli_unfold. by rewrite Hexe.
  - intros Hnone Hex. rewrite which_kicad_cli_unfold, Hnone.
    by rewrite bool_decide_true.
  - intros Hnone Hex.
    assert (which_kicad_cli E w = (Raise (mkExn FileNotFoundError kicad_not_found), w)) as Hw.
    { rewrite which_kicad_cli_unfold, Hnone. rewrite bool_decide_false; [done|].
      rewrite Hex. by intros [? ?]. }
    split; [exact Hw|].
    rewrite (script_raise E args w (mkExn FileNotFoundError kicad_not_found) w); [done|].
    apply main_tool_missing. by rewrite Hw.
  - repeat split; vm_compute; reflexivity.
Qed.

Lemma tool_locator_witness :
  which_kicad_cli (Fixture.env None Fixture.never) Fixture.w0
    = (Ok "/usr/bin/kicad-cli", Fixture.w0) /\
  which_kicad_cli Fixture.bare
      (mkWorld (<[ Fixture.cwd0 ++ ["C:\Program Files\KiCad\9.0\bin\kicad-cli.exe"] := NFile ]>
                  Fixture.fs0) [])
    = (Ok "C:\Program Files\KiCad\9.0\bin\kicad-cli.exe",
       mkWorld (<[ Fixture.cwd0 ++ ["C:\Program Files\KiCad\9.0\bin\kicad-cli.exe"] := NFile ]>
                  Fixture.fs0) []) /\
  script Fixture.bare Fixture.args0 Fixture.w0
    = (1%Z, mkWorld Fixture.fs0
              ([] ++ [EvStderr (Str.nl +:+ "ERROR: " +:+ kicad_not_found)])).
Proof.
  pose proof (tool_locator (Fixture.env None Fixture.never) Fixture.args0 Fixture.w0) as Hpath.
  pose proof (tool_locator Fixture.bare Fixture.args0
                (mkWorld (<[ Fixture.cwd0 ++ ["C:\Program Files\KiCad\9.0\bin\kicad-cli.exe"]
                             := NFile ]> Fixture.fs0) [])) as Hfallback.
  pose proof (tool_locator Fixture.bare Fixture.args0 Fixture.w0) as Hnone.
  destruct Hpath as [Hpath _]. destruct Hfallback as [_ [Hfallback _]].
  destruct Hnone as [_ [_ [Hnone _]]].
  split; [|split].
  - apply Hpath. reflexivity.
  - apply Hfallback; [reflexivity|]. vm_compute. eexists. reflexivity.
  - apply Hnone; [reflexivity|]. vm_compute. reflexivity.
Defined.

(* ===================================================================== *)
(** * C2: a missing companion file                                        *)
(* ===================================================================== *)

(** C2, as stated, fails on the code.  The claim has the four top-level
    output directories already created when the resolver fails.  Here
    the project [nothing] has no schematic: the run exits with status 1,
    the filesystem holds what it held initially, and none of the four
    directories exists in it. *)
Lemma missing_input_creates_no_directory :
  let args := mkArgs "nothing.kicad_pro" "." "PRODUCTION" false false false None false in
  let '(code, w') := script (Fixture.env None Fixture.never) args Fixture.w0 in
  code = 1%Z /\
  trace w' = [EvStderr (Str.nl +:+ "ERROR: Schematic not found: nothing.kicad_sch")] /\
  map_to_list (fs w') = map_to_list Fixture.fs0 /\
  fs w' !! ["/"; "work"; "3D_MODEL"] = None /\
  fs w' !! ["/"; "work"; "PICTURES"] = None /\
  fs w' !! ["/"; "work"; "DOCUMENTATION"] = None /\
  fs w' !! ["/"; "work"; "PRODUCTION"] = None.
Proof. vm_compute. repeat split; reflexivity. Qed.

(** C2 (amended): when the schematic or the board derived from the
    project input does not exist, the program fails before any external
    command is invoked and before any directory is created, because
    resolution precedes directory creation: it exits with status 1, the
    only thing it does is print one error line, and the filesystem is
    untouched.  When the CAD tool was located, the line is the "required
    input missing" error that names the missing path, the schematic
    first. *)
Theorem missing_input_fails_first E args w s sch pcb :
  companions (parse (project args)) = Ok (s, sch, pcb) ->
  fs w !! location E sch = None \/ fs w !! location E pcb = None ->
  exists msg,
    script E args w =
      (1%Z, mkWorld (fs w) (trace w ++ [EvStderr (Str.nl +:+ "ERROR: " +:+ msg)])) /\
    (forall kicad, fst (which_kicad_cli E w) = Ok kicad ->
       msg = if bool_decide (is_Some (fs w !! location E sch))
             then "Board not found: " +:+ str pcb
             else "Schematic not found: " +:+ str sch).
Proof.
  intros Hc Hmiss.
  destruct (fst (which_kicad_cli E w)) as [kicad|e] eqn:Hk.
  - set (msg := if bool_decide (is_Some (fs w !! location E sch))
                then "Board not found: " +:+ str pcb
                else "Schematic not found: " +:+ str sch).
    exists msg. split; [|done].
    rewrite (script_raise E args w (mkExn FileNotFoundError msg) w); [done|].
    apply (main_project_missing E args w kicad); [done|].
    rewrite project_paths_unfold, Hc. simpl. unfold msg.
    destruct (bool_decide (is_Some (fs w !! location E sch))) eqn:Hs; simpl; [|done].
    destruct Hmiss as [Hm|Hm].
    + apply bool_decide_eq_true in Hs. rewrite Hm in Hs. by destruct Hs.
    + rewrite bool_decide_false; [done|]. rewrite Hm. by intros [? ?].
  - exists (emsg e). split; [|done].
    rewrite (script_raise E args w e w); [done|]. by apply main_tool_missing.
Qed.

Lemma missing_input_fails_first_witness :
  exists msg,
    script (Fixture.env None Fixture.never)
      (mkArgs "nothing.kicad_pro" "." "PRODUCTION" false false false None false) Fixture.w0 =
      (1%Z, mkWorld Fixture.fs0 ([] ++ [EvStderr (Str.nl +:+ "ERROR: " +:+ msg)])) /\
    (forall kicad,
       fst (which_kicad_cli (Fixture.env None Fixture.never) Fixture.w0) = Ok kicad ->
       msg = "Schematic not found: nothing.kicad_sch").
Proof.
  pose proof (missing_input_fails_first (Fixture.env None Fixture.never)
                (mkArgs "nothing.kicad_pro" "." "PRODUCTION" false false false None false)
                Fixture.w0 (parse "nothing") (parse "nothing.kicad_sch")
                (parse "nothing.kicad_pcb")) as H.
  destruct H as (msg & Hrun & Hmsg).
  - vm_compute. reflexivity.
  - left. vm_compute. reflexivity.
  - exists msg. split; [exact Hrun|].
    intros kicad Hk. rewrite (Hmsg kicad Hk). vm_compute. reflexivity.
Defined.

(* ===================================================================== *)
(** * C10: the archive helper                                             *)
(* ===================================================================== *)

Lemma below_Some k key n rel :
  below k (key, n) = Some rel <-> rel <> [] /\ key = k ++ rel.
Proof.
  unfold below. simpl. split.
  - destruct (strip_prefix k key) as [[|c rest]|] eqn:Hs; try done.
    intros [= <-]. split; [done|]. by apply strip_prefix_Some.
  - intros [Hne ->]. rewrite strip_prefix_app. by destruct rel.
Qed.

Lemma NoDup_omap_below k (l : list (list string * node)) :
  NoDup (l.*1) -> NoDup (omap (below k) l).
Proof.
  induction l as [|[key n] l IH]; simpl; [constructor|].
  intros Hnd. apply NoDup_cons in Hnd as [Hnotin Hnd].
  destruct (below k (key, n)) as [rel|] eqn:Hb; [|by apply IH].
  apply NoDup_cons. split; [|by apply IH].
  intros Hin. apply list_elem_of_omap in Hin as ([key' n'] & Hin & Hb').
  apply below_Some in Hb as [_ ->]. apply below_Some in Hb' as [_ ->].
  apply Hnotin. apply list_elem_of_fmap. by exists (k ++ rel, n').
Qed.

Lemma entries_below_NoDup (f : FS) k : NoDup (entries_below f k).
Proof.
  unfold entries_below. destruct (is_dir f k); [|constructor].
  apply NoDup_omap_below. apply NoDup_fst_map_to_list.
Qed.

Lemma entries_below_spec (f : FS) k rel :
  rel ∈ entries_below f k <->
  rel <> [] /\ is_dir f k = true /\ is_Some (f !! (k ++ rel)).
Proof.
  unfold entries_below. destruct (is_dir f k); [|split; [by intros ?%elem_of_nil | by intros (_ & ? & _)]].
  rewrite list_elem_of_omap. split.
  - intros ([key n] & Hin & Hb). apply below_Some in Hb as [Hne ->].
    apply elem_of_map_to_list in Hin. split; [done|]. split; [done|]. by exists n.
  - intros (Hne & _ & [n Hn]). exists (k ++ rel, n). split.
    + by apply elem_of_map_to_list.
    + by apply below_Some.
Qed.

(** C10: [zip_dir] opens the archive and then writes exactly one member
    per filesystem entry (file or directory) found below the source
    directory: the members are in one-to-one correspondence with the
    non-empty relative locations [rel] that exist under the source, each
    is the entry [src/rel] stored under the archive name [rel] (its path
    relative to the source directory, without the source directory
    itself), and nothing else is written.  When the archive cannot be
    opened, nothing is written. *)
Theorem zip_dir_members E src zip w :
  match zip_open E zip w with
  | (Ok _, w1) =>
      exists rels,
        zip_dir E src zip w =
          (Ok tt, mkWorld (fs w1) (trace w1 ++ List.map (zip_write zip src) rels)) /\
        NoDup rels /\
        (forall rel,
           rel ∈ rels <->
           rel <> [] /\ is_dir (fs w1) (location E src) = true /\
           is_Some (fs w1 !! (location E src ++ rel))) /\
        (forall rel,
           zip_write zip src rel =
             EvZipWrite zip (mkPath (anchor src) (parts src ++ rel)) (mkPath "" rel) /\
           relative_to (mkPath (anchor src) (parts src ++ rel)) src = Ok (mkPath "" rel))
  | (Raise e, w1) =>
      zip_dir E src zip w = (Raise e, w1) /\ emitted w w1 [EvZipOpen zip]
  end.
Proof.
  pose proof (zip_dir_unfold E src zip w) as Hu.
  pose proof (zip_open_emitted E zip w) as Hopen.
  destruct (zip_open E zip w) as [[[]|e] w1]; simpl in *.
  - exists (entries_below (fs w1) (location E src)).
    split; [exact Hu|]. split; [apply entries_below_NoDup|].
    split; [apply entries_below_spec|].
    intros rel. split; [reflexivity | apply relative_to_child].
  - split; [exact Hu | exact Hopen].
Qed.


Lemma zip_dir_members_witness :
  let E := Fixture.env None Fixture.never in
  let src := parse "/work/run/gerbers" in
  let zip := parse "/work/run/board_gerbers_20240305_1407.zip" in
  exists rels w1,
    zip_dir E src zip Fixture.w_fab =
      (Ok tt, mkWorld (fs w1) (trace w1 ++ List.map (zip_write zip src) rels)) /\
    NoDup rels /\
    ["F_Cu.gbr"] ∈ rels /\ ["B_Cu.gbr"] ∈ rels /\ ["job"] ∈ rels /\
    ["job"; "board.gbrjob"] ∈ rels /\
    ~ [] ∈ rels /\ ~ ["board_gerbers_20240305_1407.zip"] ∈ rels.
Proof.
  intros E src zip.
  pose proof (zip_dir_members E src zip Fixture.w_fab) as H.
  assert (fst (zip_open E zip Fixture.w_fab) = Ok tt) as Hopen by (vm_compute; reflexivity).
  destruct (zip_open E zip Fixture.w_fab) as [[[]|e] w1] eqn:Hz; [|discriminate Hopen].
  destruct H as (rels & Hrun & Hnd & Hmem & _).
  assert (fs w1 = fs (snd (zip_open E zip Fixture.w_fab))) as Hfs by (by rewrite Hz).
  exists rels, w1. split; [exact Hrun|]. split; [exact Hnd|].
  assert (forall rel, rel <> [] ->
            is_Some (fs (snd (zip_open E zip Fixture.w_fab)) !! (location E src ++ rel)) ->
            is_dir (fs (snd (zip_open E zip Fixture.w_fab))) (location E src) = true ->
            rel ∈ rels) as Hin.
  { intros rel Hne Hsome Hdir. apply Hmem. rewrite Hfs.
    split; [exact Hne|]. split; [exact Hdir | exact Hsome]. }
  repeat split.
  - apply Hin; [discriminate | vm_compute; by eexists | vm_compute; reflexivity].
  - apply Hin; [discriminate | vm_compute; by eexists | vm_compute; reflexivity].
  - apply Hin; [discriminate | vm_compute; by eexists | vm_compute; reflexivity].
  - apply Hin; [discriminate | vm_compute; by eexists | vm_compute; reflexivity].
  - intros Hnil. apply Hmem in Hnil as [Hne _]. by apply Hne.
  - intros Hzip. apply Hmem in Hzip as (_ & _ & Hsome). rewrite Hfs in Hsome.
    revert Hsome. vm_compute. by intros [? ?].
Defined.

(* ===================================================================== *)
(** * C3: halting at the first failed command, and the exit status        *)
(* ===================================================================== *)

Lemma all_succeeded_not_failed evs ev :
  all_succeeded evs -> ev ∈ evs -> failed ev = true -> False.
Proof.
  unfold all_succeeded. rewrite Forall_forall. intros H Hin Hf.
  specialize (H ev Hin). congruence.
Qed.

(** In a trace with one failed command, that command is where any
    failed command of the trace is. *)
Lemma unique_failure pre0 x post0 pre y post :
  all_succeeded pre0 -> all_succeeded post0 ->
  pre0 ++ x :: post0 = pre ++ y :: post ->
  failed y = true ->
  pre = pre0 /\ y = x /\ post = post0.
Proof.
  intros Hpre0 Hpost0. revert pre.
  induction pre0 as [|a pre0 IH]; intros pre Heq Hy.
  - destruct pre as [|b pre]; simpl in Heq.
    + by inversion Heq.
    + inversion Heq; subst. exfalso.
      apply (all_succeeded_not_failed (pre ++ y :: post) y); [done| |done].
      apply elem_of_app. right. by left.
  - destruct pre as [|b pre]; simpl in Heq.
    + inversion Heq; subst. exfalso.
      apply (all_succeeded_not_failed (y :: pre0) y); [done | by left | done].
    + inversion Heq; subst.
      destruct (IH (Forall_inv_tail Hpre0) pre H1 Hy) as (-> & -> & ->). done.
Qed.

(** C3, as stated, fails on the code in its last sentence: a run in which
    every invocation succeeds need not exit with status 0.  Here every
    command succeeds, and the vendor stage is asked for while [kikit] is
    not on the search path: the run exits with status 1. *)
Lemma all_commands_succeed_exit_1 :
  let args := mkArgs "board.kicad_pro" "." "PRODUCTION" false false false (Some "jlcpcb") false in
  let '(code, w') := script (Fixture.env None Fixture.never) args Fixture.w0 in
  code = 1%Z /\
  forallb (fun ev => negb (failed ev)) (trace w') = true /\
  List.length (spawns (actions (trace w'))) = 12%nat /\
  List.last (trace w') (EvStdout "") =
    EvStderr (Str.nl +:+ "ERROR: KiKit executable not found on PATH.").
Proof. vm_compute. repeat split; reflexivity. Qed.

(** C3 (amended): when some external command exits with a non-zero
    status, execution halts at that invocation: it is the last request of
    the run (no later command, directory or archive), every command
    before it succeeded, it is followed only by the two lines the runner
    prints and the top-level error line, the program exits with status 1
    and the message "Command failed with code N", and the filesystem the
    run leaves is exactly the one the failed command left (nothing is
    rolled back).  The exit status is 0 or 1.  A run that exits with
    status 0 is one in which every invocation succeeded; a run in which
    every invocation succeeds exits with status 0 unless a step other
    than a command's exit status fails (tool lookup, input resolution,
    directory creation, archive writing, starting a process), in which
    case it exits with status 1 and the error is not the runner's. *)
Theorem script_halts_at_failed_command E args w :
  exists evs,
    emitted w (snd (script E args w)) evs /\
    (fst (script E args w) = 0%Z \/ fst (script E args w) = 1%Z) /\
    (fst (script E args w) = 0%Z <-> fst (main E args w) = Ok tt) /\
    (fst (script E args w) = 0%Z -> all_succeeded evs) /\
    (forall pre argv cp post,
       evs = pre ++ EvSpawn argv (inr cp) :: post ->
       returncode cp <> 0%Z ->
       fst (script E args w) = 1%Z /\
       post = [EvStdout (stdout cp); EvStderr (stderr cp);
               EvStderr (Str.nl +:+ "ERROR: Command failed with code "
                         +:+ Str.of_Z (returncode cp))] /\
       all_succeeded pre /\
       exists w1,
         trace w1 = trace w ++ pre /\
         spawn E w1 argv = mkSpawned (inr cp) (fs (snd (script E args w)))) /\
    (fst (script E args w) = 1%Z -> all_succeeded evs ->
       exists e, fst (main E args w) = Raise e /\ ekind e <> RuntimeError /\
                 List.last evs (EvStdout "") = EvStderr (Str.nl +:+ "ERROR: " +:+ emsg e)).
Proof.
  destruct (halting_main E args w) as (evs & Hem & H).
  unfold script. destruct (main E args w) as [[[]|e] w'] eqn:Hmain; cbn [fst snd] in *.
  - exists evs. split; [done|]. split; [by left|]. split; [done|]. split; [done|]. split.
    + intros pre argv cp post -> Hrc. exfalso.
      apply (all_succeeded_not_failed _ (EvSpawn argv (inr cp)) H).
      * apply elem_of_app. right. by left.
      * simpl. apply negb_true_iff. by apply Z.eqb_neq.
    + discriminate.
  - exists (evs ++ [EvStderr (Str.nl +:+ "ERROR: " +:+ emsg e)]).
    split; [unfold emitted in *; simpl; by rewrite Hem, app_assoc|].
    split; [by right|]. split; [split; discriminate|]. split; [discriminate|].
    destruct H as [[Hall Hkind]|(argv0 & cp0 & Hrc0 & -> & pre0 & w1 & -> & Hpre0 & Htr & Hsp)].
    + split.
      * intros pre argv cp post Heq Hrc. exfalso.
        apply (all_succeeded_not_failed
                 (evs ++ [EvStderr (Str.nl +:+ "ERROR: " +:+ emsg e)])
                 (EvSpawn argv (inr cp))).
        -- apply all_succeeded_app; [done | by repeat constructor].
        -- rewrite Heq. apply elem_of_app. right. by left.
        -- simpl. apply negb_true_iff. by apply Z.eqb_neq.
      * intros _ _. exists e. split; [done|]. split; [done|]. apply List.last_last.
    + split.
      * intros pre argv cp post Heq Hrc.
        rewrite <- app_assoc in Heq. simpl in Heq.
        destruct (unique_failure pre0 (EvSpawn argv0 (inr cp0))
                    [EvStdout (stdout cp0); EvStderr (stderr cp0);
                     EvStderr (Str.nl +:+ "ERROR: " +:+ emsg (command_failed cp0))]
                    pre (EvSpawn argv (inr cp)) post) as (-> & Hev & ->).
        -- done.
        -- by repeat constructor.
        -- exact Heq.
        -- simpl. apply negb_true_iff. by apply Z.eqb_neq.
        -- inversion Hev; subst. split; [done|]. split; [done|]. split; [done|].
           by exists w1.
      * intros _ Hall. exfalso.
        apply (all_succeeded_not_failed _ (EvSpawn argv0 (inr cp0)) Hall).
        -- apply elem_of_app. left. apply elem_of_app. right. by left.
        -- simpl. apply negb_true_iff. by apply Z.eqb_neq.
Qed.

Lemma script_halts_witness :
  (exists post,
     fst (script (Fixture.env None is_drc) Fixture.args0 Fixture.w0) = 1%Z /\
     post = [EvStdout "out"; EvStderr "err";
             EvStderr (Str.nl +:+ "ERROR: Command failed with code " +:+ Str.of_Z 2)]) /\
  (exists evs,
     emitted Fixture.w0 (snd (script (Fixture.env None Fixture.never) Fixture.args0 Fixture.w0))
       evs /\ all_succeeded evs) /\
  (exists e,
     fst (main (Fixture.env None Fixture.never)
            (mkArgs "board.kicad_pro" "." "PRODUCTION" false false false (Some "jlcpcb") false)
            Fixture.w0) = Raise e /\
     ekind e <> RuntimeError).
Proof.
  split; [|split].
  - destruct (script_halts_at_failed_command (Fixture.env None is_drc) Fixture.args0 Fixture.w0)
      as (evs & Hem & _ & _ & _ & Hstop & _).
    unfold emitted in Hem. vm_compute in Hem.
    match type of Hem with
    | ?l = evs =>
        match l with
        | context [EvStdout "out" :: ?rest] =>
            exists (EvStdout "out" :: rest)
        end
    end.
    match type of Hem with
    | ?l = evs =>
        destruct (Hstop (List.firstn 26 l)
                    ["/usr/bin/kicad-cli"; "pcb"; "drc"; "-o";
                     "/work/DOCUMENTATION/board_drc.rpt"; "--format"; "report";
                     "board.kicad_pcb"]
                    (mkCompleted 2 "out" "err")
                    (List.skipn 27 l)) as (Hcode & Hpost & _)
    end.
    + rewrite <- Hem. vm_compute. reflexivity.
    + discriminate.
    + split; [exact Hcode|]. vm_compute. reflexivity.
  - destruct (script_halts_at_failed_command (Fixture.env None Fixture.never)
                Fixture.args0 Fixture.w0) as (evs & Hem & _ & _ & Hok & _).
    exists evs. split; [exact Hem|]. apply Hok. vm_compute. reflexivity.
  - destruct (script_halts_at_failed_command (Fixture.env None Fixture.never)
                (mkArgs "board.kicad_pro" "." "PRODUCTION" false false false
                   (Some "jlcpcb") false) Fixture.w0)
      as (evs & Hem & _ & _ & _ & _ & Hother).
    destruct Hother as (e & He & Hk & _).
    + vm_compute. reflexivity.
    + unfold emitted in Hem. vm_compute in Hem. rewrite <- Hem.
      unfold all_succeeded. repeat constructor.
    + exists e. split; [exact He | exact Hk].
Defined.

(* ===================================================================== *)
(** * Strings and paths                                                   *)
(* ===================================================================== *)

Lemma append_cons c s t : String c s +:+ t = String c (s +:+ t).
Proof. reflexivity. Qed.

Lemma append_nil_l t : "" +:+ t = t.
Proof. reflexivity. Qed.

Lemma append_nil_r s : s +:+ "" = s.
Proof.
  induction s as [|c s IH]; [done|]. by rewrite append_cons, IH.
Qed.

Lemma append_assoc s1 s2 s3 : (s1 +:+ s2) +:+ s3 = s1 +:+ (s2 +:+ s3).
Proof.
  induction s1 as [|c s1 IH]; [done|]. by rewrite !append_cons, IH.
Qed.

Lemma append_cancel_l s t1 t2 : s +:+ t1 = s +:+ t2 -> t1 = t2.
Proof.
  induction s as [|c s IH]; [done|]. rewrite !append_cons. intros [= H]. by apply IH.
Qed.

Lemma length_append s t : String.length (s +:+ t) = (String.length s + String.length t)%nat.
Proof.
  induction s as [|c s IH]; [done|]. rewrite append_cons. simpl. by rewrite IH.
Qed.

Lemma append_cancel_r s1 s2 t : s1 +:+ t = s2 +:+ t -> s1 = s2.
Proof.
  revert s2. induction s1 as [|c s1 IH]; intros [|d s2] H.
  - done.
  - exfalso. apply (f_equal String.length) in H. rewrite !length_append in H. simpl in H. lia.
  - exfalso. apply (f_equal String.length) in H. rewrite !length_append in H. simpl in H. lia.
  - rewrite !append_cons in H. injection H as -> H. by rewrite (IH _ H).
Qed.

Lemma contains_append ch s t :
  Str.contains ch (s +:+ t) = Str.contains ch s || Str.contains ch t.
Proof.
  induction s as [|c s IH]; [done|]. rewrite append_cons. simpl. rewrite IH.
  by rewrite orb_assoc.
Qed.

Lemma contains_take ch n s : Str.contains ch s = false -> Str.contains ch (Str.take n s) = false.
Proof.
  revert n. induction s as [|c s IH]; intros [|n]; simpl; try done.
  intros H. apply orb_false_iff in H as [-> H]. simpl. by apply IH.
Qed.

Lemma keep_part_long c : (2 <= String.length c)%nat -> keep_part c = true.
Proof.
  unfold keep_part. destruct c as [|a [|b c]]; simpl; try lia. intros _.
  destruct (Ascii.eqb a "."); reflexivity.
Qed.

Lemma split_slash_plain c : Str.contains "/" c = false -> Str.split_slash c = [c].
Proof.
  induction c as [|a c IH]; simpl; [done|].
  intros H. apply orb_false_iff in H as [Ha Hc]. rewrite Ha. by rewrite (IH Hc).
Qed.

Lemma leading_slashes_plain c : Str.contains "/" c = false -> Str.leading_slashes c = 0%nat.
Proof.
  destruct c as [|a c]; simpl; [done|].
  intros H. apply orb_false_iff in H as [Ha _]. by rewrite Ha.
Qed.

(** A plain component parses to itself. *)
Lemma parse_plain c : plain c = true -> parse c = mkPath "" [c].
Proof.
  unfold plain. intros H. apply andb_true_iff in H as [Hs Hk].
  apply negb_true_iff in Hs. unfold parse.
  rewrite (leading_slashes_plain c Hs), (split_slash_plain c Hs). simpl. by rewrite Hk.
Qed.

Lemma joinpath_plain p c : plain c = true -> p // c = mkPath (anchor p) (parts p ++ [c]).
Proof. intros H. unfold joinpath. by rewrite (parse_plain c H). Qed.

Lemma plain_append s t :
  Str.contains "/" s = false -> Str.contains "/" t = false ->
  (2 <= String.length t)%nat -> plain (s +:+ t) = true.
Proof.
  intros Hs Ht Hlen. unfold plain. rewrite contains_append, Hs, Ht. simpl.
  apply keep_part_long. rewrite length_append. lia.
Qed.

Lemma split_slash_no_slash s : Forall (fun c => Str.contains "/" c = false) (Str.split_slash s).
Proof.
  induction s as [|a s IH]; simpl; [by repeat constructor|].
  destruct (Ascii.eqb a "/") eqn:Ha; [by constructor|].
  destruct (Str.split_slash s) as [|h t]; [by repeat constructor; simpl; rewrite Ha|].
  inversion IH; subst. constructor; [|done]. simpl. by rewrite Ha.
Qed.

(** Every path that [Path(s)] builds is made of plain components. *)
Lemma wf_parse s : wf_path (parse s).
Proof.
  unfold wf_path, parse. simpl. apply Forall_forall. intros c Hc.
  apply list_elem_of_In, filter_In in Hc as [Hin Hk].
  unfold plain. rewrite Hk, andb_true_r. apply negb_true_iff.
  pose proof (split_slash_no_slash s) as H. rewrite Forall_forall in H.
  apply H. by apply list_elem_of_In.
Qed.

Lemma last_cons_In (l : list string) c d : In (List.last (c :: l) d) (c :: l).
Proof.
  revert c. induction l as [|x l IH]; intros c; [by left|].
  right. apply (IH x).
Qed.

Lemma name_no_slash p : wf_path p -> Str.contains "/" (name p) = false.
Proof.
  unfold wf_path, name. intros H.
  destruct (parts p) as [|c l] eqn:Hp; [done|].
  assert (List.last (c :: l) "" ∈ c :: l) as Hin.
  { apply list_elem_of_In. apply last_cons_In. }
  rewrite Forall_forall in H. specialize (H _ Hin).
  unfold plain in H. apply andb_true_iff in H as [H _]. by apply negb_true_iff.
Qed.

Lemma stem_no_slash p : wf_path p -> Str.contains "/" (stem p) = false.
Proof.
  intros H. unfold stem. destruct (suffix_index (name p)).
  - apply contains_take. by apply name_no_slash.
  - by apply name_no_slash.
Qed.

Lemma concat_cons_app sep x l c :
  String.concat sep (x :: l ++ [c]) = x +:+ sep +:+ String.concat sep (l ++ [c]).
Proof. simpl. by destruct l. Qed.

Lemma join_last_inj ps c1 c2 :
  Str.join "/" (ps ++ [c1]) = Str.join "/" (ps ++ [c2]) -> c1 = c2.
Proof.
  unfold Str.join. induction ps as [|p ps IH]; simpl app.
  - simpl. done.
  - rewrite !concat_cons_app. intros H. apply append_cancel_l in H.
    apply append_cancel_l in H. by apply IH.
Qed.

Lemma str_snoc a ps c : str (mkPath a (ps ++ [c])) = a +:+ Str.join "/" (ps ++ [c]).
Proof. unfold str. simpl. destruct a; [|done]. by destruct ps. Qed.

(** Two files of one directory whose names differ are written
    differently. *)
Lemma str_joinpath_inj p c1 c2 :
  plain c1 = true -> plain c2 = true -> str (p // c1) = str (p // c2) -> c1 = c2.
Proof.
  intros H1 H2. rewrite (joinpath_plain p c1 H1), (joinpath_plain p c2 H2), !str_snoc.
  intros H. apply append_cancel_l in H. by apply join_last_inj in H.
Qed.

Lemma str_stem_inj p s t1 t2 :
  Str.contains "/" s = false ->
  Str.contains "/" t1 = false -> Str.contains "/" t2 = false ->
  (2 <= String.length t1)%nat -> (2 <= String.length t2)%nat ->
  t1 <> t2 -> str (p // (s +:+ t1)) <> str (p // (s +:+ t2)).
Proof.
  intros Hs Ht1 Ht2 Hl1 Hl2 Hne H. apply Hne.
  apply str_joinpath_inj in H; [by apply append_cancel_l in H | |]; by apply plain_append.
Qed.

(* ===================================================================== *)
(** * C4: how many files the 3D and the picture stages ask for            *)
(* ===================================================================== *)

(** The names a stage derives from one stem with different endings are
    pairwise different files of the output directory. *)
Ltac distinct_outputs Hs :=
  repeat (apply NoDup_cons; split;
          [ rewrite ?elem_of_cons, elem_of_nil; intros Hx;
            repeat (destruct Hx as [Hx|Hx]);
            first
              [ done
              | revert Hx; apply str_stem_inj;
                [ exact Hs | reflexivity | reflexivity | simpl; lia | simpl; lia
                | discriminate ] ]
          | ]);
  apply NoDup_nil_2.

(** C4: whenever the 3D stage completes it has issued exactly one export
    command, writing the STEP model, and exactly two when the GLB flag is
    set, the second writing the GLB model; whenever the picture stage
    completes it has issued exactly three render commands, writing the
    top, bottom and side PNG, and exactly four when the isometric flag is
    set, the fourth writing the isometric PNG.  The files are pairwise
    distinct, so that is 1 or 2 files and 3 or 4 files, and the picture
    stage returns exactly the list of the files it asked for. *)
Theorem export_output_counts E kicad pcb_path out_dir w :
  wf_path pcb_path ->
  (forall make_glb r w',
     export_3d E kicad pcb_path out_dir make_glb w = (Ok r, w') ->
     exists evs,
       emitted w w' evs /\
       outputs (actions evs) =
         str (out_dir // (stem pcb_path +:+ ".step")) ::
         (if make_glb then [str (out_dir // (stem pcb_path +:+ ".glb"))] else []) /\
       NoDup (outputs (actions evs)) /\
       List.length (spawns (actions evs)) = (if make_glb then 2 else 1)%nat /\
       List.length (outputs (actions evs)) = (if make_glb then 2 else 1)%nat) /\
  (forall iso files w',
     export_pictures E kicad pcb_path out_dir iso w = (Ok files, w') ->
     exists evs,
       emitted w w' evs /\
       files = [out_dir // (stem pcb_path +:+ "_top.png");
                out_dir // (stem pcb_path +:+ "_bottom.png");
                out_dir // (stem pcb_path +:+ "_side.png")] ++
               (if iso then [out_dir // (stem pcb_path +:+ "_iso.png")] else []) /\
       outputs (actions evs) = List.map str files /\
       NoDup (outputs (actions evs)) /\
       List.length (spawns (actions evs)) = (if iso then 4 else 3)%nat /\
       List.length (outputs (actions evs)) = (if iso then 4 else 3)%nat).
Proof.
  intros Hwf. pose proof (stem_no_slash pcb_path Hwf) as Hs. split.
  - intros make_glb r w' Hrun.
    destruct (performs_export_3d E kicad pcb_path out_dir make_glb w) as (evs & Hem & _ & Hok).
    rewrite Hrun in Hem, Hok. cbn [fst snd] in Hem, Hok.
    destruct (Hok r eq_refl) as [Hact _]. exists evs. split; [exact Hem|].
    rewrite Hact. unfold plan_3d.
    destruct make_glb; (split; [reflexivity|]); (split; [|split; reflexivity]).
    + change (NoDup [str (out_dir // (stem pcb_path +:+ ".step"));
                     str (out_dir // (stem pcb_path +:+ ".glb"))]).
      distinct_outputs Hs.
    + change (NoDup [str (out_dir // (stem pcb_path +:+ ".step"))]).
      distinct_outputs Hs.
  - intros iso files w' Hrun.
    destruct (performs_export_pictures E kicad pcb_path out_dir iso w)
      as (evs & Hem & _ & Hok).
    rewrite Hrun in Hem, Hok. cbn [fst snd] in Hem, Hok.
    destruct (Hok files eq_refl) as [Hact Hfiles]. exists evs. split; [exact Hem|].
    split; [exact Hfiles|]. rewrite Hact, Hfiles. unfold plan_pictures.
    destruct iso; (split; [reflexivity|]); (split; [|split; reflexivity]).
    + change (NoDup [str (out_dir // (stem pcb_path +:+ "_top.png"));
                     str (out_dir // (stem pcb_path +:+ "_bottom.png"));
                     str (out_dir // (stem pcb_path +:+ "_side.png"));
                     str (out_dir // (stem pcb_path +:+ "_iso.png"))]).
      distinct_outputs Hs.
    + change (NoDup [str (out_dir // (stem pcb_path +:+ "_top.png"));
                     str (out_dir // (stem pcb_path +:+ "_bottom.png"));
                     str (out_dir // (stem pcb_path +:+ "_side.png"))]).
      distinct_outputs Hs.
Qed.

Lemma export_output_counts_witness :
  let E := Fixture.env None Fixture.never in
  let pcb := parse "board.kicad_pcb" in
  (exists evs,
     emitted Fixture.w0
       (snd (export_3d E "kicad-cli" pcb (parse "/work/3D_MODEL") false Fixture.w0)) evs /\
     List.length (outputs (actions evs)) = 1%nat) /\
  (exists evs,
     emitted Fixture.w0
       (snd (export_3d E "kicad-cli" pcb (parse "/work/3D_MODEL") true Fixture.w0)) evs /\
     List.length (outputs (actions evs)) = 2%nat) /\
  (exists evs,
     emitted Fixture.w0
       (snd (export_pictures E "kicad-cli" pcb (parse "/work/PICTURES") false Fixture.w0)) evs /\
     List.length (outputs (actions evs)) = 3%nat) /\
  (exists evs,
     emitted Fixture.w0
       (snd (export_pictures E "kicad-cli" pcb (parse "/work/PICTURES") true Fixture.w0)) evs /\
     List.length (outputs (actions evs)) = 4%nat).
Proof.
  intros E pcb.
  destruct (export_output_counts E "kicad-cli" pcb (parse "/work/3D_MODEL") Fixture.w0
              (wf_parse "board.kicad_pcb")) as [H3d _].
  destruct (export_output_counts E "kicad-cli" pcb (parse "/work/PICTURES") Fixture.w0
              (wf_parse "board.kicad_pcb")) as [_ Hpic].
  assert (forall {A} (m : M A) w r, fst (m w) = Ok r -> m w = (Ok r, snd (m w))) as Hpair.
  { intros A m w r <-. apply surjective_pairing. }
  assert (fst (export_3d E "kicad-cli" pcb (parse "/work/3D_MODEL") false Fixture.w0)
          = Ok (parse "/work/3D_MODEL/board.step")) as R1 by (vm_compute; reflexivity).
  assert (fst (export_3d E "kicad-cli" pcb (parse "/work/3D_MODEL") true Fixture.w0)
          = Ok (parse "/work/3D_MODEL/board.step")) as R2 by (vm_compute; reflexivity).
  assert (fst (export_pictures E "kicad-cli" pcb (parse "/work/PICTURES") false Fixture.w0)
          = Ok [parse "/work/PICTURES/board_top.png"; parse "/work/PICTURES/board_bottom.png";
                parse "/work/PICTURES/board_side.png"]) as R3 by (vm_compute; reflexivity).
  assert (fst (export_pictures E "kicad-cli" pcb (parse "/work/PICTURES") true Fixture.w0)
          = Ok [parse "/work/PICTURES/board_top.png"; parse "/work/PICTURES/board_bottom.png";
                parse "/work/PICTURES/board_side.png"; parse "/work/PICTURES/board_iso.png"])
    as R4 by (vm_compute; reflexivity).
  repeat split.
  - destruct (H3d false _ _ (Hpair _ _ _ _ R1)) as (evs & Hem & _ & _ & _ & Hlen).
    exists evs. split; [exact Hem | exact Hlen].
  - destruct (H3d true _ _ (Hpair _ _ _ _ R2)) as (evs & Hem & _ & _ & _ & Hlen).
    exists evs. split; [exact Hem | exact Hlen].
  - destruct (Hpic false _ _ (Hpair _ _ _ _ R3)) as (evs & Hem & _ & _ & _ & _ & Hlen).
    exists evs. split; [exact Hem | exact Hlen].
  - destruct (Hpic true _ _ (Hpair _ _ _ _ R4)) as (evs & Hem & _ & _ & _ & _ & Hlen).
    exists evs. split; [exact Hem | exact Hlen].
Defined.

(* ===================================================================== *)
(** * The requests of a whole run of the program                          *)
(* ===================================================================== *)

Lemma prefix_omap {A B} (f : A -> option B) (l1 l2 : list A) :
  l1 `prefix_of` l2 -> omap f l1 `prefix_of` omap f l2.
Proof. intros [k ->]. rewrite omap_app. by apply prefix_app_r. Qed.

Lemma prefix_filter {A} (f : A -> bool) (l1 l2 : list A) :
  l1 `prefix_of` l2 -> List.filter f l1 `prefix_of` List.filter f l2.
Proof. intros [k ->]. rewrite List.filter_app. by apply prefix_app_r. Qed.

Lemma prefix_spawns l1 l2 : l1 `prefix_of` l2 -> spawns l1 `prefix_of` spawns l2.
Proof. apply prefix_omap. Qed.

Lemma prefix_mkdirs l1 l2 : l1 `prefix_of` l2 -> mkdirs l1 `prefix_of` mkdirs l2.
Proof. apply prefix_omap. Qed.

(** Either the run stops before it asks anything of the outside (the
    tool or the project was not resolved), or it follows [plan_main]. *)
Lemma script_performs E args w :
  exists evs,
    emitted w (snd (script E args w)) evs /\
    ((actions evs = [] /\ fst (script E args w) = 1%Z) \/
     exists kicad proj_stem sch_path pcb_path tag kik,
       fst (which_kicad_cli E w) = Ok kicad /\
       fst (project_paths E (parse (project args)) w) = Ok (proj_stem, sch_path, pcb_path) /\
       (exists w1, tag = strftime_minute (now E w1)) /\
       actions evs `prefix_of` plan_main kicad sch_path pcb_path E args proj_stem tag kik /\
       (fst (script E args w) = 0%Z ->
          actions evs = plan_main kicad sch_path pcb_path E args proj_stem tag kik /\
          forall vendor, truthy (kikit args) = Some vendor ->
                         exists wk, truthy (which E wk "kikit") = Some kik)).
Proof.
  destruct (fst (which_kicad_cli E w)) as [kicad|e] eqn:Hk.
  - destruct (fst (project_paths E (parse (project args)) w))
      as [[[proj_stem sch_path] pcb_path]|e] eqn:Hp.
    + destruct (performs_main E args w kicad proj_stem sch_path pcb_path Hk Hp)
        as (tag & kik & Htag & evs & Hem & Hpre & Hok).
      unfold script. destruct (main E args w) as [[[]|e] w'] eqn:Hmain; cbn [fst snd] in *.
      * exists evs. split; [exact Hem|]. right.
        exists kicad, proj_stem, sch_path, pcb_path, tag, kik.
        repeat (split; [done|]). intros _.
        destruct (Hok tt eq_refl) as [Hact Hkik]. split; [exact Hact | exact Hkik].
      * exists (evs ++ [EvStderr (Str.nl +:+ "ERROR: " +:+ emsg e)]).
        split; [unfold emitted in *; simpl; by rewrite Hem, app_assoc|]. right.
        exists kicad, proj_stem, sch_path, pcb_path, tag, kik.
        repeat (split; [done|]). split; [|discriminate].
        rewrite actions_app. unfold actions at 2. simpl. by rewrite app_nil_r.
    + exists [EvStderr (Str.nl +:+ "ERROR: " +:+ emsg e)].
      rewrite (script_raise E args w e w (main_project_missing E args w kicad e Hk Hp)).
      split; [done|]. by left.
  - exists [EvStderr (Str.nl +:+ "ERROR: " +:+ emsg e)].
    rewrite (script_raise E args w e w (main_tool_missing E args w e Hk)).
    split; [done|]. by left.
Qed.

(** The design-rule checks, the vendor packaging commands and the
    directories of the plan of a whole run. *)
Lemma drc_of_plan_main kicad sch_path pcb_path E args proj_stem tag kik :
  List.filter is_drc (spawns (plan_main kicad sch_path pcb_path E args proj_stem tag kik)) =
  if skip_drc args then []
  else [[kicad; "pcb"; "drc"; "-o";
         str (resolve E (parse (root args)) // "DOCUMENTATION"
              // (stem pcb_path +:+ "_drc.rpt"));
         "--format"; "report"; str pcb_path]].
Proof.
  unfold plan_main, plan_3d, plan_pictures, plan_docs, plan_fab, plan_kikit.
  destruct (glb args), (iso args), (skip_drc args), (truthy (kikit args)); reflexivity.
Qed.

Lemma fab_of_plan_main kicad sch_path pcb_path E args proj_stem tag kik :
  List.filter is_fab (spawns (plan_main kicad sch_path pcb_path E args proj_stem tag kik)) =
  match truthy (kikit args) with
  | Some vendor =>
      [[kik; "fab"; vendor; str pcb_path; str (prod_root_of E args tag proj_stem)]]
  | None => []
  end.
Proof.
  unfold plan_main, plan_3d, plan_pictures, plan_docs, plan_fab, plan_kikit.
  destruct (glb args), (iso args), (skip_drc args), (truthy (kikit args)); reflexivity.
Qed.

Lemma mkdirs_of_plan_main kicad sch_path pcb_path E args proj_stem tag kik :
  mkdirs (plan_main kicad sch_path pcb_path E args proj_stem tag kik) =
  let root := resolve E (parse (root args)) in
  let prod_root := prod_root_of E args tag proj_stem in
  [root // "3D_MODEL"; root // "PICTURES"; root // "DOCUMENTATION"; prod_root;
   root // "3D_MODEL"; root // "PICTURES"; root // "DOCUMENTATION";
   prod_root; prod_root // "gerbers"; prod_root // "drill"] ++
  match truthy (kikit args) with Some _ => [prod_root] | None => [] end.
Proof.
  unfold plan_main, plan_3d, plan_pictures, plan_docs, plan_fab, plan_kikit.
  destruct (glb args), (iso args), (skip_drc args), (truthy (kikit args)); reflexivity.
Qed.

(* ===================================================================== *)
(** * C5: the design-rule-check report is gated by the skip flag          *)
(* ===================================================================== *)

(** C5: with [--skip-drc] a run issues no design-rule-check command at
    all, so no DRC report is asked for; without it (the default) a run
    issues at most one, and a run that completes has issued exactly one,
    which writes [<stem>_drc.rpt] in the documentation directory.  The
    documentation stage returns that report path exactly when the check
    is included. *)
Theorem drc_report_gated E args w :
  (exists evs,
     emitted w (snd (script E args w)) evs /\
     (skip_drc args = true -> List.filter is_drc (spawns (actions evs)) = []) /\
     (skip_drc args = false ->
        (List.length (List.filter is_drc (spawns (actions evs))) <= 1)%nat /\
        (fst (script E args w) = 0%Z ->
           exists kicad pcb_path,
             List.filter is_drc (spawns (actions evs)) =
             [[kicad; "pcb"; "drc"; "-o";
               str (resolve E (parse (root args)) // "DOCUMENTATION"
                    // (stem pcb_path +:+ "_drc.rpt"));
               "--format"; "report"; str pcb_path]]))) /\
  (forall kicad sch_path pcb_path out_dir include_drc r w',
     export_docs E kicad sch_path pcb_path out_dir include_drc w = (Ok r, w') ->
     snd r = if include_drc then Some (out_dir // (stem pcb_path +:+ "_drc.rpt")) else None).
Proof.
  split.
  - destruct (script_performs E args w)
      as (evs & Hem & [[Hact Hcode]|(kicad & proj_stem & sch_path & pcb_path & tag & kik &
                                      _ & _ & _ & Hpre & Hok)]).
    + exists evs. split; [exact Hem|]. rewrite Hact. split; [done|].
      intros _. split; [simpl; lia|]. intros H0. rewrite H0 in Hcode. discriminate Hcode.
    + exists evs. split; [exact Hem|].
      pose proof (prefix_filter is_drc _ _ (prefix_spawns _ _ Hpre)) as Hdrc.
      rewrite drc_of_plan_main in Hdrc. split.
      * intros Hskip. rewrite Hskip in Hdrc. by apply prefix_nil_inv.
      * intros Hskip. rewrite Hskip in Hdrc. split.
        -- apply prefix_length in Hdrc. exact Hdrc.
        -- intros H0. destruct (Hok H0) as [Hact _]. exists kicad, pcb_path.
           rewrite Hact, drc_of_plan_main, Hskip. reflexivity.
  - intros kicad sch_path pcb_path out_dir include_drc r w' Hrun.
    destruct (performs_export_docs E kicad sch_path pcb_path out_dir include_drc w)
      as (evs & _ & _ & Hok).
    rewrite Hrun in Hok. destruct (Hok r eq_refl) as [_ ->]. reflexivity.
Qed.

Lemma drc_report_gated_witness :
  (exists evs,
     emitted Fixture.w0
       (snd (script (Fixture.env None Fixture.never)
               (mkArgs "board.kicad_pro" "." "PRODUCTION" false false false None true)
               Fixture.w0)) evs /\
     List.filter is_drc (spawns (actions evs)) = []) /\
  (exists evs,
     emitted Fixture.w0
       (snd (script (Fixture.env None Fixture.never) Fixture.args0 Fixture.w0)) evs /\
     List.length (List.filter is_drc (spawns (actions evs))) = 1%nat).
Proof.
  split.
  - destruct (drc_report_gated (Fixture.env None Fixture.never)
                (mkArgs "board.kicad_pro" "." "PRODUCTION" false false false None true)
                Fixture.w0) as [(evs & Hem & Hskip & _) _].
    exists evs. split; [exact Hem|]. apply Hskip. reflexivity.
  - destruct (drc_report_gated (Fixture.env None Fixture.never) Fixture.args0 Fixture.w0)
      as [(evs & Hem & _ & Hdrc) _].
    exists evs. split; [exact Hem|].
    destruct (Hdrc eq_refl) as [_ Hone].
    destruct Hone as (kicad & pcb_path & ->); [vm_compute; reflexivity|]. reflexivity.
Defined.

(* ===================================================================== *)
(** * C9: the vendor packaging stage                                      *)
(* ===================================================================== *)

(** C9: the vendor stage runs only when a vendor identifier is given (and
    is not empty): otherwise a run spawns no [fab] command.  The stage
    looks the tool up on the search path only: when the search path does
    not give it, the stage raises [FileNotFoundError] at once, whatever
    the filesystem holds, without asking for a directory or spawning
    anything.  When the tool is found the stage asks for its output
    directory, spawns the tool with exactly [fab], the vendor, the board
    file and the output directory, and returns the fixed path
    [gerbers.zip] inside that directory, without looking at the
    filesystem.  In a run that completes with a vendor given, that one
    command was spawned, with the tool the search path gave, on the
    timestamped production folder of the run. *)
Theorem vendor_stage_gated E args w :
  (forall vendor pcb_path out_dir w0,
     truthy (which E w0 "kikit") = None ->
     run_kikit_fab E vendor pcb_path out_dir w0 =
       (Raise (mkExn FileNotFoundError "KiKit executable not found on PATH."), w0)) /\
  (forall vendor pcb_path out_dir w0 kik,
     truthy (which E w0 "kikit") = Some kik ->
     performs (run_kikit_fab E vendor pcb_path out_dir) w0
       [DoMkdir out_dir; DoSpawn [kik; "fab"; vendor; str pcb_path; str out_dir]]
       (fun r => r = out_dir // "gerbers.zip")) /\
  (exists evs,
     emitted w (snd (script E args w)) evs /\
     (truthy (kikit args) = None -> List.filter is_fab (spawns (actions evs)) = []) /\
     (forall vendor,
        truthy (kikit args) = Some vendor ->
        (List.length (List.filter is_fab (spawns (actions evs))) <= 1)%nat /\
        (fst (script E args w) = 0%Z ->
           exists kik pcb_path proj_stem tag,
             (exists wk, truthy (which E wk "kikit") = Some kik) /\
             (exists w1, tag = strftime_minute (now E w1)) /\
             List.filter is_fab (spawns (actions evs)) =
             [[kik; "fab"; vendor; str pcb_path;
               str (prod_root_of E args tag proj_stem)]]))).
Proof.
  split; [|split].
  - intros vendor pcb_path out_dir w0 Hnone.
    unfold run_kikit_fab. unfold bind at 1, shutil_which at 1. by rewrite Hnone.
  - intros vendor pcb_path out_dir w0 kik Hkik.
    pose proof (performs_run_kikit_fab E pcb_path vendor out_dir w0) as H.
    rewrite Hkik in H. exact H.
  - destruct (script_performs E args w)
      as (evs & Hem & [[Hact Hcode]|(kicad & proj_stem & sch_path & pcb_path & tag & kik &
                                      _ & _ & Htag & Hpre & Hok)]).
    + exists evs. split; [exact Hem|]. rewrite Hact. split; [done|].
      intros vendor _. split; [simpl; lia|]. intros H0. rewrite H0 in Hcode.
      discriminate Hcode.
    + exists evs. split; [exact Hem|].
      pose proof (prefix_filter is_fab _ _ (prefix_spawns _ _ Hpre)) as Hfab.
      rewrite fab_of_plan_main in Hfab. split.
      * intros Hnone. rewrite Hnone in Hfab. by apply prefix_nil_inv.
      * intros vendor Hv. rewrite Hv in Hfab. split.
        -- apply prefix_length in Hfab. exact Hfab.
        -- intros H0. destruct (Hok H0) as [Hact Hfound].
           exists kik, pcb_path, proj_stem, tag. split; [by apply (Hfound vendor)|].
           split; [exact Htag|]. rewrite Hact, fab_of_plan_main, Hv. reflexivity.
Qed.

Lemma vendor_stage_gated_witness :
  let E := Fixture.env (Some "/usr/bin/kikit") Fixture.never in
  let args := mkArgs "board.kicad_pro" "." "PRODUCTION" false false false (Some "jlcpcb") false in
  run_kikit_fab (Fixture.env None Fixture.never) "jlcpcb" (parse "board.kicad_pcb")
      (parse "/work/PRODUCTION/run") Fixture.w0 =
    (Raise (mkExn FileNotFoundError "KiKit executable not found on PATH."), Fixture.w0) /\
  performs (run_kikit_fab E "jlcpcb" (parse "board.kicad_pcb") (parse "/work/PRODUCTION/run"))
    Fixture.w0
    [DoMkdir (parse "/work/PRODUCTION/run");
     DoSpawn ["/usr/bin/kikit"; "fab"; "jlcpcb"; str (parse "board.kicad_pcb");
              str (parse "/work/PRODUCTION/run")]]
    (fun r => r = parse "/work/PRODUCTION/run" // "gerbers.zip") /\
  (exists evs,
     emitted Fixture.w0 (snd (script E Fixture.args0 Fixture.w0)) evs /\
     List.filter is_fab (spawns (actions evs)) = []) /\
  (exists evs,
     emitted Fixture.w0 (snd (script E args Fixture.w0)) evs /\
     List.length (List.filter is_fab (spawns (actions evs))) = 1%nat).
Proof.
  intros E args. split; [|split; [|split]].
  - destruct (vendor_stage_gated (Fixture.env None Fixture.never) Fixture.args0 Fixture.w0)
      as [Hmiss _].
    apply Hmiss. reflexivity.
  - destruct (vendor_stage_gated E Fixture.args0 Fixture.w0) as [_ [Hfound _]].
    apply Hfound. reflexivity.
  - destruct (vendor_stage_gated E Fixture.args0 Fixture.w0)
      as [_ [_ (evs & Hem & Hnone & _)]].
    exists evs. split; [exact Hem|]. apply Hnone. reflexivity.
  - destruct (vendor_stage_gated E args Fixture.w0) as [_ [_ (evs & Hem & _ & Hsome)]].
    exists evs. split; [exact Hem|].
    destruct (Hsome "jlcpcb" eq_refl) as [_ Hone].
    destruct Hone as (kik & pcb_path & proj_stem & tag & _ & _ & ->);
      [vm_compute; reflexivity|]. reflexivity.
Defined.

(* ===================================================================== *)
(** * Creating directories                                                *)
(* ===================================================================== *)

Lemma grows_refl f : grows f f.
Proof. intros k. by left. Qed.

Lemma grows_trans f1 f2 f3 : grows f1 f2 -> grows f2 f3 -> grows f1 f3.
Proof.
  intros H12 H23 k. destruct (H12 k) as [H|[H H']], (H23 k) as [G|[G G']].
  - left. congruence.
  - right. split; congruence.
  - right. split; congruence.
  - congruence.
Qed.

Lemma grows_keeps f f' k n : grows f f' -> f !! k = Some n -> f' !! k = Some n.
Proof. intros H Hk. destruct (H k) as [G|[G _]]; congruence. Qed.

Lemma os_mkdir_Ok f k f' :
  os_mkdir f k = Ok f' ->
  f !! k = None /\ f !! removelast k = Some NDir /\ f' = <[k := NDir]> f.
Proof.
  unfold os_mkdir. destruct (f !! k); [done|].
  destruct (f !! removelast k) as [[]|]; try done. by intros [= <-].
Qed.

Lemma os_mkdir_grows f k f' : os_mkdir f k = Ok f' -> grows f f'.
Proof.
  intros H. apply os_mkdir_Ok in H as (Hk & _ & ->). intros j.
  destruct (decide (j = k)) as [->|Hne].
  - right. split; [done|]. apply lookup_insert_eq.
  - left. by apply lookup_insert_ne.
Qed.

Lemma swallow_Ok f k e f' : swallow f k e = Ok f' -> f' = f /\ is_dir f k = true.
Proof. unfold swallow. destruct (is_dir f k); [|done]. by intros [= <-]. Qed.

(** [mkdir(parents=True, exist_ok=True)] never removes or replaces an
    entry, and what it adds are directories. *)
Lemma mkdir_parents_grows rk : forall f f', mkdir_parents f rk = Ok f' -> grows f f'.
Proof.
  induction rk as [|c rk IH]; intros f f'; simpl.
  - destruct (os_mkdir f []) as [f0|e0] eqn:H0; [intros [= <-]; by eapply os_mkdir_grows|].
    destruct (ekind e0); try done;
      intros H; apply swallow_Ok in H as [-> _]; apply grows_refl.
  - destruct (os_mkdir f (rev rk ++ [c])) as [f0|e0] eqn:H0;
      [intros [= <-]; by eapply os_mkdir_grows|].
    destruct (ekind e0);
      try (intros H; apply swallow_Ok in H as [-> _]; apply grows_refl).
    destruct (mkdir_parents f rk) as [f1|e1] eqn:H1; [|done].
    specialize (IH f f1 H1).
    destruct (os_mkdir f1 (rev rk ++ [c])) as [f2|e2] eqn:H2.
    + intros [= <-]. eapply grows_trans; [exact IH|]. by eapply os_mkdir_grows.
    + destruct (ekind e2); try done;
        intros H; apply swallow_Ok in H as [-> _]; exact IH.
Qed.

(** When it succeeds, the location is a directory. *)
Lemma mkdir_parents_is_dir rk : forall f f',
  mkdir_parents f rk = Ok f' -> is_dir f' (rev rk) = true.
Proof.
  assert (forall f k f', os_mkdir f k = Ok f' -> is_dir f' k = true) as Hmk.
  { intros f k f' H. apply os_mkdir_Ok in H as (_ & _ & ->).
    unfold is_dir. by rewrite lookup_insert_eq. }
  induction rk as [|c rk IH]; intros f f'; simpl.
  - destruct (os_mkdir f []) as [f0|e0] eqn:H0; [intros [= <-]; by eapply Hmk|].
    destruct (ekind e0); try done; intros H; by apply swallow_Ok in H as [-> ?].
  - destruct (os_mkdir f (rev rk ++ [c])) as [f0|e0] eqn:H0;
      [intros [= <-]; by eapply Hmk|].
    destruct (ekind e0); try (intros H; by apply swallow_Ok in H as [-> ?]).
    destruct (mkdir_parents f rk) as [f1|e1] eqn:H1; [|done].
    destruct (os_mkdir f1 (rev rk ++ [c])) as [f2|e2] eqn:H2.
    + intros [= <-]. by eapply Hmk.
    + destruct (ekind e2); try done; intros H; by apply swallow_Ok in H as [-> ?].
Qed.

(** On a directory that exists it changes nothing. *)
Lemma mkdir_parents_idempotent rk f :
  is_dir f (rev rk) = true -> mkdir_parents f rk = Ok f.
Proof.
  intros Hd.
  assert (exists e, os_mkdir f (rev rk) = Raise e /\ ekind e = FileExistsError) as (e & He & Hk).
  { unfold os_mkdir. unfold is_dir in Hd. destruct (f !! rev rk) as [[]|]; try done.
    by eexists. }
  destruct rk as [|c rk]; simpl in *; rewrite He, Hk; unfold swallow; by rewrite Hd.
Qed.

(** It creates the missing parents: when nothing stands in the way, it
    succeeds. *)
Lemma mkdir_parents_creatable k : forall f,
  creatable f k -> exists f', mkdir_parents f (rev k) = Ok f'.
Proof.
  induction k as [|c k IH] using rev_ind; intros f (Hne & Hroot & Hfiles); [done|].
  rewrite rev_unit. simpl. rewrite rev_involutive.
  destruct (f !! (k ++ [c])) as [n|] eqn:Hk.
  - destruct n; [exfalso; by apply (Hfiles (k ++ [c]))|].
    unfold os_mkdir. rewrite Hk. simpl. unfold swallow, is_dir. rewrite Hk. by eexists.
  - assert (k <> []) as Hk0.
    { intros ->. simpl in Hroot. unfold is_dir in Hroot. simpl in Hk. by rewrite Hk in Hroot. }
    assert (creatable f k) as Hc.
    { split; [done|]. split.
      - destruct k as [|a k]; [done|]. exact Hroot.
      - intros j Hj Hpre. apply Hfiles; [done|]. by apply prefix_app_r. }
    unfold os_mkdir at 1. rewrite Hk, removelast_last.
    destruct (f !! k) as [[]|] eqn:Hparent.
    + exfalso. apply (Hfiles k); [done | by apply prefix_app_r | done].
    + by eexists.
    + simpl. destruct (IH f Hc) as [f1 H1]. rewrite H1.
      pose proof (mkdir_parents_is_dir (rev k) f f1 H1) as Hd. rewrite rev_involutive in Hd.
      pose proof (mkdir_parents_grows (rev k) f f1 H1) as Hg.
      unfold os_mkdir. rewrite removelast_last.
      destruct (Hg (k ++ [c])) as [G|[_ G]].
      * rewrite G, Hk. unfold is_dir in Hd. destruct (f1 !! k) as [[]|]; try done. by eexists.
      * rewrite G. simpl. unfold swallow, is_dir. rewrite G. by eexists.
Qed.

Section EnsureDir.

Context (E : Env).

Lemma ensure_dir_unfold p w :
  ensure_dir E p w =
  match mkdir_parents (fs w) (rev (location E p)) with
  | Ok f' => (Ok p, mkWorld f' (trace w ++ [EvMkdir p]))
  | Raise e => (Raise e, mkWorld (fs w) (trace w ++ [EvMkdir p]))
  end.
Proof.
  unfold ensure_dir, bind, mkdir_p.
  by destruct (mkdir_parents (fs w) (rev (location E p))).
Qed.

Lemma ensure_dir_idempotent p w :
  is_dir (fs w) (location E p) = true ->
  ensure_dir E p w = (Ok p, mkWorld (fs w) (trace w ++ [EvMkdir p])).
Proof.
  intros Hd. rewrite ensure_dir_unfold, mkdir_parents_idempotent; [done|].
  by rewrite rev_involutive.
Qed.

Lemma ensure_dir_creates p w :
  creatable (fs w) (location E p) ->
  exists f',
    ensure_dir E p w = (Ok p, mkWorld f' (trace w ++ [EvMkdir p])) /\
    is_dir f' (location E p) = true /\ grows (fs w) f'.
Proof.
  intros Hc. destruct (mkdir_parents_creatable _ _ Hc) as [f' Hf'].
  exists f'. rewrite ensure_dir_unfold, Hf'. split; [done|]. split.
  - pose proof (mkdir_parents_is_dir _ _ _ Hf') as H. by rewrite rev_involutive in H.
  - by eapply mkdir_parents_grows.
Qed.

Lemma ensure_dir_grows p w : grows (fs w) (fs (snd (ensure_dir E p w))).
Proof.
  rewrite ensure_dir_unfold.
  destruct (mkdir_parents (fs w) (rev (location E p))) as [f'|e] eqn:H; simpl.
  - by eapply mkdir_parents_grows.
  - apply grows_refl.
Qed.

End EnsureDir.

(* ===================================================================== *)
(** * The stamp of the production run folder                              *)
(* ===================================================================== *)

Lemma digit_code n : nat_of_ascii (Str.digit n) = (48 + n mod 10)%nat.
Proof.
  unfold Str.digit. apply nat_ascii_embedding.
  pose proof (Nat.mod_upper_bound n 10). lia.
Qed.

Lemma digit_inj a b : Str.digit a = Str.digit b -> a mod 10 = b mod 10.
Proof. intros H. apply (f_equal nat_of_ascii) in H. rewrite !digit_code in H. lia. Qed.

Lemma digit_not_slash n : Ascii.eqb (Str.digit n) "/" = false.
Proof.
  apply Ascii.eqb_neq. intros H. apply (f_equal nat_of_ascii) in H.
  rewrite digit_code in H. change (nat_of_ascii "/") with 47%nat in H. lia.
Qed.

Lemma two_digits_inj n m :
  (n < 100)%nat -> (m < 100)%nat -> Str.two_digits n = Str.two_digits m -> n = m.
Proof.
  intros Hn Hm H. unfold Str.two_digits in H.
  remember (n / 10)%nat as qn eqn:Hqn. remember (m / 10)%nat as qm eqn:Hqm.
  injection H as H1 H0. apply digit_inj in H1, H0.
  pose proof (Nat.div_mod_eq n 10). pose proof (Nat.div_mod_eq m 10).
  assert (qn < 10)%nat by (subst qn; apply Nat.Div0.div_lt_upper_bound; lia).
  assert (qm < 10)%nat by (subst qm; apply Nat.Div0.div_lt_upper_bound; lia).
  rewrite !Nat.mod_small in H1 by lia. subst qn qm. lia.
Qed.

Lemma four_digits_inj n m :
  (n < 100 * 100)%nat -> (m < 100 * 100)%nat ->
  Str.four_digits n = Str.four_digits m -> n = m.
Proof.
  intros Hn Hm H. unfold Str.four_digits in H.
  remember (n / 1000)%nat as n3 eqn:Hn3. remember (m / 1000)%nat as m3 eqn:Hm3.
  remember (n / 100)%nat as n2 eqn:Hn2. remember (m / 100)%nat as m2 eqn:Hm2.
  remember (n / 10)%nat as n1 eqn:Hn1. remember (m / 10)%nat as m1 eqn:Hm1.
  injection H as H3 H2 H1 H0. apply digit_inj in H3, H2, H1, H0.
  assert (n2 = n1 / 10)%nat as Hn21 by (subst; by rewrite Nat.Div0.div_div).
  assert (m2 = m1 / 10)%nat as Hm21 by (subst; by rewrite Nat.Div0.div_div).
  assert (n3 = n2 / 10)%nat as Hn32 by (subst n3 n2; by rewrite Nat.Div0.div_div).
  assert (m3 = m2 / 10)%nat as Hm32 by (subst m3 m2; by rewrite Nat.Div0.div_div).
  assert (n3 < 10)%nat by (subst n3; apply Nat.Div0.div_lt_upper_bound; lia).
  assert (m3 < 10)%nat by (subst m3; apply Nat.Div0.div_lt_upper_bound; lia).
  rewrite !(Nat.mod_small n3), !(Nat.mod_small m3) in H3 by lia.
  pose proof (Nat.div_mod_eq n 10) as D0. pose proof (Nat.div_mod_eq m 10) as D0'.
  pose proof (Nat.div_mod_eq n1 10) as D1. pose proof (Nat.div_mod_eq m1 10) as D1'.
  pose proof (Nat.div_mod_eq n2 10) as D2. pose proof (Nat.div_mod_eq m2 10) as D2'.
  rewrite <- Hn1 in D0. rewrite <- Hm1 in D0'.
  rewrite <- Hn21 in D1. rewrite <- Hm21 in D1'.
  rewrite <- Hn32 in D2. rewrite <- Hm32 in D2'.
  lia.
Qed.

Lemma append_inj_length a a' s s' :
  String.length a = String.length a' -> a +:+ s = a' +:+ s' -> a = a' /\ s = s'.
Proof.
  revert a'. induction a as [|c a IH]; intros [|c' a'] Hlen H; try discriminate Hlen.
  - done.
  - rewrite !append_cons in H. injection H as -> H. injection Hlen as Hlen.
    destruct (IH a' Hlen H) as [-> ->]. done.
Qed.

Lemma strftime_minute_inj d1 d2 :
  valid_datetime d1 -> valid_datetime d2 ->
  strftime_minute d1 = strftime_minute d2 -> same_minute d1 d2.
Proof.
  intros (Hy1 & Hm1 & Hd1 & Hh1 & Hi1) (Hy2 & Hm2 & Hd2 & Hh2 & Hi2) H.
  unfold strftime_minute in H.
  apply append_inj_length in H as [Hy H]; [|reflexivity].
  apply append_inj_length in H as [Hm H]; [|reflexivity].
  apply append_inj_length in H as [Hd H]; [|reflexivity].
  apply append_inj_length in H as [_ H]; [|reflexivity].
  apply append_inj_length in H as [Hh Hi]; [|reflexivity].
  unfold same_minute. split; [by apply four_digits_inj|].
  split; [by apply two_digits_inj|]. split; [by apply two_digits_inj|].
  split; by apply two_digits_inj.
Qed.

Lemma strftime_minute_same d1 d2 :
  same_minute d1 d2 -> strftime_minute d1 = strftime_minute d2.
Proof.
  intros (Hy & Hm & Hd & Hh & Hi). unfold strftime_minute.
  by rewrite Hy, Hm, Hd, Hh, Hi.
Qed.

Lemma strftime_minute_length d : String.length (strftime_minute d) = 13%nat.
Proof. unfold strftime_minute. by rewrite !length_append. Qed.

Lemma strftime_minute_no_slash d : Str.contains "/" (strftime_minute d) = false.
Proof.
  unfold strftime_minute. rewrite !contains_append.
  unfold Str.four_digits, Str.two_digits. cbn [Str.contains].
  rewrite !digit_not_slash. reflexivity.
Qed.

(* ===================================================================== *)
(** * Where the production run folder is                                  *)
(* ===================================================================== *)

Lemma not_dotdot_long c : (3 <= String.length c)%nat -> String.eqb c ".." = false.
Proof.
  intros H. apply String.eqb_neq. intros ->. simpl in H. lia.
Qed.

Lemma location_snoc E p c :
  String.eqb c ".." = false ->
  location E (mkPath (anchor p) (parts p ++ [c])) = location E p ++ [c].
Proof.
  intros Hc. unfold location. cbn [anchor parts]. rewrite fold_left_app.
  cbn [fold_left]. unfold norm_step at 1. by rewrite Hc.
Qed.

Lemma stamped_plain d proj_stem :
  Str.contains "/" proj_stem = false ->
  plain (strftime_minute d +:+ "_" +:+ proj_stem) = true.
Proof.
  intros Hs. unfold plain. rewrite !contains_append, strftime_minute_no_slash, Hs.
  cbn [Str.contains orb negb andb]. change (Ascii.eqb "_" "/") with false.
  cbn [orb negb andb]. apply keep_part_long.
  rewrite length_append, strftime_minute_length. lia.
Qed.

Lemma stamped_not_dotdot d proj_stem :
  String.eqb (strftime_minute d +:+ "_" +:+ proj_stem) ".." = false.
Proof.
  apply not_dotdot_long. rewrite length_append, strftime_minute_length. lia.
Qed.

(** The production run folder is the child, named by the stamp and the
    project, of the production directory. *)
Lemma location_prod_root E args d proj_stem :
  Str.contains "/" proj_stem = false ->
  location E (prod_root_of E args (strftime_minute d) proj_stem) =
  location E (resolve E (parse (root args)) // prod_dir args)
  ++ [strftime_minute d +:+ "_" +:+ proj_stem].
Proof.
  intros Hs. unfold prod_root_of.
  rewrite (joinpath_plain _ _ (stamped_plain d proj_stem Hs)).
  apply location_snoc, stamped_not_dotdot.
Qed.

Lemma with_suffix_name p suf q :
  wf_path p -> Str.contains "/" suf = false ->
  with_suffix p suf = Ok q -> Str.contains "/" (name q) = false.
Proof.
  intros Hwf Hsuf. unfold with_suffix. rewrite Hsuf.
  destruct (_ || _); [done|]. destruct (String.eqb (name p) ""); [done|].
  intros [= <-]. unfold name at 1. cbn [parts]. rewrite List.last_last.
  destruct (String.eqb (suffix p) ""); rewrite contains_append, Hsuf, orb_false_r.
  - by apply name_no_slash.
  - apply contains_take. by apply name_no_slash.
Qed.

(** The base name the resolver returns is one path component. *)
Lemma project_paths_stem E p w proj_stem sch_path pcb_path :
  wf_path p ->
  fst (project_paths E p w) = Ok (proj_stem, sch_path, pcb_path) ->
  Str.contains "/" proj_stem = false.
Proof.
  intros Hwf. rewrite project_paths_unfold. cbn [fst].
  destruct (companions p) as [[[s sch] pcb]|e] eqn:Hc; [|done].
  destruct (negb _); [done|]. destruct (negb _); [done|]. intros [= <- _ _].
  revert Hc. unfold companions. destruct (String.eqb _ _).
  - destruct (with_suffix p "") as [s0|] eqn:H0; [|done].
    destruct (with_suffix s0 ".kicad_sch"); [|done].
    destruct (with_suffix s0 ".kicad_pcb"); [|done].
    intros [= <- _ _]. exact (with_suffix_name p "" s0 Hwf eq_refl H0).
  - destruct (with_suffix p ".kicad_sch"); [|done].
    destruct (with_suffix p ".kicad_pcb"); [|done].
    intros [= <- _ _]. by apply name_no_slash.
Qed.

Lemma snoc_not_under (l : list string) c1 c2 : c1 <> c2 -> ~ under (l ++ [c1]) (l ++ [c2]).
Proof.
  intros Hne [k Hk]. rewrite <- app_assoc in Hk. apply app_inv_head in Hk.
  apply Hne. simpl in Hk. congruence.
Qed.

(* ===================================================================== *)
(** * C7: the directory planner                                           *)
(* ===================================================================== *)

(** C7: [ensure_dir] is idempotent (on a directory that exists it
    succeeds and changes nothing), creates the missing parents (it
    succeeds whenever no regular file stands in the way, and the location
    is a directory afterwards), and never deletes or replaces an entry.
    A run asks for directories in this order and for no other: the three
    fixed directories under the root, then the production run folder,
    which is the production directory followed by one component, the
    minute-resolution stamp of a reading of the clock, an underscore and
    the project base name; the stages ask again for their own directory,
    and the fabrication stage for [gerbers] and [drill] inside the run
    folder.  Two stamps are equal exactly when the two readings agree to
    the minute; when they do not, the two production run folders are
    different locations, neither inside the other, so what one run
    creates under its folder leaves the folder of the other as it was. *)
Theorem directory_planner E :
  (forall p w,
     is_dir (fs w) (location E p) = true ->
     ensure_dir E p w = (Ok p, mkWorld (fs w) (trace w ++ [EvMkdir p]))) /\
  (forall p w,
     creatable (fs w) (location E p) ->
     exists f',
       ensure_dir E p w = (Ok p, mkWorld f' (trace w ++ [EvMkdir p])) /\
       is_dir f' (location E p) = true /\ grows (fs w) f') /\
  (forall p w k n,
     fs w !! k = Some n -> fs (snd (ensure_dir E p w)) !! k = Some n) /\
  (forall args w,
     exists evs,
       emitted w (snd (script E args w)) evs /\
       (mkdirs (actions evs) = [] \/
        exists kicad proj_stem sch_path pcb_path tag kik,
          fst (project_paths E (parse (project args)) w) = Ok (proj_stem, sch_path, pcb_path) /\
          Str.contains "/" proj_stem = false /\
          (exists w1, tag = strftime_minute (now E w1)) /\
          mkdirs (actions evs) `prefix_of`
            mkdirs (plan_main kicad sch_path pcb_path E args proj_stem tag kik) /\
          (fst (script E args w) = 0%Z ->
             mkdirs (actions evs) =
             mkdirs (plan_main kicad sch_path pcb_path E args proj_stem tag kik)) /\
          mkdirs (plan_main kicad sch_path pcb_path E args proj_stem tag kik) =
            [resolve E (parse (root args)) // "3D_MODEL";
             resolve E (parse (root args)) // "PICTURES";
             resolve E (parse (root args)) // "DOCUMENTATION";
             prod_root_of E args tag proj_stem;
             resolve E (parse (root args)) // "3D_MODEL";
             resolve E (parse (root args)) // "PICTURES";
             resolve E (parse (root args)) // "DOCUMENTATION";
             prod_root_of E args tag proj_stem;
             prod_root_of E args tag proj_stem // "gerbers";
             prod_root_of E args tag proj_stem // "drill"] ++
            match truthy (kikit args) with
            | Some _ => [prod_root_of E args tag proj_stem]
            | None => []
            end)) /\
  (forall args proj_stem d1 d2,
     Str.contains "/" proj_stem = false ->
     valid_datetime d1 -> valid_datetime d2 ->
     prod_root_of E args (strftime_minute d1) proj_stem =
       resolve E (parse (root args)) // prod_dir args
       // (strftime_minute d1 +:+ "_" +:+ proj_stem) /\
     location E (prod_root_of E args (strftime_minute d1) proj_stem) =
       location E (resolve E (parse (root args)) // prod_dir args)
       ++ [strftime_minute d1 +:+ "_" +:+ proj_stem] /\
     (strftime_minute d1 = strftime_minute d2 <-> same_minute d1 d2) /\
     (~ same_minute d1 d2 ->
        location E (prod_root_of E args (strftime_minute d1) proj_stem) <>
        location E (prod_root_of E args (strftime_minute d2) proj_stem) /\
        ~ under (location E (prod_root_of E args (strftime_minute d1) proj_stem))
                (location E (prod_root_of E args (strftime_minute d2) proj_stem)) /\
        ~ under (location E (prod_root_of E args (strftime_minute d2) proj_stem))
                (location E (prod_root_of E args (strftime_minute d1) proj_stem)))).
Proof.
  split; [|split; [|split; [|split]]].
  - apply ensure_dir_idempotent.
  - apply ensure_dir_creates.
  - intros p w k n Hk. eapply grows_keeps; [apply ensure_dir_grows | exact Hk].
  - intros args w.
    destruct (script_performs E args w)
      as (evs & Hem & [[Hact Hcode]|(kicad & proj_stem & sch_path & pcb_path & tag & kik &
                                      _ & Hp & Htag & Hpre & Hok)]).
    + exists evs. split; [exact Hem|]. left. by rewrite Hact.
    + exists evs. split; [exact Hem|]. right.
      exists kicad, proj_stem, sch_path, pcb_path, tag, kik.
      split; [exact Hp|].
      split; [exact (project_paths_stem E _ w _ _ _ (wf_parse (project args)) Hp)|].
      split; [exact Htag|]. split; [by apply prefix_mkdirs|].
      split; [intros H0; destruct (Hok H0) as [-> _]; reflexivity|].
      apply mkdirs_of_plan_main.
  - intros args proj_stem d1 d2 Hs Hv1 Hv2.
    split; [reflexivity|]. split; [by apply location_prod_root|].
    assert (strftime_minute d1 = strftime_minute d2 <-> same_minute d1 d2) as Hiff.
    { split; [by apply strftime_minute_inj | apply strftime_minute_same]. }
    split; [exact Hiff|]. intros Hdiff.
    rewrite !location_prod_root by done.
    assert (strftime_minute d1 +:+ "_" +:+ proj_stem <>
            strftime_minute d2 +:+ "_" +:+ proj_stem) as Hne.
    { intros H. apply Hdiff, Hiff. by apply append_cancel_r in H. }
    split; [|split].
    + intros H. apply app_inv_head in H. apply Hne. congruence.
    + by apply snoc_not_under.
    + apply snoc_not_under. intros H. by apply Hne.
Qed.

Lemma directory_planner_witness :
  let E := Fixture.env None Fixture.never in
  ensure_dir E (parse "/work") Fixture.w0 =
    (Ok (parse "/work"),
     mkWorld (fs Fixture.w0) (trace Fixture.w0 ++ [EvMkdir (parse "/work")])) /\
  (exists f',
     ensure_dir E (parse "out/a/b") Fixture.w0 =
       (Ok (parse "out/a/b"),
        mkWorld f' (trace Fixture.w0 ++ [EvMkdir (parse "out/a/b")])) /\
     is_dir f' (location E (parse "out/a/b")) = true) /\
  fs (snd (ensure_dir E (parse "out/a/b") Fixture.w0)) !! ["/"; "work"; "board.kicad_pcb"]
    = Some NFile /\
  (exists evs,
     emitted Fixture.w0 (snd (script E Fixture.args0 Fixture.w0)) evs /\
     List.length (mkdirs (actions evs)) = 10%nat) /\
  location E (prod_root_of E Fixture.args0 (strftime_minute Fixture.noon) "board") <>
  location E (prod_root_of E Fixture.args0
                (strftime_minute (mkDatetime 2024 3 5 14 8 2)) "board").
Proof.
  intros E. destruct (directory_planner E) as (Hidem & Hcreate & Hkeep & Hplan & Hstamp).
  split; [|split; [|split; [|split]]].
  - apply Hidem. vm_compute. reflexivity.
  - destruct (Hcreate (parse "out/a/b") Fixture.w0) as (f' & Hrun & Hdir & _).
    + split; [discriminate|]. split; [vm_compute; reflexivity|].
      intros j Hj [k Hk].
      assert (j = ["/"] \/ j = ["/"; "work"] \/ j = ["/"; "work"; "out"] \/
              j = ["/"; "work"; "out"; "a"] \/ j = ["/"; "work"; "out"; "a"; "b"]) as Hcases.
      { vm_compute in Hk.
        repeat (destruct j as [|? j]; [tauto|]; injection Hk as <- Hk).
        destruct j; [tauto | discriminate Hk]. }
      destruct Hcases as [->|[->|[->|[->| ->]]]]; vm_compute; discriminate.
    + exists f'. split; [exact Hrun | exact Hdir].
  - apply Hkeep. vm_compute. reflexivity.
  - destruct (Hplan Fixture.args0 Fixture.w0) as (evs & Hem & [Hnil|Hrun]).
    + exfalso. unfold emitted in Hem. vm_compute in Hem. rewrite <- Hem in Hnil.
      vm_compute in Hnil. discriminate Hnil.
    + destruct Hrun as (kicad & proj_stem & sch_path & pcb_path & tag & kik &
                        _ & _ & _ & _ & Hall & Hlist).
      exists evs. split; [exact Hem|]. rewrite Hall; [|vm_compute; reflexivity].
      rewrite Hlist. reflexivity.
  - destruct (Hstamp Fixture.args0 "board" Fixture.noon (mkDatetime 2024 3 5 14 8 2))
      as (_ & _ & _ & Hdiff).
    + reflexivity.
    + unfold valid_datetime. simpl. lia.
    + unfold valid_datetime. simpl. lia.
    + apply Hdiff. unfold same_minute. simpl. lia.
Defined.

(* ===================================================================== *)
(** * C1: one base name for every output                                  *)
(* ===================================================================== *)

Lemma rfind_dot_append a b :
  Str.rfind_dot (a +:+ b) =
  match Str.rfind_dot b with
  | Some i => Some (String.length a + i)%nat
  | None => Str.rfind_dot a
  end.
Proof.
  induction a as [|c a IH]; [rewrite append_nil_l; by destruct (Str.rfind_dot b)|].
  rewrite append_cons. cbn [Str.rfind_dot String.length]. rewrite IH.
  by destruct (Str.rfind_dot b).
Qed.

Lemma take_append a b : Str.take (String.length a) (a +:+ b) = a.
Proof.
  induction a as [|c a IH]; [rewrite append_nil_l; by destruct b|].
  rewrite append_cons. cbn [Str.take String.length]. by rewrite IH.
Qed.

(** A name without suffix, extended by one of the two companion
    suffixes, has the name as its stem. *)
Lemma stem_with_companion_suffix p suf q :
  suf = ".kicad_sch" \/ suf = ".kicad_pcb" ->
  suffix p = "" -> with_suffix p suf = Ok q -> stem q = name p.
Proof.
  intros Hsuf Hnone. unfold with_suffix.
  assert (Str.contains "/" suf = false) as -> by (by destruct Hsuf as [-> | ->]).
  assert ((negb (String.eqb suf "") && negb (Str.starts_with_dot suf)) || String.eqb suf "."
          = false) as -> by (by destruct Hsuf as [-> | ->]).
  destruct (String.eqb (name p) "") eqn:Hname; [done|].
  rewrite Hnone. cbn [String.eqb]. intros [= <-].
  assert (name (mkPath (anchor p) (removelast (parts p) ++ [name p +:+ suf]))
          = name p +:+ suf) as Hq.
  { unfold name at 1. cbn [parts]. apply List.last_last. }
  unfold stem. rewrite Hq. unfold suffix_index. rewrite rfind_dot_append.
  assert (Str.rfind_dot suf = Some 0%nat) as -> by (by destruct Hsuf as [-> | ->]).
  rewrite Nat.add_0_r, length_append.
  assert (String.length suf = 10%nat) as -> by (by destruct Hsuf as [-> | ->]).
  apply String.eqb_neq in Hname.
  assert (0 < String.length (name p))%nat as Hpos.
  { destruct (name p); [done | simpl; lia]. }
  destruct (0 <? String.length (name p))%nat eqn:H0; [|apply Nat.ltb_ge in H0; lia].
  destruct (String.length (name p) <? String.length (name p) + 10 - 1)%nat eqn:H1;
    [|apply Nat.ltb_ge in H1; lia].
  cbn [andb]. apply take_append.
Qed.

(** Where the resolver and the stages agree: when the base path the
    companions are derived from carries no further suffix, the base name
    the resolver returns is the stem of both companion files, which is
    what every output file name is built from. *)
Lemma project_paths_consistent E p w base sch0 pcb0 proj_stem sch_path pcb_path :
  companions p = Ok (base, sch0, pcb0) ->
  suffix base = "" ->
  fst (project_paths E p w) = Ok (proj_stem, sch_path, pcb_path) ->
  stem sch_path = proj_stem /\ stem pcb_path = proj_stem.
Proof.
  intros Hc Hnone. rewrite project_paths_unfold, Hc. cbn [fst].
  destruct (negb _); [done|]. destruct (negb _); [done|]. intros [= <- <- <-].
  revert Hc. unfold companions. destruct (String.eqb _ _).
  - destruct (with_suffix p "") as [s0|] eqn:H0; [|done].
    destruct (with_suffix s0 ".kicad_sch") as [sch|] eqn:H1; [|done].
    destruct (with_suffix s0 ".kicad_pcb") as [pcb|] eqn:H2; [|done].
    intros [= <- <- <-]. split.
    + by apply (stem_with_companion_suffix s0 ".kicad_sch"); [left| |].
    + by apply (stem_with_companion_suffix s0 ".kicad_pcb"); [right| |].
  - destruct (with_suffix p ".kicad_sch") as [sch|] eqn:H1; [|done].
    destruct (with_suffix p ".kicad_pcb") as [pcb|] eqn:H2; [|done].
    intros [= <- <- <-]. split.
    + by apply (stem_with_companion_suffix p ".kicad_sch"); [left| |].
    + by apply (stem_with_companion_suffix p ".kicad_pcb"); [right| |].
Qed.

(** C1 fails on the code for a project name that carries a dot.  The
    project [board.v2.kicad_pro], in a directory that holds
    [board.kicad_sch] and [board.kicad_pcb]: the resolver strips the
    project suffix and returns the base name [board.v2], but derives the
    companions by replacing the [.v2] it takes for a suffix, so the
    stages, which name their outputs after the stem of the companion
    files, write [board.step], [board_top.png], ..., [board_pos.csv] and
    [board_bom.csv], while the production run folder is tagged
    [<stamp>_board.v2].  The base name of the resolver is not the stem
    of the generated file names. *)
Theorem dotted_project_name_diverges :
  let E := Fixture.env None Fixture.never in
  let args := mkArgs "board.v2.kicad_pro" "." "PRODUCTION" false false false None false in
  fst (project_paths E (parse (project args)) Fixture.w0) =
    Ok ("board.v2", parse "board.kicad_sch", parse "board.kicad_pcb") /\
  stem (parse "board.kicad_sch") = "board" /\
  stem (parse "board.kicad_pcb") = "board" /\
  fst (script E args Fixture.w0) = 0%Z /\
  mkdirs (actions (trace (snd (script E args Fixture.w0)))) !! 3%nat =
    Some (parse "/work/PRODUCTION/20240305_1407_board.v2") /\
  outputs (actions (trace (snd (script E args Fixture.w0)))) =
    ["/work/3D_MODEL/board.step";
     "/work/PICTURES/board_top.png";
     "/work/PICTURES/board_bottom.png";
     "/work/PICTURES/board_side.png";
     "/work/DOCUMENTATION/board_schematic.pdf";
     "/work/DOCUMENTATION/board_erc.rpt";
     "/work/DOCUMENTATION/board_board_prints.pdf";
     "/work/DOCUMENTATION/board_drc.rpt";
     "/work/PRODUCTION/20240305_1407_board.v2/gerbers";
     "/work/PRODUCTION/20240305_1407_board.v2/drill";
     "/work/PRODUCTION/20240305_1407_board.v2/board_pos.csv";
     "/work/PRODUCTION/20240305_1407_board.v2/board_bom.csv"].
Proof. repeat split; vm_compute; reflexivity. Qed.

(* ===================================================================== *)
(** * The project resolver: what the companions are called                *)
(* ===================================================================== *)

Lemma length_drop n s : String.length (Str.drop n s) = (String.length s - n)%nat.
Proof.
  revert n. induction s as [|c s IH]; intros [|n]; simpl; auto.
Qed.

Lemma length_take n s : (n <= String.length s)%nat -> String.length (Str.take n s) = n.
Proof.
  revert n. induction s as [|c s IH]; intros [|n]; simpl; try done; try lia.
  intros H. rewrite IH; [done | lia].
Qed.

Lemma take_drop n s : Str.take n s +:+ Str.drop n s = s.
Proof.
  revert n. induction s as [|c s IH]; intros [|n]; try done.
  cbn [Str.take Str.drop]. rewrite append_cons. by rewrite IH.
Qed.

Lemma suffix_index_bounds n i :
  suffix_index n = Some i -> (0 < i /\ i < String.length n - 1)%nat.
Proof.
  unfold suffix_index. destruct (Str.rfind_dot n) as [j|]; [|done].
  destruct (0 <? j)%nat eqn:H0; [|done].
  destruct (j <? String.length n - 1)%nat eqn:H1; [|done].
  intros [= <-]. apply Nat.ltb_lt in H0, H1. done.
Qed.

(** A name is its stem followed by its suffix. *)
Lemma stem_suffix p : stem p +:+ suffix p = name p.
Proof.
  unfold stem, suffix. destruct (suffix_index (name p)) as [i|].
  - apply take_drop.
  - apply append_nil_r.
Qed.

Lemma suffix_empty_iff p : suffix p = "" <-> stem p = name p.
Proof.
  unfold stem, suffix. destruct (suffix_index (name p)) as [i|] eqn:Hi; [|done].
  apply suffix_index_bounds in Hi as [H0 H1]. split; intros H; exfalso.
  - apply (f_equal String.length) in H. rewrite length_drop in H. simpl in H. lia.
  - apply (f_equal String.length) in H. rewrite length_take in H; lia.
Qed.

Lemma stem_nonempty p : name p <> "" -> stem p <> "".
Proof.
  intros Hn. unfold stem. destruct (suffix_index (name p)) as [i|] eqn:Hi; [|done].
  apply suffix_index_bounds in Hi as [H0 H1]. intros H.
  apply (f_equal String.length) in H. rewrite length_take in H; simpl in H; lia.
Qed.

(** [with_suffix] replaces the suffix: the new name is the stem followed
    by the new suffix, in the same directory. *)
Lemma with_suffix_Ok p suf q :
  with_suffix p suf = Ok q ->
  name p <> "" /\ q = mkPath (anchor p) (removelast (parts p) ++ [stem p +:+ suf]).
Proof.
  unfold with_suffix. destruct (Str.contains "/" suf); [done|].
  destruct (_ || _); [done|].
  destruct (String.eqb (name p) "") eqn:Hname; [done|].
  apply String.eqb_neq in Hname. intros [= <-]. split; [done|].
  f_equal. f_equal. f_equal. f_equal.
  unfold stem, suffix. destruct (suffix_index (name p)) as [i|] eqn:Hi.
  - apply suffix_index_bounds in Hi as [H0 H1].
    destruct (String.eqb (Str.drop i (name p)) "") eqn:Hd.
    + apply String.eqb_eq in Hd. apply (f_equal String.length) in Hd.
      rewrite length_drop in Hd. simpl in Hd. lia.
    + rewrite length_drop.
      replace (String.length (name p) - (String.length (name p) - i))%nat with i by lia.
      done.
  - done.
Qed.

Lemma name_snoc a ps n : name (mkPath a (ps ++ [n])) = n.
Proof. unfold name. cbn [parts]. apply List.last_last. Qed.

(** The stem of a non-empty name extended by a companion suffix. *)
Lemma stem_companion a ps n suf :
  suf = ".kicad_sch" \/ suf = ".kicad_pcb" -> n <> "" ->
  stem (mkPath a (ps ++ [n +:+ suf])) = n.
Proof.
  intros Hsuf Hn. unfold stem. rewrite name_snoc. unfold suffix_index.
  rewrite rfind_dot_append.
  assert (Str.rfind_dot suf = Some 0%nat) as -> by (by destruct Hsuf as [-> | ->]).
  rewrite Nat.add_0_r, length_append.
  assert (String.length suf = 10%nat) as -> by (by destruct Hsuf as [-> | ->]).
  assert (0 < String.length n)%nat as Hpos by (destruct n; [done | simpl; lia]).
  destruct (0 <? String.length n)%nat eqn:H0; [|apply Nat.ltb_ge in H0; lia].
  destruct (String.length n <? String.length n + 10 - 1)%nat eqn:H1;
    [|apply Nat.ltb_ge in H1; lia].
  cbn [andb]. apply take_append.
Qed.

(** The two companion files have the stem of the base path. *)
Lemma companions_stems p base sch pcb :
  companions p = Ok (base, sch, pcb) -> stem sch = stem base /\ stem pcb = stem base.
Proof.
  unfold companions. destruct (String.eqb (Str.lower (suffix p)) ".kicad_pro").
  - destruct (with_suffix p "") as [s0|] eqn:H0; [|done].
    destruct (with_suffix s0 ".kicad_sch") as [s1|] eqn:H1; [|done].
    destruct (with_suffix s0 ".kicad_pcb") as [s2|] eqn:H2; [|done].
    intros [= <- <- <-].
    apply with_suffix_Ok in H1 as [Hn1 ->]. apply with_suffix_Ok in H2 as [_ ->].
    pose proof (stem_nonempty _ Hn1) as Hs.
    split; apply stem_companion; auto.
  - destruct (with_suffix p ".kicad_sch") as [s1|] eqn:H1; [|done].
    destruct (with_suffix p ".kicad_pcb") as [s2|] eqn:H2; [|done].
    intros [= <- <- <-].
    apply with_suffix_Ok in H1 as [Hn1 ->]. apply with_suffix_Ok in H2 as [_ ->].
    pose proof (stem_nonempty _ Hn1) as Hs.
    split; apply stem_companion; auto.
Qed.

(** The resolver's derivation, in full.  The base path is the input with
    a [.kicad_pro] suffix (in any letter case) removed; the schematic and
    the board sit in the directory of the input and are named after the
    stem of the base path, which is also the stem both of them have. *)
Theorem companions_names p base sch pcb :
  companions p = Ok (base, sch, pcb) ->
  name base = (if String.eqb (Str.lower (suffix p)) ".kicad_pro" then stem p else name p) /\
  name base <> "" /\
  sch = mkPath (anchor p) (removelast (parts p) ++ [stem base +:+ ".kicad_sch"]) /\
  pcb = mkPath (anchor p) (removelast (parts p) ++ [stem base +:+ ".kicad_pcb"]) /\
  stem sch = stem base /\ stem pcb = stem base.
Proof.
  unfold companions. destruct (String.eqb (Str.lower (suffix p)) ".kicad_pro").
  - destruct (with_suffix p "") as [s0|] eqn:H0; [|done].
    destruct (with_suffix s0 ".kicad_sch") as [s1|] eqn:H1; [|done].
    destruct (with_suffix s0 ".kicad_pcb") as [s2|] eqn:H2; [|done].
    intros [= <- <- <-].
    apply with_suffix_Ok in H0 as [Hn0 ->]. rewrite append_nil_r in H1, H2.
    rewrite append_nil_r.
    apply with_suffix_Ok in H1 as [Hn1 ->]. apply with_suffix_Ok in H2 as [_ ->].
    cbn [anchor parts]. rewrite !removelast_last.
    pose proof (stem_nonempty _ Hn1) as Hs.
    split; [apply name_snoc|]. split; [exact Hn1|]. split; [done|]. split; [done|].
    split.
    + by apply stem_companion; [left|].
    + by apply stem_companion; [right|].
  - destruct (with_suffix p ".kicad_sch") as [s1|] eqn:H1; [|done].
    destruct (with_suffix p ".kicad_pcb") as [s2|] eqn:H2; [|done].
    intros [= <- <- <-].
    apply with_suffix_Ok in H1 as [Hn1 ->]. apply with_suffix_Ok in H2 as [_ ->].
    repeat split; try done.
    + apply stem_companion; [by left | by apply stem_nonempty].
    + apply stem_companion; [by right | by apply stem_nonempty].
Qed.


Lemma companions_names_witness :
  name (parse "hw/Board") = stem (parse "hw/Board.KiCad_PRO") /\
  parse "hw/Board.kicad_sch" =
    mkPath "" (removelast ["hw"; "Board.KiCad_PRO"] ++ [stem (parse "hw/Board") +:+ ".kicad_sch"]) /\
  stem (parse "hw/Board.kicad_pcb") = stem (parse "hw/Board").
Proof.
  destruct (companions_names (parse "hw/Board.KiCad_PRO") (parse "hw/Board")
              (parse "hw/Board.kicad_sch") (parse "hw/Board.kicad_pcb"))
    as (Hbase & _ & Hsch & _ & _ & Hpcb).
  - vm_compute. reflexivity.
  - split; [exact Hbase|]. split; [exact Hsch | exact Hpcb].
Defined.

(** The base name the resolver returns is the name of the base path,
    while every output file name is built from the stem of the companion
    files, which is the stem of the base path.  The two agree exactly
    when the base path carries no further suffix. *)
Theorem project_stem_agreement E p w proj_stem sch_path pcb_path :
  fst (project_paths E p w) = Ok (proj_stem, sch_path, pcb_path) ->
  exists base,
    companions p = Ok (base, sch_path, pcb_path) /\
    proj_stem = name base /\
    stem sch_path = stem base /\ stem pcb_path = stem base /\
    (proj_stem = stem pcb_path <-> suffix base = "").
Proof.
  rewrite project_paths_unfold. cbn [fst].
  destruct (companions p) as [[[base sch] pcb]|e] eqn:Hc; [|done].
  destruct (negb _); [done|]. destruct (negb _); [done|]. intros [= <- <- <-].
  exists base. destruct (companions_stems p base sch pcb Hc) as [Hs Hp].
  split; [done|]. split; [done|]. split; [exact Hs|]. split; [exact Hp|].
  rewrite Hp. split.
  - intros H. by apply suffix_empty_iff.
  - intros H. symmetry. by apply suffix_empty_iff.
Qed.

Lemma project_stem_agreement_witness :
  (exists base,
     companions (parse "board.kicad_pro") =
       Ok (base, parse "board.kicad_sch", parse "board.kicad_pcb") /\
     "board" = stem (parse "board.kicad_pcb")) /\
  (exists base,
     companions (parse "board.v2.kicad_pro") =
       Ok (base, parse "board.kicad_sch", parse "board.kicad_pcb") /\
     suffix base <> "").
Proof.
  split.
  - destruct (project_stem_agreement (Fixture.env None Fixture.never) (parse "board.kicad_pro")
                Fixture.w0 "board" (parse "board.kicad_sch") (parse "board.kicad_pcb"))
      as (base & Hc & _ & _ & _ & Hiff).
    + vm_compute. reflexivity.
    + exists base. split; [exact Hc|]. apply Hiff.
      vm_compute in Hc. injection Hc as <-. reflexivity.
  - destruct (project_stem_agreement (Fixture.env None Fixture.never)
                (parse "board.v2.kicad_pro") Fixture.w0 "board.v2"
                (parse "board.kicad_sch") (parse "board.kicad_pcb"))
      as (base & Hc & _ & _ & _ & Hiff).
    + vm_compute. reflexivity.
    + exists base. split; [exact Hc|]. intros H. apply Hiff in H. vm_compute in H.
      discriminate H.
Defined.

(* ===================================================================== *)
(** * The order and the number of the requests of a run                   *)
(* ===================================================================== *)

Lemma Forall_prefix {A} (P : A -> Prop) (l1 l2 : list A) :
  l1 `prefix_of` l2 -> Forall P l2 -> Forall P l1.
Proof. intros [k ->] H. by apply Forall_app in H as [H _]. Qed.

Lemma spawns_app l1 l2 : spawns (l1 ++ l2) = spawns l1 ++ spawns l2.
Proof. apply omap_app. Qed.

Lemma spawns_plan_main kicad sch_path pcb_path E args proj_stem tag kik :
  spawns (plan_main kicad sch_path pcb_path E args proj_stem tag kik) =
  spawns (plan_3d kicad pcb_path (resolve E (parse (root args)) // "3D_MODEL") (glb args)) ++
  spawns (plan_pictures kicad pcb_path (resolve E (parse (root args)) // "PICTURES")
            (iso args)) ++
  spawns (plan_docs kicad sch_path pcb_path (resolve E (parse (root args)) // "DOCUMENTATION")
            (negb (skip_drc args))) ++
  spawns (plan_fab kicad sch_path pcb_path (prod_root_of E args tag proj_stem)) ++
  match truthy (kikit args) with
  | Some vendor =>
      [[kik; "fab"; vendor; str pcb_path; str (prod_root_of E args tag proj_stem)]]
  | None => []
  end.
Proof.
  unfold plan_main. rewrite !spawns_app. unfold plan_kikit.
  by destruct (truthy (kikit args)).
Qed.

Lemma script_follows_plan E args w kicad proj_stem sch_path pcb_path :
  fst (which_kicad_cli E w) = Ok kicad ->
  fst (project_paths E (parse (project args)) w) = Ok (proj_stem, sch_path, pcb_path) ->
  exists evs tag kik,
    emitted w (snd (script E args w)) evs /\
    (exists w1, tag = strftime_minute (now E w1)) /\
    actions evs `prefix_of` plan_main kicad sch_path pcb_path E args proj_stem tag kik /\
    (fst (script E args w) = 0%Z ->
     actions evs = plan_main kicad sch_path pcb_path E args proj_stem tag kik).
Proof.
  intros Hk Hp.
  destruct (performs_main E args w kicad proj_stem sch_path pcb_path Hk Hp)
    as (tag & kik & Htag & evs & Hem & Hpre & Hok).
  unfold script. destruct (main E args w) as [[[]|e] w'] eqn:Hmain; cbn [fst snd] in *.
  - exists evs, tag, kik. repeat (split; [done|]). intros _. by destruct (Hok tt eq_refl).
  - exists (evs ++ [EvStderr (Str.nl +:+ "ERROR: " +:+ emsg e)]), tag, kik.
    split; [unfold emitted in *; simpl; by rewrite Hem, app_assoc|].
    split; [done|]. split; [|discriminate].
    rewrite actions_app. unfold actions at 2. simpl. by rewrite app_nil_r.
Qed.

(** In every run in which the tool and the project are resolved, the
    requests come in one fixed order: the four directories, then the 3D,
    picture, documentation and fabrication stages, then the vendor stage
    if asked for, each stage asking for its directory before it spawns
    its commands.  A run that fails has made a prefix of these requests;
    a run that ends with exit code 0 has made them all.  In particular
    no command is spawned before the four directories have been asked
    for. *)
Theorem run_stage_order E args w kicad proj_stem sch_path pcb_path :
  fst (which_kicad_cli E w) = Ok kicad ->
  fst (project_paths E (parse (project args)) w) = Ok (proj_stem, sch_path, pcb_path) ->
  exists evs tag kik,
    emitted w (snd (script E args w)) evs /\
    (exists w1, tag = strftime_minute (now E w1)) /\
    let root := resolve E (parse (root args)) in
    let prod_root := prod_root_of E args tag proj_stem in
    let dirs :=
      [DoMkdir (root // "3D_MODEL"); DoMkdir (root // "PICTURES");
       DoMkdir (root // "DOCUMENTATION"); DoMkdir prod_root] in
    let plan :=
      dirs ++
      plan_3d kicad pcb_path (root // "3D_MODEL") (glb args) ++
      plan_pictures kicad pcb_path (root // "PICTURES") (iso args) ++
      plan_docs kicad sch_path pcb_path (root // "DOCUMENTATION") (negb (skip_drc args)) ++
      plan_fab kicad sch_path pcb_path prod_root ++
      match truthy (kikit args) with
      | Some vendor => plan_kikit pcb_path kik vendor prod_root
      | None => []
      end in
    actions evs `prefix_of` plan /\
    (fst (script E args w) = 0%Z -> actions evs = plan) /\
    (spawns (actions evs) <> [] -> List.firstn 4 (actions evs) = dirs).
Proof.
  intros Hk Hp.
  destruct (script_follows_plan E args w kicad proj_stem sch_path pcb_path Hk Hp)
    as (evs & tag & kik & Hem & Htag & Hpre & Hok).
  exists evs, tag, kik. split; [exact Hem|]. split; [exact Htag|].
  cbv zeta. split; [exact Hpre|]. split; [exact Hok|].
  intros Hsp. destruct Hpre as [k Hk']. unfold plan_main in Hk'.
  destruct (actions evs) as [|a1 [|a2 [|a3 [|a4 rest]]]] eqn:Ha; simpl in Hk'.
  - exfalso; apply Hsp; reflexivity.
  - injection Hk'; intros; subst a1. exfalso; apply Hsp; reflexivity.
  - injection Hk'; intros; subst a1 a2. exfalso; apply Hsp; reflexivity.
  - injection Hk'; intros; subst a1 a2 a3. exfalso; apply Hsp; reflexivity.
  - injection Hk'; intros; subst a1 a2 a3 a4. reflexivity.
Qed.

Lemma run_stage_order_witness :
  exists evs,
    emitted Fixture.w0 (snd (script (Fixture.env None Fixture.never) Fixture.args0 Fixture.w0)) evs /\
    List.firstn 4 (actions evs) =
      [DoMkdir (parse "/work/3D_MODEL"); DoMkdir (parse "/work/PICTURES");
       DoMkdir (parse "/work/DOCUMENTATION");
       DoMkdir (parse "/work/PRODUCTION/20240305_1407_board")].
Proof.
  destruct (run_stage_order (Fixture.env None Fixture.never) Fixture.args0 Fixture.w0
              "/usr/bin/kicad-cli" "board"
              (parse "board.kicad_sch") (parse "board.kicad_pcb")
              ltac:(vm_compute; reflexivity) ltac:(vm_compute; reflexivity))
    as (evs & tag & kik & Hem & Htag & Hrest).
  cbv zeta in Hrest. destruct Hrest as (Hpre & Hok & Hdirs).
  exists evs. split; [exact Hem|].
  assert (evs = List.skipn (length (trace Fixture.w0))
                  (trace (snd (script (Fixture.env None Fixture.never) Fixture.args0 Fixture.w0))))
    as Hevs.
  { unfold emitted in Hem. rewrite Hem. by rewrite drop_app_length. }
  vm_compute in Hevs. subst evs. vm_compute. reflexivity.
Defined.

(** A run that ends with exit code 0 has spawned exactly eleven commands,
    plus one for each of [--glb] and [--iso], one unless [--skip-drc],
    and one if a vendor is given; no run spawns more. *)
Theorem command_count E args w :
  exists evs,
    emitted w (snd (script E args w)) evs /\
    length (spawns (actions evs)) <= commands_of_run args /\
    (fst (script E args w) = 0%Z ->
     length (spawns (actions evs)) = commands_of_run args).
Proof.
  assert (forall kicad sch_path pcb_path proj_stem tag kik,
             length (spawns (plan_main kicad sch_path pcb_path E args proj_stem tag kik))
             = commands_of_run args) as Hlen.
  { intros. rewrite spawns_plan_main, !length_app. unfold commands_of_run.
    destruct (glb args), (iso args), (skip_drc args), (truthy (kikit args)); reflexivity. }
  destruct (script_performs E args w) as (evs & Hem & Hcases).
  exists evs. split; [exact Hem|].
  destruct Hcases as [[Hnil H1]|(kicad & ps & sch & pcb & tag & kik & _ & _ & _ & Hpre & Hok)].
  - rewrite Hnil, H1. split; [simpl; lia | discriminate].
  - split.
    + rewrite <- (Hlen kicad sch pcb ps tag kik).
      apply prefix_length, prefix_spawns, Hpre.
    + intros H0. destruct (Hok H0) as [-> _]. apply Hlen.
Qed.

Lemma command_count_witness :
  exists evs,
    emitted Fixture.w0 (snd (script (Fixture.env None Fixture.never) Fixture.args0 Fixture.w0)) evs /\
    length (spawns (actions evs)) = 12.
Proof.
  destruct (command_count (Fixture.env None Fixture.never) Fixture.args0 Fixture.w0)
    as (evs & Hem & _ & Hok).
  exists evs. split; [exact Hem|].
  apply Hok. vm_compute. reflexivity.
Defined.

(* ===================================================================== *)
(** * What the commands of a run are given                                *)
(* ===================================================================== *)

Lemma Forall_spawns (P : list string -> Prop) plan :
  Forall (fun a => match a with DoSpawn argv => P argv | DoMkdir _ => True end) plan ->
  Forall P (spawns plan).
Proof.
  induction 1 as [|a plan Ha _ IH]; [constructor|].
  destruct a; simpl; [exact IH | by constructor].
Qed.

(** A property of every command of the plan holds of every command of
    the run. *)
Lemma run_commands_Forall E args w kicad proj_stem sch_path pcb_path
      (P : string -> list string -> Prop) :
  fst (which_kicad_cli E w) = Ok kicad ->
  fst (project_paths E (parse (project args)) w) = Ok (proj_stem, sch_path, pcb_path) ->
  (forall tag kik,
      Forall (fun a => match a with DoSpawn argv => P tag argv | DoMkdir _ => True end)
             (plan_main kicad sch_path pcb_path E args proj_stem tag kik)) ->
  exists evs tag,
    emitted w (snd (script E args w)) evs /\
    (exists w1, tag = strftime_minute (now E w1)) /\
    Forall (P tag) (spawns (actions evs)).
Proof.
  intros Hk Hp HP.
  destruct (script_follows_plan E args w kicad proj_stem sch_path pcb_path Hk Hp)
    as (evs & tag & kik & Hem & Htag & Hpre & _).
  exists evs, tag. split; [exact Hem|]. split; [exact Htag|].
  eapply Forall_prefix; [apply prefix_spawns, Hpre|].
  apply Forall_spawns, HP.
Qed.

Ltac each_request args :=
  unfold plan_main, plan_3d, plan_pictures, plan_docs, plan_fab, plan_kikit;
  destruct (glb args), (iso args), (skip_drc args), (truthy (kikit args));
  repeat first [apply Forall_nil_2 | apply Forall_cons_2 | apply Forall_app_2];
  try exact I.

Lemma stem_of_plain_name p :
  Str.contains "/" (name p) = false -> Str.contains "/" (stem p) = false.
Proof.
  intros H. unfold stem. destruct (suffix_index (name p)); [by apply contains_take | done].
Qed.

Lemma with_suffix_plain p suf q :
  Str.contains "/" (name p) = false -> with_suffix p suf = Ok q ->
  Str.contains "/" (name q) = false.
Proof.
  intros Hn Hq. pose proof (with_suffix_Ok p suf q Hq) as [_ ->].
  rewrite name_snoc, contains_append, (stem_of_plain_name p Hn).
  revert Hq. unfold with_suffix. by destruct (Str.contains "/" suf).
Qed.

(** The schematic and the board the resolver returns have names of one
    component. *)
Lemma project_paths_files_plain E p w proj_stem sch_path pcb_path :
  wf_path p ->
  fst (project_paths E p w) = Ok (proj_stem, sch_path, pcb_path) ->
  Str.contains "/" (stem sch_path) = false /\ Str.contains "/" (stem pcb_path) = false.
Proof.
  intros Hwf. rewrite project_paths_unfold. cbn [fst].
  destruct (companions p) as [[[s sch] pcb]|e] eqn:Hc; [|done].
  destruct (negb _); [done|]. destruct (negb _); [done|]. intros [= _ <- <-].
  pose proof (name_no_slash p Hwf) as Hn.
  revert Hc. unfold companions. destruct (String.eqb _ _).
  - destruct (with_suffix p "") as [s0|] eqn:H0; [|done].
    destruct (with_suffix s0 ".kicad_sch") as [q1|] eqn:H1; [|done].
    destruct (with_suffix s0 ".kicad_pcb") as [q2|] eqn:H2; [|done].
    intros [= _ <- <-].
    pose proof (with_suffix_plain p "" s0 Hn H0) as Hs0.
    split; apply stem_of_plain_name; eapply with_suffix_plain; eauto.
  - destruct (with_suffix p ".kicad_sch") as [q1|] eqn:H1; [|done].
    destruct (with_suffix p ".kicad_pcb") as [q2|] eqn:H2; [|done].
    intros [= _ <- <-].
    split; apply stem_of_plain_name; eapply with_suffix_plain; eauto.
Qed.

Lemma location_child E dir c :
  plain c = true -> String.eqb c ".." = false ->
  location E (dir // c) = location E dir ++ [c].
Proof.
  intros Hc Hd. rewrite (joinpath_plain dir c Hc). by apply location_snoc.
Qed.

(** Every command of a run is given the project's own files: each [pcb]
    subcommand of the CAD tool ends with the board file the resolver
    returned, each [sch] subcommand with the schematic, both run the
    executable the locator returned, and the vendor tool's [fab] gets the
    board file. *)
Theorem commands_read_project E args w kicad proj_stem sch_path pcb_path :
  fst (which_kicad_cli E w) = Ok kicad ->
  fst (project_paths E (parse (project args)) w) = Ok (proj_stem, sch_path, pcb_path) ->
  exists evs,
    emitted w (snd (script E args w)) evs /\
    Forall (reads_project kicad sch_path pcb_path) (spawns (actions evs)).
Proof.
  intros Hk Hp.
  destruct (run_commands_Forall E args w kicad proj_stem sch_path pcb_path
              (fun _ => reads_project kicad sch_path pcb_path) Hk Hp)
    as (evs & tag & Hem & _ & Hall).
  - intros tag kik. each_request args;
      first [ by (left; repeat split)
            | by (right; left; repeat split)
            | by (right; right; split; [reflexivity | eexists _, _; reflexivity]) ].
  - exists evs. by split.
Qed.

Lemma commands_read_project_witness :
  exists evs,
    emitted Fixture.w0 (snd (script (Fixture.env None Fixture.never) Fixture.args0 Fixture.w0))
      evs /\
    Forall (reads_project "/usr/bin/kicad-cli" (parse "board.kicad_sch")
              (parse "board.kicad_pcb")) (spawns (actions evs)).
Proof.
  apply (commands_read_project (Fixture.env None Fixture.never) Fixture.args0 Fixture.w0
           "/usr/bin/kicad-cli" "board").
  - vm_compute. reflexivity.
  - vm_compute. reflexivity.
Defined.

Ltac child_name Hs Hp :=
  first [ reflexivity
        | apply plain_append; [first [exact Hs | exact Hp] | reflexivity | simpl; lia]
        | apply not_dotdot_long; rewrite length_append; simpl; lia ].

(** Every file or directory a command of the CAD tool is told to write
    is a direct child of one of the four output directories: the three
    fixed ones under the root and the production run folder.  No command
    is pointed at the project's directory or anywhere else. *)
Theorem outputs_in_output_tree E args w kicad proj_stem sch_path pcb_path :
  fst (which_kicad_cli E w) = Ok kicad ->
  fst (project_paths E (parse (project args)) w) = Ok (proj_stem, sch_path, pcb_path) ->
  exists evs tag,
    emitted w (snd (script E args w)) evs /\
    (exists w1, tag = strftime_minute (now E w1)) /\
    let root := resolve E (parse (root args)) in
    Forall (fun argv =>
              is_fab argv = false ->
              writes_into E [root // "3D_MODEL"; root // "PICTURES"; root // "DOCUMENTATION";
                             prod_root_of E args tag proj_stem] argv)
           (spawns (actions evs)).
Proof.
  intros Hk Hp.
  destruct (project_paths_files_plain E _ w _ _ _ (wf_parse (project args)) Hp) as [Hs Hb].
  apply (run_commands_Forall E args w kicad proj_stem sch_path pcb_path
           (fun tag argv =>
              is_fab argv = false ->
              writes_into E [resolve E (parse (root args)) // "3D_MODEL";
                             resolve E (parse (root args)) // "PICTURES";
                             resolve E (parse (root args)) // "DOCUMENTATION";
                             prod_root_of E args tag proj_stem] argv) Hk Hp).
  intros tag kik. each_request args; intros Hfab;
    first [ discriminate Hfab
          | eexists _, _; split; [reflexivity|]; split;
            [ cbn [In]; repeat first [left; reflexivity | right]
            | apply location_child; child_name Hs Hb ] ].
Qed.

Lemma outputs_in_output_tree_witness :
  exists evs tag,
    emitted Fixture.w0 (snd (script (Fixture.env None Fixture.never) Fixture.args0 Fixture.w0))
      evs /\
    Forall (fun argv =>
              is_fab argv = false ->
              writes_into (Fixture.env None Fixture.never)
                [parse "/work/3D_MODEL"; parse "/work/PICTURES"; parse "/work/DOCUMENTATION";
                 prod_root_of (Fixture.env None Fixture.never) Fixture.args0 tag "board"] argv)
           (spawns (actions evs)).
Proof.
  destruct (outputs_in_output_tree (Fixture.env None Fixture.never) Fixture.args0 Fixture.w0
              "/usr/bin/kicad-cli" "board"
              (parse "board.kicad_sch") (parse "board.kicad_pcb"))
    as (evs & tag & Hem & _ & Hall).
  - vm_compute. reflexivity.
  - vm_compute. reflexivity.
  - exists evs, tag. split; [exact Hem | exact Hall].
Defined.

(* ===================================================================== *)
(** * Properties preserved by every step                                  *)
(* ===================================================================== *)

Section Preserved.

Context (E : Env) (P : list event -> Prop) (R : FS -> FS -> Prop) (Zok : Path -> Prop).
Context (HI : Invariant E P R Zok).

Lemma invariant_bind {A B} (m : M A) (k : A -> M B) :
  invariant P R m -> (forall a, invariant P R (k a)) -> invariant P R (bind m k).
Proof.
  intros Hm Hk w. destruct (Hm w) as (evs1 & Hem1 & H1 & R1).
  unfold bind. destruct (m w) as [[a|e] w1]; simpl in *.
  - destruct (Hk a w1) as (evs2 & Hem2 & H2 & R2).
    exists (evs1 ++ evs2). split; [by eapply emitted_trans|].
    split; [by apply (inv_app _ _ _ _ HI) | by eapply (inv_trans _ _ _ _ HI)].
  - exists evs1. done.
Qed.

(** The same, when the continuation needs to know what [m] returned. *)
Lemma invariant_bind_value {A B} (Q : A -> Prop) (m : M A) (k : A -> M B) :
  invariant P R m -> (forall w a, fst (m w) = Ok a -> Q a) ->
  (forall a, Q a -> invariant P R (k a)) -> invariant P R (bind m k).
Proof.
  intros Hm HQ Hk w. destruct (Hm w) as (evs1 & Hem1 & H1 & R1).
  specialize (HQ w). unfold bind. destruct (m w) as [[a|e] w1]; simpl in *.
  - destruct (Hk a (HQ a eq_refl) w1) as (evs2 & Hem2 & H2 & R2).
    exists (evs1 ++ evs2). split; [by eapply emitted_trans|].
    split; [by apply (inv_app _ _ _ _ HI) | by eapply (inv_trans _ _ _ _ HI)].
  - exists evs1. done.
Qed.

Lemma invariant_silent {A} (m : M A) :
  (forall w, snd (m w) = w) -> invariant P R m.
Proof.
  intros H w. exists []. rewrite H. split; [apply emitted_nil|].
  split; [apply (inv_nil _ _ _ _ HI) | apply (inv_refl _ _ _ _ HI)].
Qed.

Lemma invariant_ret {A} (a : A) : invariant P R (ret a).
Proof. by apply invariant_silent. Qed.

Lemma invariant_raise {A} e : invariant P R (@raise A e).
Proof. by apply invariant_silent. Qed.

Lemma invariant_lift {A} (r : result A) : invariant P R (lift r).
Proof. apply invariant_silent. intros w. unfold lift. by destruct r. Qed.

Lemma invariant_path_exists p : invariant P R (path_exists E p).
Proof. by apply invariant_silent. Qed.

Lemma invariant_shutil_which n : invariant P R (shutil_which E n).
Proof. by apply invariant_silent. Qed.

Lemma invariant_print s : invariant P R (print s).
Proof.
  intros w. exists [EvStdout s]. split; [done|].
  split; [apply (inv_stdout _ _ _ _ HI) | apply (inv_refl _ _ _ _ HI)].
Qed.

(** The stamp [main] and the fabrication stage read is a reading of the
    clock. *)
Lemma invariant_timestamp_bind {B} (k : string -> M B) :
  (forall w1, invariant P R (k (strftime_minute (now E w1)))) ->
  invariant P R (bind (timestamp_tag E) k).
Proof. intros H w. exact (H w w). Qed.

Lemma invariant_mkdir_p p : invariant P R (mkdir_p E p).
Proof.
  intros w. exists [EvMkdir p]. unfold mkdir_p.
  destruct (mkdir_parents (fs w) (rev (location E p))) as [f|e] eqn:Hm; simpl.
  - split; [done|]. split; [apply (inv_mkdir _ _ _ _ HI)|].
    apply (inv_grows _ _ _ _ HI). by eapply mkdir_parents_grows.
  - split; [done|]. split; [apply (inv_mkdir _ _ _ _ HI) | apply (inv_refl _ _ _ _ HI)].
Qed.

Lemma invariant_ensure_dir p : invariant P R (ensure_dir E p).
Proof.
  unfold ensure_dir. apply invariant_bind; [apply invariant_mkdir_p|].
  intros _. apply invariant_ret.
Qed.

Lemma ensure_dir_value p w a : fst (ensure_dir E p w) = Ok a -> a = p.
Proof.
  unfold ensure_dir, bind, mkdir_p, ret.
  destruct (mkdir_parents (fs w) (rev (location E p))); simpl; congruence.
Qed.

Lemma invariant_ensure_dir_bind {B} p (k : Path -> M B) :
  invariant P R (k p) -> invariant P R (bind (ensure_dir E p) k).
Proof.
  intros Hk. apply (invariant_bind_value (fun a => a = p)).
  - apply invariant_ensure_dir.
  - apply ensure_dir_value.
  - by intros a ->.
Qed.

(** The runner: the command comes with its echo. *)
Lemma invariant_run cmd : invariant P R (run E cmd).
Proof.
  intros w. unfold run, bind, print, eprint, emit, subprocess_run, ret, raise. simpl.
  set (w0 := mkWorld (fs w) (trace w ++ [EvStdout (">> " +:+ Str.join " " cmd)])).
  pose proof (inv_tool _ _ _ _ HI w0 cmd) as Htool. change (fs w0) with (fs w) in Htool.
  pose proof (inv_spawn _ _ _ _ HI cmd (sp_res (spawn E w0 cmd))) as Hsp.
  destruct (spawn E w0 cmd) as [[msg|cp] f'] eqn:Hspawn; simpl in *.
  - eexists [_; _]. split; [unfold emitted; simpl; by rewrite <- app_assoc|]. done.
  - destruct (returncode cp =? 0)%Z eqn:Hrc; simpl.
    + eexists [_; _]. split; [unfold emitted; simpl; by rewrite <- app_assoc|]. done.
    + exists ([EvStdout (">> " +:+ Str.join " " cmd); EvSpawn cmd (inr cp)]
              ++ [EvStdout (stdout cp)] ++ [EvStderr (stderr cp)]).
      split; [unfold emitted; simpl; by rewrite <- !app_assoc|]. split; [|done].
      apply (inv_app _ _ _ _ HI); [done|].
      apply (inv_app _ _ _ _ HI);
        [apply (inv_stdout _ _ _ _ HI) | apply (inv_stderr _ _ _ _ HI)].
Qed.

Lemma zip_writes_ok zip src rels : Zok zip -> P (List.map (zip_write zip src) rels).
Proof.
  intros Hz. induction rels as [|rel rels IH]; [apply (inv_nil _ _ _ _ HI)|].
  change (P ([zip_write zip src rel] ++ List.map (zip_write zip src) rels)).
  apply (inv_app _ _ _ _ HI); [|exact IH]. by apply (inv_zip_write _ _ _ _ HI).
Qed.

Lemma invariant_zip_dir src zip : Zok zip -> invariant P R (zip_dir E src zip).
Proof.
  intros Hz w. rewrite zip_dir_unfold.
  assert (R (fs w) (fs (snd (zip_open E zip w)))) as HR.
  { unfold zip_open.
    destruct (fs w !! location E zip) as [[]|] eqn:Hk; simpl;
      destruct (fs w !! removelast (location E zip)) as [[]|]; simpl;
      try apply (inv_refl _ _ _ _ HI); apply (inv_archive _ _ _ _ HI); congruence. }
  pose proof (zip_open_emitted E zip w) as Hopen.
  destruct (zip_open E zip w) as [[[]|e] w1] eqn:Hzo; simpl in *.
  - exists ([EvZipOpen zip] ++
            List.map (zip_write zip src) (entries_below (fs w1) (location E src))).
    split; [unfold emitted in *; by rewrite Hopen, <- app_assoc|]. split; [|done].
    apply (inv_app _ _ _ _ HI); [by apply (inv_zip_open _ _ _ _ HI)|].
    by apply zip_writes_ok.
  - exists [EvZipOpen zip]. split; [done|]. split; [|done].
    by apply (inv_zip_open _ _ _ _ HI).
Qed.

End Preserved.

Ltac invariant_steps HI :=
  repeat first
    [ apply (invariant_ret _ _ _ _ HI)
    | apply (invariant_print _ _ _ _ HI)
    | apply (invariant_ensure_dir _ _ _ _ HI)
    | apply (invariant_run _ _ _ _ HI)
    | apply (invariant_raise _ _ _ _ HI)
    | apply (invariant_shutil_which _ _ _ _ HI)
    | apply (invariant_bind _ _ _ _ HI); [|intros ?]
    | match goal with
      | |- invariant _ _ (if ?b then _ else _) => destruct b
      | |- invariant _ _ (match ?x with _ => _ end) => destruct x
      end ].

Section PreservedStages.

Context (E : Env) (P : list event -> Prop) (R : FS -> FS -> Prop) (Zok : Path -> Prop).
Context (HI : Invariant E P R Zok).

Lemma invariant_export_3d kicad pcb out glb :
  invariant P R (export_3d E kicad pcb out glb).
Proof. unfold export_3d. invariant_steps HI. Qed.

Lemma invariant_export_pictures kicad pcb out iso :
  invariant P R (export_pictures E kicad pcb out iso).
Proof. unfold export_pictures. invariant_steps HI. Qed.

Lemma invariant_export_docs kicad sch pcb out drc :
  invariant P R (export_docs E kicad sch pcb out drc).
Proof. unfold export_docs. invariant_steps HI. Qed.

Lemma invariant_run_kikit_fab vendor pcb out :
  invariant P R (run_kikit_fab E vendor pcb out).
Proof. unfold run_kikit_fab. invariant_steps HI. Qed.

Lemma invariant_export_fab kicad sch pcb out z :
  (z = true -> forall w2,
      Zok (out // (stem pcb +:+ "_gerbers_" +:+ strftime_minute (now E w2) +:+ ".zip"))) ->
  invariant P R (export_fab E kicad sch pcb out z).
Proof.
  intros Hz. unfold export_fab.
  apply (invariant_ensure_dir_bind _ _ _ _ HI).
  do 6 (apply (invariant_bind _ _ _ _ HI);
        [first [apply (invariant_ensure_dir _ _ _ _ HI) | apply (invariant_run _ _ _ _ HI)]
        |intros ?]).
  apply (invariant_bind _ _ _ _ HI); [|intros ?; apply (invariant_ret _ _ _ _ HI)].
  destruct z; [|apply (invariant_ret _ _ _ _ HI)].
  apply invariant_timestamp_bind. intros w2.
  apply (invariant_bind _ _ _ _ HI); [|intros ?; apply (invariant_ret _ _ _ _ HI)].
  apply (invariant_zip_dir _ _ _ _ HI). by apply Hz.
Qed.

(** The script preserves every such property, when the archive of the
    fabrication stage is one that [Zok] allows. *)
Lemma invariant_script args w :
  (zip args = true ->
   forall proj_stem sch_path pcb_path w1 w2,
     fst (project_paths E (parse (project args)) w) = Ok (proj_stem, sch_path, pcb_path) ->
     Zok (gerber_archive E args proj_stem pcb_path (now E w1) (now E w2))) ->
  exists evs,
    emitted w (snd (script E args w)) evs /\ P evs /\ R (fs w) (fs (snd (script E args w))).
Proof.
  intros HZ.
  assert (exists evs, emitted w (snd (main E args w)) evs /\ P evs /\
      R (fs w) (fs (snd (main E args w)))) as (evs & Hem & HP & HR).
  { destruct (fst (which_kicad_cli E w)) as [kicad|e] eqn:Hk.
    - destruct (fst (project_paths E (parse (project args)) w))
        as [[[proj_stem sch_path] pcb_path]|e] eqn:Hp.
      + rewrite (main_resolved E args w kicad proj_stem sch_path pcb_path Hk Hp).
        cbv zeta.
        refine ((_ : invariant P R _) w).
        do 3 (apply (invariant_ensure_dir_bind _ _ _ _ HI)).
        apply invariant_timestamp_bind. intros w1.
        apply (invariant_ensure_dir_bind _ _ _ _ HI).
        repeat first
          [ apply invariant_export_3d | apply invariant_export_pictures
          | apply invariant_export_docs | apply invariant_run_kikit_fab
          | apply invariant_export_fab;
            [intros Hzip w2; exact (HZ Hzip proj_stem sch_path pcb_path w1 w2 eq_refl)]
          | apply (invariant_ret _ _ _ _ HI) | apply (invariant_print _ _ _ _ HI)
          | apply (invariant_bind _ _ _ _ HI); [|intros ?]
          | match goal with
            | |- invariant _ _ (match ?x with _ => _ end) => destruct x
            end ].
      + rewrite (main_project_missing E args w kicad e Hk Hp). exists [].
        split; [apply emitted_nil|].
        split; [apply (inv_nil _ _ _ _ HI) | apply (inv_refl _ _ _ _ HI)].
    - rewrite (main_tool_missing E args w e Hk). exists [].
      split; [apply emitted_nil|].
      split; [apply (inv_nil _ _ _ _ HI) | apply (inv_refl _ _ _ _ HI)]. }
  unfold script. destruct (main E args w) as [[[]|e] w'] eqn:Hmain; cbn [fst snd] in *.
  - exists evs. done.
  - exists (evs ++ [EvStderr (Str.nl +:+ "ERROR: " +:+ emsg e)]).
    split; [unfold emitted in *; simpl; by rewrite Hem, app_assoc|].
    split; [|done]. apply (inv_app _ _ _ _ HI); [done|]. apply (inv_stderr _ _ _ _ HI).
Qed.

End PreservedStages.

(* ===================================================================== *)
(** * Three properties of every run                                       *)
(* ===================================================================== *)

Lemma echoed_nil : echoed [].
Proof. intros pre argv res post H. by destruct pre. Qed.

Lemma echoed_single ev :
  (forall argv res, ev <> EvSpawn argv res) -> echoed [ev].
Proof.
  intros Hev pre argv res post H. destruct pre as [|x pre]; simpl in H.
  - injection H as H _. by destruct (Hev argv res).
  - injection H as _ H. by destruct pre.
Qed.

Lemma echoed_app a b : echoed a -> echoed b -> echoed (a ++ b).
Proof.
  intros Ha Hb pre argv res post H.
  apply app_eq_app in H as [l [[H1 H2]|[H1 H2]]].
  - destruct l as [|x l]; simpl in H2.
    + destruct (Hb [] argv res post (eq_sym H2)) as [pre' Hpre]. by destruct pre'.
    + injection H2 as <- H2. exact (Ha pre argv res l H1).
  - destruct (Hb l argv res post H2) as [pre' ->].
    exists (a ++ pre'). by rewrite H1, app_assoc.
Qed.

Lemma echoed_Invariant E : Invariant E echoed (fun _ _ => True) (fun _ => True).
Proof.
  constructor; try done.
  - apply echoed_nil.
  - apply echoed_app.
  - intros s. by apply echoed_single.
  - intros s. by apply echoed_single.
  - intros p. by apply echoed_single.
  - intros cmd res pre argv res' post H.
    destruct pre as [|x [|y pre]]; simpl in H.
    + discriminate H.
    + simplify_eq. by exists [].
    + simplify_eq. by destruct pre.
  - intros z _. by apply echoed_single.
  - intros z p arc _. by apply echoed_single.
Qed.

(** In every run, whatever the arguments and however it ends, each
    command is spawned right after the line that echoes it was printed:
    the log shows every command the run started, before its outcome. *)
Theorem every_command_echoed E args w :
  exists evs, emitted w (snd (script E args w)) evs /\ echoed evs.
Proof.
  destruct (invariant_script E echoed (fun _ _ => True) (fun _ => True)
              (echoed_Invariant E) args w) as (evs & Hem & Hev & _); [done|].
  by exists evs.
Qed.

Lemma keeps_Invariant E :
  tools_keep E -> Invariant E (fun _ => True) keeps (fun _ => True).
Proof.
  intros Htools. constructor; try done.
  - by intros f k n Hk.
  - intros f g h Hfg Hgh k n Hk. by apply Hgh, Hfg.
  - intros f f' Hg k n Hk. by eapply grows_keeps.
  - intros f k Hk k' n Hk'. destruct (decide (k' = k)) as [->|Hne].
    + rewrite lookup_insert_eq. destruct n; congruence.
    + by rewrite lookup_insert_ne.
Qed.

(** A run never removes an entry of the filesystem and never replaces a
    file by a directory or a directory by a file, as long as the external
    tools do not: every location that held a file or a directory before
    the run holds one of the same kind after it, whether the run
    succeeds or fails. *)
Theorem run_keeps_entries E args w :
  tools_keep E -> keeps (fs w) (fs (snd (script E args w))).
Proof.
  intros Htools.
  destruct (invariant_script E (fun _ => True) keeps (fun _ => True)
              (keeps_Invariant E Htools) args w) as (evs & _ & _ & Hk); [done|].
  exact Hk.
Qed.

Lemma run_keeps_entries_witness :
  keeps Fixture.fs0 (fs (snd (script Fixture.idle Fixture.args0 Fixture.w0))).
Proof.
  apply (run_keeps_entries Fixture.idle Fixture.args0 Fixture.w0).
  intros w argv k n H. exact H.
Defined.

(** Where the archive of the fabrication stage lies: directly inside the
    production run folder, and not below the [gerbers] directory whose
    entries it takes. *)
Lemma gerber_archive_location E args proj_stem pcb_path d1 d2 :
  Str.contains "/" (stem pcb_path) = false ->
  let prod_root := prod_root_of E args (strftime_minute d1) proj_stem in
  location E (gerber_archive E args proj_stem pcb_path d1 d2) =
    location E prod_root
    ++ [stem pcb_path +:+ "_gerbers_" +:+ strftime_minute d2 +:+ ".zip"] /\
  ~ under (location E (prod_root // "gerbers"))
          (location E (gerber_archive E args proj_stem pcb_path d1 d2)).
Proof.
  intros Hs prod_root. unfold gerber_archive. fold prod_root.
  assert (String.length ("_gerbers_" +:+ strftime_minute d2 +:+ ".zip") = 26%nat) as Hlen.
  { rewrite !length_append, strftime_minute_length. reflexivity. }
  assert (location E
            (prod_root // (stem pcb_path +:+ "_gerbers_" +:+ strftime_minute d2 +:+ ".zip"))
          = location E prod_root
            ++ [stem pcb_path +:+ "_gerbers_" +:+ strftime_minute d2 +:+ ".zip"]) as Hloc.
  { apply location_child.
    - apply plain_append; [exact Hs| |lia].
      rewrite !contains_append, strftime_minute_no_slash. reflexivity.
    - apply not_dotdot_long. rewrite length_append. lia. }
  split; [exact Hloc|]. rewrite Hloc.
  rewrite (location_child E prod_root "gerbers" eq_refl eq_refl).
  apply snoc_not_under. intros Heq. apply (f_equal String.length) in Heq.
  rewrite length_append, Hlen in Heq. simpl in Heq. lia.
Qed.

(** The only archive a run ever opens or writes to is the one of the
    fabrication stage, and only with [--zip]: without the flag no run
    touches an archive.  With it, the archive is named after the board's
    stem and a reading of the clock, lies directly inside the production
    run folder, and is not below the [gerbers] directory it collects, so
    it is never a member of itself. *)
Theorem archive_only_with_zip E args w :
  exists evs,
    emitted w (snd (script E args w)) evs /\
    Forall (fun ev =>
              forall z, archive_of ev = Some z ->
                zip args = true /\
                exists proj_stem sch_path pcb_path w1 w2,
                  fst (project_paths E (parse (project args)) w)
                    = Ok (proj_stem, sch_path, pcb_path) /\
                  let prod_root :=
                    prod_root_of E args (strftime_minute (now E w1)) proj_stem in
                  z = prod_root // (stem pcb_path +:+ "_gerbers_"
                                    +:+ strftime_minute (now E w2) +:+ ".zip") /\
                  location E z =
                    location E prod_root
                    ++ [stem pcb_path +:+ "_gerbers_"
                        +:+ strftime_minute (now E w2) +:+ ".zip"] /\
                  ~ under (location E (prod_root // "gerbers")) (location E z))
           evs.
Proof.
  pose (Zok := fun z : Path =>
          zip args = true /\
          exists proj_stem sch_path pcb_path w1 w2,
            fst (project_paths E (parse (project args)) w)
              = Ok (proj_stem, sch_path, pcb_path) /\
            z = gerber_archive E args proj_stem pcb_path (now E w1) (now E w2)).
  assert (Invariant E (Forall (fun ev => forall z, archive_of ev = Some z -> Zok z))
            (fun _ _ => True) Zok) as HI.
  { constructor; try done.
    - intros a b. apply Forall_app_2.
    - intros s. apply Forall_cons_2; [done | apply Forall_nil_2].
    - intros s. apply Forall_cons_2; [done | apply Forall_nil_2].
    - intros p. apply Forall_cons_2; [done | apply Forall_nil_2].
    - intros cmd res. do 2 (apply Forall_cons_2; [done|]). apply Forall_nil_2.
    - intros z Hz. apply Forall_cons_2; [by intros z' [= <-] | apply Forall_nil_2].
    - intros z p arc Hz. apply Forall_cons_2; [by intros z' [= <-] | apply Forall_nil_2]. }
  destruct (invariant_script E _ _ Zok HI args w) as (evs & Hem & Hev & _).
  { intros Hzip ps sch pcb w1 w2 Hp. split; [exact Hzip|]. by exists ps, sch, pcb, w1, w2. }
  exists evs. split; [exact Hem|].
  eapply Forall_impl; [exact Hev|]. intros ev Hz z Harch.
  destruct (Hz z Harch) as (Hzip & ps & sch & pcb & w1 & w2 & Hp & ->).
  split; [exact Hzip|]. exists ps, sch, pcb, w1, w2. split; [exact Hp|]. cbv zeta.
  split; [reflexivity|].
  destruct (project_paths_files_plain E _ w _ _ _ (wf_parse (project args)) Hp) as [_ Hb].
  exact (gerber_archive_location E args ps pcb (now E w1) (now E w2) Hb).
Qed.

(* ===================================================================== *)
(** * Failures other than a missing tool, a missing input or a command    *)
(* ===================================================================== *)

Lemma suffix_of_empty_name p : name p = "" -> suffix p = "".
Proof. intros H. unfold suffix. by rewrite H. Qed.

Lemma with_suffix_fails_iff p suf :
  suf = "" \/ suf = ".kicad_sch" \/ suf = ".kicad_pcb" ->
  (exists e, with_suffix p suf = Raise e) <-> name p = "".
Proof.
  intros Hsuf. unfold with_suffix.
  assert (Str.contains "/" suf = false) as -> by (by destruct Hsuf as [->|[->| ->]]).
  assert ((negb (String.eqb suf "") && negb (Str.starts_with_dot suf))
          || String.eqb suf "." = false) as -> by (by destruct Hsuf as [->|[->| ->]]).
  destruct (String.eqb (name p) "") eqn:Hn.
  - apply String.eqb_eq in Hn. split; [done | by eexists].
  - apply String.eqb_neq in Hn. split; [by intros [e He] | done].
Qed.

Lemma with_suffix_raise_kind p suf e : with_suffix p suf = Raise e -> ekind e = ValueError.
Proof.
  unfold with_suffix.
  repeat (match goal with |- context [if ?b then _ else _] => destruct b end;
          try (by intros [= <-])).
Qed.

(** The derivation of the companion files fails exactly when the project
    input has no final component, and then with [ValueError]. *)
Lemma companions_raise p :
  ((exists e, companions p = Raise e) <-> name p = "") /\
  (forall e, companions p = Raise e -> ekind e = ValueError).
Proof.
  split; [split|].
  - intros [e He]. revert He. unfold companions. destruct (String.eqb _ _).
    + destruct (with_suffix p "") as [s0|e0] eqn:H0.
      * pose proof (with_suffix_Ok p "" s0 H0) as [Hn Hs0].
        assert (name s0 <> "") as Hn0.
        { rewrite Hs0, name_snoc, append_nil_r. by apply stem_nonempty. }
        destruct (with_suffix s0 ".kicad_sch") as [q1|e1] eqn:H1.
        -- destruct (with_suffix s0 ".kicad_pcb") as [q2|e2] eqn:H2; [done|].
           intros _. exfalso. apply Hn0.
           apply (with_suffix_fails_iff s0 ".kicad_pcb"); [tauto | by eexists].
        -- intros _. exfalso. apply Hn0.
           apply (with_suffix_fails_iff s0 ".kicad_sch"); [tauto | by eexists].
      * intros _. apply (with_suffix_fails_iff p ""); [tauto | by eexists].
    + destruct (with_suffix p ".kicad_sch") as [q1|e1] eqn:H1.
      * destruct (with_suffix p ".kicad_pcb") as [q2|e2] eqn:H2; [done|].
        intros _. apply (with_suffix_fails_iff p ".kicad_pcb"); [tauto | by eexists].
      * intros _. apply (with_suffix_fails_iff p ".kicad_sch"); [tauto | by eexists].
  - intros Hn. unfold companions. rewrite (suffix_of_empty_name p Hn).
    change (String.eqb (Str.lower "") ".kicad_pro") with false. cbv iota.
    destruct (proj2 (with_suffix_fails_iff p ".kicad_sch" ltac:(tauto)) Hn) as [e ->].
    by eexists.
  - intros e. unfold companions. destruct (String.eqb _ _).
    + destruct (with_suffix p "") as [s0|e0] eqn:H0;
        [|intros [= <-]; by eapply with_suffix_raise_kind].
      destruct (with_suffix s0 ".kicad_sch") as [q1|e1] eqn:H1;
        [|intros [= <-]; by eapply with_suffix_raise_kind].
      destruct (with_suffix s0 ".kicad_pcb") as [q2|e2] eqn:H2;
        [done | intros [= <-]; by eapply with_suffix_raise_kind].
    + destruct (with_suffix p ".kicad_sch") as [q1|e1] eqn:H1;
        [|intros [= <-]; by eapply with_suffix_raise_kind].
      destruct (with_suffix p ".kicad_pcb") as [q2|e2] eqn:H2;
        [done | intros [= <-]; by eapply with_suffix_raise_kind].
Qed.

(** The resolver has a failure that is not a missing file: it raises
    [ValueError] exactly when the project input has no final component
    (the inputs [.], [/] and the empty string, for instance), whatever
    the filesystem holds; every other failure of the resolver is a
    [FileNotFoundError].  With such an input a run in which the CAD tool
    was located exits with status 1 after printing one error line;
    nothing else is printed, no directory is created and no command is
    spawned. *)
Theorem resolver_rejects_empty_name E args w :
  let p := parse (project args) in
  (name p = "" <-> exists e, fst (project_paths E p w) = Raise e /\ ekind e = ValueError) /\
  (forall e, fst (project_paths E p w) = Raise e ->
             ekind e = ValueError \/ ekind e = FileNotFoundError) /\
  (forall kicad, fst (which_kicad_cli E w) = Ok kicad -> name p = "" ->
     exists e, ekind e = ValueError /\
       script E args w =
         (1%Z, mkWorld (fs w) (trace w ++ [EvStderr (Str.nl +:+ "ERROR: " +:+ emsg e)]))).
Proof.
  intros p. destruct (companions_raise p) as [Hiff Hkind].
  assert (forall e, fst (project_paths E p w) = Raise e ->
                    companions p = Raise e \/ ekind e = FileNotFoundError) as Hcases.
  { intros e. rewrite project_paths_unfold. cbn [fst].
    destruct (companions p) as [[[s sch] pcb]|e0]; [|intros [= <-]; by left].
    destruct (negb _); [intros [= <-]; by right|].
    destruct (negb _); [intros [= <-]; by right | done]. }
  assert (name p = "" -> exists e, fst (project_paths E p w) = Raise e /\ ekind e = ValueError)
    as Hfwd.
  { intros Hn. destruct (proj2 Hiff Hn) as [e He]. exists e.
    split; [|by apply Hkind]. rewrite project_paths_unfold. cbn [fst]. by rewrite He. }
  split; [split; [exact Hfwd|]|split].
  - intros (e & He & Hk). destruct (Hcases e He) as [Hc|Hc].
    + apply Hiff. by exists e.
    + rewrite Hc in Hk. discriminate Hk.
  - intros e He. destruct (Hcases e He) as [Hc|Hc]; [left; by apply Hkind | by right].
  - intros kicad Hk Hn. destruct (Hfwd Hn) as (e & He & Hkd). exists e.
    split; [exact Hkd|]. apply script_raise. by apply (main_project_missing E args w kicad).
Qed.

Lemma mkdir_parents_file rk f :
  f !! rev rk = Some NFile ->
  exists e, mkdir_parents f rk = Raise e /\ ekind e = FileExistsError.
Proof.
  intros H.
  destruct rk as [|c rk]; simpl in *; unfold os_mkdir; rewrite H; simpl;
    unfold swallow, is_dir; rewrite H; by eexists.
Qed.

Lemma mkdir_parents_under_file rk c f :
  f !! (rev rk ++ [c]) = None -> f !! rev rk = Some NFile ->
  exists e, mkdir_parents f (c :: rk) = Raise e /\ ekind e = NotADirectoryError.
Proof.
  intros Hk Hp. simpl. unfold os_mkdir. rewrite Hk, removelast_last, Hp. simpl.
  unfold swallow, is_dir. rewrite Hk. by eexists.
Qed.

(** [ensure_dir] does not replace a regular file: when the location is a
    regular file it raises [FileExistsError], and when the location is
    free but its parent is a regular file it raises
    [NotADirectoryError]; in both cases the filesystem is left as it
    was. *)
Theorem ensure_dir_blocked E p w :
  fs w !! location E p = Some NFile \/
  (fs w !! location E p = None /\ location E p <> [] /\
   fs w !! removelast (location E p) = Some NFile) ->
  exists e,
    ensure_dir E p w = (Raise e, mkWorld (fs w) (trace w ++ [EvMkdir p])) /\
    ekind e = match fs w !! location E p with
              | Some _ => FileExistsError
              | None => NotADirectoryError
              end.
Proof.
  intros [H|(H & Hne & Hp)]; rewrite ensure_dir_unfold.
  - destruct (mkdir_parents_file (rev (location E p)) (fs w)) as (e & -> & Hk).
    { by rewrite rev_involutive. }
    exists e. split; [done|]. by rewrite H.
  - destruct (location E p) as [|c k] eqn:Hloc using rev_ind; [done|]. clear IHk.
    rewrite removelast_last in Hp. rewrite rev_unit.
    destruct (mkdir_parents_under_file (rev k) c (fs w)) as (e & -> & Hk).
    { by rewrite rev_involutive. }
    { by rewrite rev_involutive. }
    exists e. split; [done|]. by rewrite H.
Qed.

Lemma ensure_dir_blocked_witness :
  exists e,
    ensure_dir (Fixture.env None Fixture.never) (parse "board.kicad_pcb") Fixture.w0
      = (Raise e, mkWorld Fixture.fs0 [EvMkdir (parse "board.kicad_pcb")]) /\
    ekind e = FileExistsError.
Proof.
  destruct (ensure_dir_blocked (Fixture.env None Fixture.never) (parse "board.kicad_pcb")
              Fixture.w0) as (e & He & Hk).
  - left. vm_compute. reflexivity.
  - exists e. split; [exact He|]. rewrite Hk. vm_compute. reflexivity.
Defined.

Lemma resolver_rejects_empty_name_witness :
  exists e, ekind e = ValueError /\
    script (Fixture.env None Fixture.never)
      (mkArgs "." "." "PRODUCTION" false false false None false) Fixture.w0 =
      (1%Z, mkWorld Fixture.fs0 [EvStderr (Str.nl +:+ "ERROR: " +:+ emsg e)]).
Proof.
  pose proof (resolver_rejects_empty_name (Fixture.env None Fixture.never)
                (mkArgs "." "." "PRODUCTION" false false false None false) Fixture.w0) as H.
  cbv zeta in H. destruct H as (_ & _ & H).
  apply (H "/usr/bin/kicad-cli"); vm_compute; reflexivity.
Defined.

Lemma mkdir_parents_not_file f k f' :
  mkdir_parents f (rev k) = Ok f' -> f !! k = Some NFile -> False.
Proof.
  intros HOk Hf. destruct (mkdir_parents_file (rev k) f) as (e & He & _).
  - by rewrite rev_involutive.
  - congruence.
Qed.

(** When one of three directories asked for in a row is a regular file,
    the third request at the latest fails, and up to there only
    directories were asked for and added. *)
Lemma three_dirs_blocked E d1 d2 d3 {B} (k : Path -> Path -> Path -> M B) w d :
  In d [d1; d2; d3] -> fs w !! location E d = Some NFile ->
  exists e f' evs,
    bind (ensure_dir E d1) (fun a =>
      bind (ensure_dir E d2) (fun b =>
        bind (ensure_dir E d3) (fun c => k a b c))) w
    = (Raise e, mkWorld f' (trace w ++ evs)) /\
    spawns (actions evs) = [] /\ grows (fs w) f'.
Proof.
  intros Hin Hf. unfold bind. rewrite (ensure_dir_unfold E d1 w).
  destruct (mkdir_parents (fs w) (rev (location E d1))) as [f1|e1] eqn:H1.
  2: { exists e1, (fs w), [EvMkdir d1]. split; [done|]. split; [done | apply grows_refl]. }
  pose proof (mkdir_parents_grows _ _ _ H1) as G1.
  rewrite ensure_dir_unfold. cbn [fs trace].
  destruct (mkdir_parents f1 (rev (location E d2))) as [f2|e2] eqn:H2.
  2: { exists e2, f1, [EvMkdir d1; EvMkdir d2].
       split; [by rewrite <- app_assoc|]. split; [done | exact G1]. }
  pose proof (mkdir_parents_grows _ _ _ H2) as G2.
  rewrite ensure_dir_unfold. cbn [fs trace].
  destruct (mkdir_parents f2 (rev (location E d3))) as [f3|e3] eqn:H3.
  2: { exists e3, f2, [EvMkdir d1; EvMkdir d2; EvMkdir d3].
       split; [by rewrite <- !app_assoc|]. split; [done | by eapply grows_trans]. }
  exfalso. destruct Hin as [<-|[<-|[<-|[]]]].
  - exact (mkdir_parents_not_file _ _ _ H1 Hf).
  - exact (mkdir_parents_not_file _ _ _ H2 (grows_keeps _ _ _ _ G1 Hf)).
  - exact (mkdir_parents_not_file _ _ _ H3
             (grows_keeps _ _ _ _ G2 (grows_keeps _ _ _ _ G1 Hf))).
Qed.

(** When a regular file stands where one of the three fixed output
    directories should be, the run fails before it spawns any command,
    even when the file blocks only the last of them: it exits with
    status 1, and all it did to the filesystem is add directories. *)
Theorem output_directory_blocked E args w kicad proj_stem sch_path pcb_path d :
  fst (which_kicad_cli E w) = Ok kicad ->
  fst (project_paths E (parse (project args)) w) = Ok (proj_stem, sch_path, pcb_path) ->
  In d ["3D_MODEL"; "PICTURES"; "DOCUMENTATION"] ->
  fs w !! location E (resolve E (parse (root args)) // d) = Some NFile ->
  fst (script E args w) = 1%Z /\
  exists evs,
    emitted w (snd (script E args w)) evs /\
    spawns (actions evs) = [] /\
    grows (fs w) (fs (snd (script E args w))).
Proof.
  intros Hk Hp Hin Hf.
  pose proof (main_resolved E args w kicad proj_stem sch_path pcb_path Hk Hp) as Hmain.
  cbv zeta in Hmain.
  lazymatch type of Hmain with
  | _ = bind (ensure_dir _ ?d1) (fun a =>
          bind (ensure_dir _ ?d2) (fun b =>
          bind (ensure_dir _ ?d3) (fun c => @?k a b c))) w =>
      destruct (three_dirs_blocked E d1 d2 d3 k w (resolve E (parse (root args)) // d))
        as (e & f' & evs & Hrun & Hsp & Hg)
  end.
  - destruct Hin as [<-|[<-|[<-|[]]]]; simpl; tauto.
  - exact Hf.
  - rewrite Hrun in Hmain. rewrite (script_raise E args w e _ Hmain). split; [done|].
    exists (evs ++ [EvStderr (Str.nl +:+ "ERROR: " +:+ emsg e)]). cbn [fst snd fs trace].
    split; [unfold emitted; cbn [trace]; by rewrite app_assoc|]. split; [|exact Hg].
    rewrite actions_app, spawns_app, Hsp. reflexivity.
Qed.

Lemma output_directory_blocked_witness :
  let w := mkWorld (<[ ["/"; "work"; "DOCUMENTATION"] := NFile ]> Fixture.fs0) [] in
  fst (script (Fixture.env None Fixture.never) Fixture.args0 w) = 1%Z.
Proof.
  intros w.
  apply (output_directory_blocked (Fixture.env None Fixture.never) Fixture.args0 w
           "/usr/bin/kicad-cli" "board" (parse "board.kicad_sch") (parse "board.kicad_pcb")
           "DOCUMENTATION").
  - vm_compute. reflexivity.
  - vm_compute. reflexivity.
  - simpl. tauto.
  - vm_compute. reflexivity.
Defined.

(* ===================================================================== *)
(** * What a successful run prints                                        *)
(* ===================================================================== *)

Section Succeeds.

Context (E : Env).

Lemma succeeds_bind {A B} (P1 P2 P : list event -> Prop) (Q : A -> Prop)
      (m : M A) (k : A -> M B) :
  succeeds_with P1 m -> (forall w a w', m w = (Ok a, w') -> Q a) ->
  (forall a, Q a -> succeeds_with P2 (k a)) ->
  (forall e1 e2, P1 e1 -> P2 e2 -> P (e1 ++ e2)) ->
  succeeds_with P (bind m k).
Proof.
  intros Hm HQ Hk HP w b w' Hb.
  apply bind_Ok_inv in Hb as (a & w1 & Ha & Hb).
  destruct (Hm w a w1 Ha) as (e1 & Hem1 & H1).
  destruct (Hk a (HQ w a w1 Ha) w1 b w' Hb) as (e2 & Hem2 & H2).
  exists (e1 ++ e2). split; [by eapply emitted_trans | by apply HP].
Qed.

Lemma silent_bind {A B} (m : M A) (k : A -> M B) :
  succeeds_with stderr_silent m -> (forall a, succeeds_with stderr_silent (k a)) ->
  succeeds_with stderr_silent (bind m k).
Proof.
  intros Hm Hk.
  apply (succeeds_bind stderr_silent stderr_silent stderr_silent (fun _ => True)); try done.
  intros e1 e2. apply Forall_app_2.
Qed.

Lemma silent_unchanged {A} (m : M A) :
  (forall w, snd (m w) = w) -> succeeds_with stderr_silent m.
Proof.
  intros H w a w' Hm. exists []. pose proof (H w) as Hw. rewrite Hm in Hw. simpl in Hw.
  subst w'. split; [apply emitted_nil | constructor].
Qed.

Lemma silent_ret {A} (a : A) : succeeds_with stderr_silent (ret a).
Proof. by apply silent_unchanged. Qed.

Lemma silent_raise {A} e : succeeds_with stderr_silent (@raise A e).
Proof. by apply silent_unchanged. Qed.

Lemma silent_shutil_which n : succeeds_with stderr_silent (shutil_which E n).
Proof. by apply silent_unchanged. Qed.

Lemma silent_timestamp_tag : succeeds_with stderr_silent (timestamp_tag E).
Proof. by apply silent_unchanged. Qed.

Lemma silent_print s : succeeds_with stderr_silent (print s).
Proof.
  intros w a w' [= _ <-]. exists [EvStdout s]. split; [done | by repeat constructor].
Qed.

Lemma silent_ensure_dir p : succeeds_with stderr_silent (ensure_dir E p).
Proof.
  intros w a w'. rewrite ensure_dir_unfold.
  destruct (mkdir_parents (fs w) (rev (location E p))); [|done].
  intros [= _ <-]. exists [EvMkdir p]. split; [done | by repeat constructor].
Qed.

(** The runner writes to the standard error stream only when it fails. *)
Lemma silent_run cmd : succeeds_with stderr_silent (run E cmd).
Proof.
  intros w a w'. unfold run, bind, print, eprint, emit, subprocess_run, ret, raise. simpl.
  set (w0 := mkWorld (fs w) (trace w ++ [EvStdout (">> " +:+ Str.join " " cmd)])).
  destruct (spawn E w0 cmd) as [[msg|cp] f']; simpl; [done|].
  destruct (returncode cp =? 0)%Z; simpl; [|done].
  intros [= _ <-]. eexists [_; _].
  split; [unfold emitted; simpl; by rewrite <- app_assoc | by repeat constructor].
Qed.

Lemma silent_zip_dir src zip : succeeds_with stderr_silent (zip_dir E src zip).
Proof.
  intros w a w'. rewrite zip_dir_unfold.
  pose proof (zip_open_emitted E zip w) as Hopen.
  destruct (zip_open E zip w) as [[[]|e] w1]; [|done]. simpl in Hopen.
  intros [= _ <-].
  exists ([EvZipOpen zip] ++
          List.map (zip_write zip src) (entries_below (fs w1) (location E src))).
  split; [unfold emitted in *; simpl; by rewrite Hopen, <- app_assoc|].
  apply Forall_app_2; [by repeat constructor|].
  apply Forall_forall. intros ev Hev. apply list_elem_of_In, in_map_iff in Hev.
  by destruct Hev as (rel & <- & _).
Qed.

End Succeeds.

Ltac silent_steps :=
  repeat first
    [ apply silent_ret
    | apply silent_print
    | apply silent_ensure_dir
    | apply silent_run
    | apply silent_raise
    | apply silent_shutil_which
    | apply silent_timestamp_tag
    | apply silent_zip_dir
    | apply silent_bind; [|intros ?]
    | match goal with
      | |- succeeds_with _ (if ?b then _ else _) => destruct b
      | |- succeeds_with _ (match ?x with _ => _ end) => destruct x
      end ].

Section SucceedsStages.

Context (E : Env).

Lemma silent_export_3d kicad pcb out glb :
  succeeds_with stderr_silent (export_3d E kicad pcb out glb).
Proof. unfold export_3d. silent_steps. Qed.

Lemma silent_export_pictures kicad pcb out iso :
  succeeds_with stderr_silent (export_pictures E kicad pcb out iso).
Proof. unfold export_pictures. silent_steps. Qed.

Lemma silent_export_docs kicad sch pcb out drc :
  succeeds_with stderr_silent (export_docs E kicad sch pcb out drc).
Proof. unfold export_docs. silent_steps. Qed.

Lemma silent_export_fab kicad sch pcb out z :
  succeeds_with stderr_silent (export_fab E kicad sch pcb out z).
Proof. unfold export_fab. silent_steps. Qed.

Lemma silent_run_kikit_fab vendor pcb out :
  succeeds_with stderr_silent (run_kikit_fab E vendor pcb out).
Proof. unfold run_kikit_fab. silent_steps. Qed.

(** The last five steps of [main]. *)
Lemma summary_printed args prod_root :
  succeeds_with (fun evs => evs = summary E args prod_root)
    (print (Str.nl +:+ "All done ✅") ;;
     print ("- 3D models:       " +:+ str (resolve E (parse (root args)) // "3D_MODEL")) ;;
     print ("- Pictures:        " +:+ str (resolve E (parse (root args)) // "PICTURES")) ;;
     print ("- Documentation:   "
            +:+ str (resolve E (parse (root args)) // "DOCUMENTATION")) ;;
     print ("- Production run:  " +:+ str prod_root))%script.
Proof.
  intros w a w'. unfold bind, print, emit. cbn [fs trace]. intros [= _ <-].
  eexists. split; [|reflexivity]. unfold emitted, summary. cbn [trace].
  by rewrite <- !app_assoc.
Qed.

(** What follows a step that stays silent and ends with the summary
    stays silent and ends with the summary. *)
Lemma summary_bind {A B} (L : list event) (m : M A) (k : A -> M B) :
  succeeds_with stderr_silent m ->
  (forall a, succeeds_with (fun evs => stderr_silent evs /\ exists mid, evs = mid ++ L) (k a)) ->
  succeeds_with (fun evs => stderr_silent evs /\ exists mid, evs = mid ++ L) (bind m k).
Proof.
  intros Hm Hk.
  apply (succeeds_bind stderr_silent
           (fun evs => stderr_silent evs /\ exists mid, evs = mid ++ L) _ (fun _ => True));
    try done.
  intros e1 e2 H1 [H2 [mid ->]]. split; [by apply Forall_app_2|].
  exists (e1 ++ mid). by rewrite app_assoc.
Qed.

End SucceedsStages.

Lemma ensure_dir_Ok_inv E p w a w' :
  ensure_dir E p w = (Ok a, w') ->
  a = p /\ trace w' = trace w ++ [EvMkdir p].
Proof.
  rewrite ensure_dir_unfold.
  destruct (mkdir_parents (fs w) (rev (location E p))); [|done].
  by intros [= <- <-].
Qed.

(** From the creation of the production run folder on, a run that
    returns stayed silent on the standard error stream and ended with
    the summary. *)
Lemma main_tail_summary E args kicad proj_stem sch_path pcb_path prod_root :
  let root := resolve E (parse (root args)) in
  succeeds_with
    (fun evs => stderr_silent evs /\ exists mid, evs = mid ++ summary E args prod_root)
    (print ("Project: " +:+ proj_stem) ;;
     print ("SCH:     " +:+ str sch_path) ;;
     print ("PCB:     " +:+ str pcb_path) ;;
     print ("Root:    " +:+ str root) ;;
     export_3d E kicad pcb_path (root // "3D_MODEL") (glb args) ;;
     export_pictures E kicad pcb_path (root // "PICTURES") (iso args) ;;
     export_docs E kicad sch_path pcb_path (root // "DOCUMENTATION") (negb (skip_drc args)) ;;
     export_fab E kicad sch_path pcb_path prod_root (zip args) ;;
     match truthy (kikit args) with
     | Some vendor =>
         print ("Running KiKit fab for vendor: " +:+ vendor) ;;
         vendor_zip <- run_kikit_fab E vendor pcb_path prod_root ;;
         print ("KiKit vendor ZIP: " +:+ str vendor_zip)
     | None => ret tt
     end ;;
     print (Str.nl +:+ "All done ✅") ;;
     print ("- 3D models:       " +:+ str (root // "3D_MODEL")) ;;
     print ("- Pictures:        " +:+ str (root // "PICTURES")) ;;
     print ("- Documentation:   " +:+ str (root // "DOCUMENTATION")) ;;
     print ("- Production run:  " +:+ str prod_root))%script.
Proof.
  intros root.
  do 4 (apply summary_bind; [apply silent_print | intros _]).
  apply summary_bind; [apply silent_export_3d | intros _].
  apply summary_bind; [apply silent_export_pictures | intros _].
  apply summary_bind; [apply silent_export_docs | intros _].
  apply summary_bind; [apply silent_export_fab | intros _].
  apply summary_bind.
  { destruct (truthy (kikit args)); [|apply silent_ret].
    apply silent_bind; [apply silent_print | intros _].
    apply silent_bind; [apply silent_run_kikit_fab | intros ?]. apply silent_print. }
  intros _ w a w' Hw. destruct (summary_printed E args prod_root w a w' Hw) as (evs & Hem & ->).
  exists (summary E args prod_root). split; [exact Hem|].
  split; [by repeat constructor | by exists []].
Qed.

(** A run that exits with status 0 wrote nothing to the standard error
    stream, began by asking for the four output directories, and ended
    by printing the summary, which names the three fixed directories and
    the very production run folder it asked for. *)
Theorem success_report E args w :
  fst (script E args w) = 0%Z ->
  exists evs tag proj_stem sch_path pcb_path mid,
    emitted w (snd (script E args w)) evs /\
    fst (project_paths E (parse (project args)) w) = Ok (proj_stem, sch_path, pcb_path) /\
    (exists w1, tag = strftime_minute (now E w1)) /\
    stderr_silent evs /\
    let root := resolve E (parse (root args)) in
    let prod_root := prod_root_of E args tag proj_stem in
    evs = [EvMkdir (root // "3D_MODEL"); EvMkdir (root // "PICTURES");
           EvMkdir (root // "DOCUMENTATION"); EvMkdir prod_root]
          ++ mid ++ summary E args prod_root.
Proof.
  intros H0. unfold script in *.
  destruct (main E args w) as [[[]|e] w'] eqn:Hmain; cbn [fst snd] in *; [|discriminate H0].
  clear H0.
  destruct (fst (which_kicad_cli E w)) as [kicad|e] eqn:Hk;
    [|rewrite (main_tool_missing E args w e Hk) in Hmain; discriminate Hmain].
  destruct (fst (project_paths E (parse (project args)) w))
    as [[[proj_stem sch_path] pcb_path]|e] eqn:Hp;
    [|rewrite (main_project_missing E args w kicad e Hk Hp) in Hmain; discriminate Hmain].
  rewrite (main_resolved E args w kicad proj_stem sch_path pcb_path Hk Hp) in Hmain.
  cbv zeta in Hmain.
  apply bind_Ok_inv in Hmain as (d1 & w1 & H1 & Hmain).
  apply ensure_dir_Ok_inv in H1 as [-> T1].
  apply bind_Ok_inv in Hmain as (d2 & w2 & H2 & Hmain).
  apply ensure_dir_Ok_inv in H2 as [-> T2].
  apply bind_Ok_inv in Hmain as (d3 & w3 & H3 & Hmain).
  apply ensure_dir_Ok_inv in H3 as [-> T3].
  apply bind_Ok_inv in Hmain as (tag & w4 & H4 & Hmain).
  unfold timestamp_tag in H4. injection H4 as <- <-.
  apply bind_Ok_inv in Hmain as (d4 & w5 & H5 & Hmain).
  apply ensure_dir_Ok_inv in H5 as [-> T5].
  destruct (main_tail_summary E args kicad proj_stem sch_path pcb_path _ w5 tt w' Hmain)
    as (evs & Hem & Hsilent & mid & ->).
  eexists _, (strftime_minute (now E w3)), proj_stem, sch_path, pcb_path, mid.
  split; [|split; [reflexivity|split; [by exists w3|]]].
  - unfold emitted in *. rewrite Hem, T5, T3, T2, T1, <- !app_assoc. reflexivity.
  - split; [|reflexivity]. cbn [app].
    repeat (apply Forall_cons_2; [reflexivity|]). exact Hsilent.
Qed.

Lemma success_report_witness :
  exists evs mid,
    emitted Fixture.w0 (snd (script (Fixture.env None Fixture.never) Fixture.args0 Fixture.w0))
      evs /\
    stderr_silent evs /\
    evs = [EvMkdir (parse "/work/3D_MODEL"); EvMkdir (parse "/work/PICTURES");
           EvMkdir (parse "/work/DOCUMENTATION");
           EvMkdir (parse "/work/PRODUCTION/20240305_1407_board")]
          ++ mid ++ summary (Fixture.env None Fixture.never) Fixture.args0
                      (parse "/work/PRODUCTION/20240305_1407_board").
Proof.
  destruct (success_report (Fixture.env None Fixture.never) Fixture.args0 Fixture.w0)
    as (evs & tag & ps & sch & pcb & mid & Hem & Hp & [w1 Htag] & Hsilent & Hevs).
  - vm_compute. reflexivity.
  - exists evs, mid. split; [exact Hem|]. split; [exact Hsilent|].
    vm_compute in Hp. injection Hp as <- _ _.
    assert (tag = "20240305_1407") as -> by (rewrite Htag; vm_compute; reflexivity).
    exact Hevs.
Defined.

(* ===================================================================== *)
(** * The stamps sort by time                                             *)
(* ===================================================================== *)

Lemma compare_cons c1 c2 s1 s2 :
  String.compare (String c1 s1) (String c2 s2) =
  match Ascii.compare c1 c2 with
  | Eq => String.compare s1 s2
  | c => c
  end.
Proof. simpl. by destruct (Ascii.compare c1 c2). Qed.

Lemma ascii_compare_digit a b :
  Ascii.compare (Str.digit a) (Str.digit b) = (a mod 10 ?= b mod 10)%nat.
Proof.
  unfold Ascii.compare. rewrite N2Nat.inj_compare.
  change (N.to_nat (N_of_ascii (Str.digit a))) with (nat_of_ascii (Str.digit a)).
  change (N.to_nat (N_of_ascii (Str.digit b))) with (nat_of_ascii (Str.digit b)).
  rewrite !digit_code.
  destruct (Nat.compare_spec (a mod 10) (b mod 10)),
           (Nat.compare_spec (48 + a mod 10) (48 + b mod 10)); try reflexivity; lia.
Qed.

Lemma compare_two_digits n m s t :
  (n < 100)%nat -> (m < 100)%nat ->
  String.compare (Str.two_digits n +:+ s) (Str.two_digits m +:+ t) =
  match (n ?= m)%nat with
  | Eq => String.compare s t
  | c => c
  end.
Proof.
  intros Hn Hm. unfold Str.two_digits.
  rewrite !append_cons, !append_nil_l, !compare_cons, !ascii_compare_digit.
  pose proof (Nat.div_mod_eq n 10) as Dn. pose proof (Nat.div_mod_eq m 10) as Dm.
  pose proof (Nat.mod_upper_bound n 10 ltac:(lia)) as Rn.
  pose proof (Nat.mod_upper_bound m 10 ltac:(lia)) as Rm.
  assert (n / 10 < 10)%nat as Qn by (apply Nat.Div0.div_lt_upper_bound; lia).
  assert (m / 10 < 10)%nat as Qm by (apply Nat.Div0.div_lt_upper_bound; lia).
  rewrite (Nat.mod_small (n / 10)), (Nat.mod_small (m / 10)) by lia.
  destruct (Nat.compare_spec (n / 10) (m / 10)),
           (Nat.compare_spec (n mod 10) (m mod 10)),
           (Nat.compare_spec n m); try reflexivity; lia.
Qed.

Lemma compare_four_digits n m s t :
  (n < 100 * 100)%nat -> (m < 100 * 100)%nat ->
  String.compare (Str.four_digits n +:+ s) (Str.four_digits m +:+ t) =
  match (n ?= m)%nat with
  | Eq => String.compare s t
  | c => c
  end.
Proof.
  intros Hn Hm. unfold Str.four_digits.
  rewrite !append_cons, !append_nil_l, !compare_cons, !ascii_compare_digit.
  remember (n / 1000)%nat as n3 eqn:Hn3. remember (m / 1000)%nat as m3 eqn:Hm3.
  remember (n / 100)%nat as n2 eqn:Hn2. remember (m / 100)%nat as m2 eqn:Hm2.
  remember (n / 10)%nat as n1 eqn:Hn1. remember (m / 10)%nat as m1 eqn:Hm1.
  assert (n2 = n1 / 10)%nat as Hn21 by (subst; by rewrite Nat.Div0.div_div).
  assert (m2 = m1 / 10)%nat as Hm21 by (subst; by rewrite Nat.Div0.div_div).
  assert (n3 = n2 / 10)%nat as Hn32 by (subst n3 n2; by rewrite Nat.Div0.div_div).
  assert (m3 = m2 / 10)%nat as Hm32 by (subst m3 m2; by rewrite Nat.Div0.div_div).
  assert (n3 < 10)%nat by (subst n3; apply Nat.Div0.div_lt_upper_bound; lia).
  assert (m3 < 10)%nat by (subst m3; apply Nat.Div0.div_lt_upper_bound; lia).
  rewrite (Nat.mod_small n3), (Nat.mod_small m3) by lia.
  pose proof (Nat.div_mod_eq n 10) as D0. pose proof (Nat.div_mod_eq m 10) as D0'.
  pose proof (Nat.div_mod_eq n1 10) as D1. pose proof (Nat.div_mod_eq m1 10) as D1'.
  pose proof (Nat.div_mod_eq n2 10) as D2. pose proof (Nat.div_mod_eq m2 10) as D2'.
  rewrite <- Hn1 in D0. rewrite <- Hm1 in D0'.
  rewrite <- Hn21 in D1. rewrite <- Hm21 in D1'.
  rewrite <- Hn32 in D2. rewrite <- Hm32 in D2'.
  pose proof (Nat.mod_upper_bound n 10 ltac:(lia)).
  pose proof (Nat.mod_upper_bound m 10 ltac:(lia)).
  pose proof (Nat.mod_upper_bound n1 10 ltac:(lia)).
  pose proof (Nat.mod_upper_bound m1 10 ltac:(lia)).
  pose proof (Nat.mod_upper_bound n2 10 ltac:(lia)).
  pose proof (Nat.mod_upper_bound m2 10 ltac:(lia)).
  clear Hn3 Hm3 Hn2 Hm2 Hn1 Hm1 Hn21 Hm21 Hn32 Hm32.
  destruct (Nat.compare_spec n3 m3); [| |];
    [destruct (Nat.compare_spec (n2 mod 10) (m2 mod 10)); [| |];
       [destruct (Nat.compare_spec (n1 mod 10) (m1 mod 10)); [| |];
          [destruct (Nat.compare_spec (n mod 10) (m mod 10)); [| |]| |]| |]| |];
    destruct (Nat.compare_spec n m); try reflexivity; lia.
Qed.

Lemma compare_strftime_minute d1 d2 s t :
  valid_datetime d1 -> valid_datetime d2 ->
  String.compare (strftime_minute d1 +:+ s) (strftime_minute d2 +:+ t) =
  match minute_order d1 d2 with
  | Eq => String.compare s t
  | c => c
  end.
Proof.
  intros (Hy1 & Hm1 & Hd1 & Hh1 & Hi1) (Hy2 & Hm2 & Hd2 & Hh2 & Hi2).
  unfold strftime_minute, minute_order. rewrite !append_assoc.
  rewrite compare_four_digits by done. destruct (year d1 ?= year d2)%nat; try reflexivity.
  rewrite compare_two_digits by done. destruct (month d1 ?= month d2)%nat; try reflexivity.
  rewrite compare_two_digits by done. destruct (day d1 ?= day d2)%nat; try reflexivity.
  rewrite !append_cons, !append_nil_l, compare_cons.
  change (Ascii.compare "_" "_") with Eq. cbv iota.
  rewrite compare_two_digits by done. destruct (hour d1 ?= hour d2)%nat; try reflexivity.
  rewrite compare_two_digits by done. reflexivity.
Qed.

Lemma string_compare_refl s : String.compare s s = Eq.
Proof.
  induction s as [|c s IH]; [done|].
  rewrite compare_cons. unfold Ascii.compare. by rewrite N.compare_refl.
Qed.

(** The names of the production run folders of one project sort by
    time: comparing two names character by character gives the order of
    the two readings of the clock, to the minute.  So a listing sorted by
    name shows the runs oldest first, and two runs get the same name
    only when they fall in the same minute. *)
Theorem production_folders_sort_by_time d1 d2 proj_stem :
  valid_datetime d1 -> valid_datetime d2 ->
  String.compare (strftime_minute d1 +:+ "_" +:+ proj_stem)
                 (strftime_minute d2 +:+ "_" +:+ proj_stem) = minute_order d1 d2.
Proof.
  intros H1 H2. rewrite compare_strftime_minute by done.
  rewrite string_compare_refl. by destruct (minute_order d1 d2).
Qed.

Lemma production_folders_sort_by_time_witness :
  String.compare "20240305_1407_board" "20240305_1408_board" = Lt.
Proof.
  exact (production_folders_sort_by_time Fixture.noon
           (mkDatetime 2024 3 5 14 8 0) "board"
           ltac:(vm_compute; repeat split; lia) ltac:(vm_compute; repeat split; lia)).
Defined.

(* ===================================================================== *)
(** * No file is written twice                                            *)
(* ===================================================================== *)










(* ===================================================================== *)
(** * The commands are told to write to absolute paths                    *)
(* ===================================================================== *)

Lemma norm_step_head a l c : exists l', norm_step (a :: l) c = a :: l'.
Proof.
  unfold norm_step. destruct (String.eqb c "..").
  - destruct l as [|x l]; [by exists []|]. by exists (removelast (x :: l)).
  - by exists (l ++ [c]).
Qed.

Lemma fold_norm_step_head ps : forall a l,
  exists l', fold_left norm_step ps (a :: l) = a :: l'.
Proof.
  induction ps as [|c ps IH]; intros a l; simpl; [by exists l|].
  destruct (norm_step_head a l c) as [l' ->]. apply IH.
Qed.

Lemma parse_anchor s : anchor (parse s) = "" \/ anchor (parse s) = "/" \/ anchor (parse s) = "//".
Proof.
  unfold parse. cbn [anchor].
  destruct (Str.leading_slashes s) as [|[|[|n]]]; tauto.
Qed.

(** [resolve] makes the path of a command-line argument absolute, when
    the working directory is. *)
Lemma resolve_absolute E s :
  (exists l, cwd E = "/" :: l) -> is_absolute (resolve E (parse s)) = true.
Proof.
  intros [l Hcwd]. unfold resolve, location.
  destruct (parse_anchor s) as [Ha|[Ha|Ha]]; rewrite Ha; cbn [String.eqb].
  - rewrite Hcwd. by destruct (fold_norm_step_head (parts (parse s)) "/" l) as [l' ->].
  - by destruct (fold_norm_step_head (parts (parse s)) "/" []) as [l' ->].
  - by destruct (fold_norm_step_head (parts (parse s)) "//" []) as [l' ->].
Qed.

Lemma joinpath_keeps_absolute p s : is_absolute p = true -> is_absolute (p // s) = true.
Proof.
  intros Hp. unfold joinpath.
  destruct (parse_anchor s) as [Ha|[Ha|Ha]]; rewrite Ha; cbn [String.eqb]; [done| |];
    unfold is_absolute; by rewrite Ha.
Qed.

Lemma str_absolute p : is_absolute p = true -> String.prefix "/" (str p) = true.
Proof.
  unfold is_absolute, str. destruct (anchor p) as [|c a]; [done|].
  intros H. rewrite append_cons. cbn [String.prefix] in *.
  destruct (ascii_dec "/" c); [|discriminate H].
  by destruct (a +:+ Str.join "/" (parts p)).
Qed.

(** Whatever the [--root] and [--prod-dir] arguments look like, every
    command of a run is told to write to an absolute path (one that
    starts with a slash), because the root is resolved against the
    working directory first; so the outputs land under the root even if
    a tool runs with another working directory. *)
Theorem outputs_are_absolute E args w kicad proj_stem sch_path pcb_path :
  (exists l, cwd E = "/" :: l) ->
  fst (which_kicad_cli E w) = Ok kicad ->
  fst (project_paths E (parse (project args)) w) = Ok (proj_stem, sch_path, pcb_path) ->
  exists evs,
    emitted w (snd (script E args w)) evs /\
    Forall (fun argv => exists o, destination argv = Some o /\ String.prefix "/" o = true)
           (spawns (actions evs)).
Proof.
  intros Hcwd Hk Hp.
  destruct (run_commands_Forall E args w kicad proj_stem sch_path pcb_path
              (fun _ argv => exists o, destination argv = Some o /\ String.prefix "/" o = true)
              Hk Hp) as (evs & tag & Hem & _ & Hall).
  - intros tag kik. each_request args;
      (eexists; split; [reflexivity|]; apply str_absolute; unfold prod_root_of;
       repeat apply joinpath_keeps_absolute; by apply resolve_absolute).
  - by exists evs.
Qed.

Lemma outputs_are_absolute_witness :
  exists evs,
    emitted Fixture.w0 (snd (script (Fixture.env None Fixture.never) Fixture.args0 Fixture.w0))
      evs /\
    Forall (fun argv => exists o, destination argv = Some o /\ String.prefix "/" o = true)
           (spawns (actions evs)).
Proof.
  apply (outputs_are_absolute (Fixture.env None Fixture.never) Fixture.args0 Fixture.w0
           "/usr/bin/kicad-cli" "board" (parse "board.kicad_sch") (parse "board.kicad_pcb")).
  - by exists ["work"].
  - vm_compute. reflexivity.
  - vm_compute. reflexivity.
Defined.
